(** * fhevoting: the vote-encryption adapter and the voting-contract client

    A shallow embedding of [src/lib/fhevm.ts] (class [FHEVMClient]) and
    [src/lib/contract.ts] (class [VotingContract]), and the properties the
    specification states about them.

    - JavaScript numbers are IEEE-754 binary64 values.  Every number the
      modelled code computes with is integer valued, so a number is an
      integer [Num z], an infinity or [NaN], and each arithmetic operation
      rounds its exact result to binary64 ([to_number]).
    - A [Uint8Array] is a list of bytes; a store at an index outside the
      array is ignored, as for every typed array.
    - [async] methods run sequentially: an [await] is a monadic bind in a
      state-and-exception monad whose state holds the two singleton objects
      ([fhevmClient], [votingContract]) and the history of the calls made to
      the outside world (wallet provider, gateway, FHE library, contract). *)

From Stdlib Require Import ZArith List Strings.String Strings.Ascii Strings.Byte Bool Lia.
From Stdlib Require Floats.SpecFloat.
From stdpp Require Import base list.

Local Open Scope Z_scope.

(** ** JavaScript numbers *)

Module JS.

Inductive number : Type :=
| Num (z : Z)                 (* a finite, integer-valued number *)
| Infinity (negative : bool)
| NaN.

(** Rounding of an integer to the nearest integer with at most 53
    significant bits, ties to even: the value binary64 keeps of it. *)
Definition round_even (z : Z) : Z :=
  let a := Z.abs z in
  if a <? 2 ^ 53 then z
  else
    let e := Z.log2 a - 52 in
    let q := a / 2 ^ e in
    let r := a mod 2 ^ e in
    let half := 2 ^ (e - 1) in
    let q' := if r <? half then q
              else if half <? r then q + 1
              else if Z.even q then q else q + 1 in
    Z.sgn z * (q' * 2 ^ e).

(** The Number value for an exact integer result: rounded, and an infinity
    from 2^1024 on. *)
Definition to_number (z : Z) : number :=
  let r := round_even z in
  if Z.abs r <? 2 ^ 1024 then Num r else Infinity (z <? 0).

(** [x * y] *)
Definition mul (x y : number) : number :=
  match x, y with
  | Num a, Num b => to_number (a * b)
  | Infinity s, Num b | Num b, Infinity s =>
      if b =? 0 then NaN else Infinity (xorb s (b <? 0))
  | Infinity s, Infinity t => Infinity (xorb s t)
  | NaN, _ | _, NaN => NaN
  end.

(** [x + y] *)
Definition add (x y : number) : number :=
  match x, y with
  | Num a, Num b => to_number (a + b)
  | Infinity s, Num _ | Num _, Infinity s => Infinity s
  | Infinity s, Infinity t => if eqb s t then Infinity s else NaN
  | NaN, _ | _, NaN => NaN
  end.

(** [x % y]: the remainder has the sign of the dividend and is exact. *)
Definition rem (x y : number) : number :=
  match x, y with
  | Num a, Num b => if b =? 0 then NaN else Num (Z.rem a b)
  | Num a, Infinity _ => Num a
  | Infinity _, _ => NaN
  | NaN, _ | _, NaN => NaN
  end.

(** [x === y] *)
Definition strict_eq (x y : number) : bool :=
  match x, y with
  | Num a, Num b => a =? b
  | Infinity s, Infinity t => eqb s t
  | _, _ => false
  end.

(** [Number(b)] for a BigInt [b]. *)
Definition Number_of_bigint (b : Z) : number := to_number b.

End JS.

Declare Scope js_scope.
Delimit Scope js_scope with js.
Infix "*" := JS.mul : js_scope.
Infix "+" := JS.add : js_scope.
Infix "%" := JS.rem (at level 40, left associativity) : js_scope.
Coercion JS.Num : Z >-> JS.number.

(** ** Typed arrays *)

Abbreviation Uint8Array := (list byte).

Definition Z_of_byte (b : byte) : Z := Z.of_N (Byte.to_N b).

Definition byte_of_Z (z : Z) : byte :=
  match Byte.of_N (Z.to_N (z mod 256)) with
  | Some b => b
  | None => x00
  end.

(** ToUint8, the conversion a [Uint8Array] applies to a stored number. *)
Definition ToUint8 (x : JS.number) : byte :=
  match x with
  | JS.Num z => byte_of_Z z
  | _ => x00
  end.

(** [new Uint8Array(n)] *)
Definition new_Uint8Array (n : nat) : Uint8Array := replicate n x00.

(** ** The ciphertext of [encrypt32]

    [data] is read from the backend's answer as it is, so it may be
    [undefined] ([None]); [proof] is always an array. *)
Record Ciphertext : Type := mkCiphertext {
  data : option Uint8Array;
  proof : Uint8Array
}.

(** ** [FHEVMClient.simulateEncryption]

    The loop fills both arrays index by index; the [seed] string the
    method makes first is never used. *)

Definition simulate_step (value : JS.number)
    (acc : Uint8Array * Uint8Array) (i : nat) : Uint8Array * Uint8Array :=
  let n : JS.number := JS.Num (Z.of_nat i) in
  (<[ i := ToUint8 ((value * 7 + n * 13) % 256)%js ]> (fst acc),
   <[ i := ToUint8 ((value * 11 + n * 17) % 256)%js ]> (snd acc)).

Definition simulateEncryption (value : JS.number) : Ciphertext :=
  let data0 := new_Uint8Array 32 in
  let proof0 := new_Uint8Array 32 in
  let r := fold_left (simulate_step value) (seq 0 32) (data0, proof0) in
  {| data := Some (fst r); proof := snd r |}.

(** The bytes of a ciphertext, read as numbers. *)
Definition data_byte (c : Ciphertext) (i : nat) : option Z :=
  match data c with
  | Some d => Z_of_byte <$> d !! i
  | None => None
  end.

Definition proof_byte (c : Ciphertext) (i : nat) : option Z :=
  Z_of_byte <$> proof c !! i.

(** ** The byte/hex codec: [toHexString] and [fromHexString] *)

Module Codec.

Local Open Scope string_scope.

(** One digit of [Number.prototype.toString(16)]. *)
Definition hex_digit (n : N) : ascii :=
  if (n <? 10)%N then ascii_of_N (48 + n) else ascii_of_N (87 + n).

(** [byte.toString(16)] for an element of a [Uint8Array]: one or two
    lower-case digits, no leading zero. *)
Definition toString16 (b : byte) : string :=
  let n := Byte.to_N b in
  if (n <? 16)%N then String (hex_digit n) ""
  else String (hex_digit (n / 16)) (String (hex_digit (n mod 16)) "").

(** The first [n] characters of [pad] repeated for ever ([cur] is what is
    left of the current copy). *)
Fixpoint cycle_take (n : nat) (pad cur : string) : string :=
  match n with
  | O => ""
  | S n' =>
      match cur with
      | String c rest => String c (cycle_take n' pad rest)
      | "" =>
          match pad with
          | String c rest => String c (cycle_take n' pad rest)
          | "" => ""
          end
      end
  end.

(** [s.padStart(targetLength, pad)] *)
Definition padStart (targetLength : nat) (pad s : string) : string :=
  if (targetLength <=? String.length s)%nat then s
  else cycle_take (targetLength - String.length s) pad pad ++ s.

(** [parts.join('')] *)
Definition join (parts : list string) : string := String.concat "" parts.

(** [FHEVMClient.toHexString] *)
Definition toHexString (bytes : Uint8Array) : string :=
  "0x" ++ join (map (fun b => padStart 2 "0" (toString16 b)) bytes).

(** [s.startsWith(p)], [s.slice(n)] and [s.substr(i, n)] *)
Definition startsWith (p s : string) : bool := String.prefix p s.

Definition slice (n : nat) (s : string) : string :=
  String.substring n (String.length s - n) s.

Definition substr (i n : nat) (s : string) : string := String.substring i n s.

(** *** [parseInt(s, 16)] *)

(** The white space [parseInt] skips, among the code units below 256. *)
Definition is_white_space (c : ascii) : bool :=
  let n := N_of_ascii c in
  ((9 <=? n) && (n <=? 13) || (n =? 32) || (n =? 160))%N.

Fixpoint skip_white_space (s : string) : string :=
  match s with
  | String c rest => if is_white_space c then skip_white_space rest else s
  | "" => s
  end.

(** The value of a digit in radix 16, either case. *)
Definition hex_value (c : ascii) : option Z :=
  let n := Z.of_N (N_of_ascii c) in
  if ((48 <=? n) && (n <=? 57))%Z then Some (n - 48)
  else if ((97 <=? n) && (n <=? 102))%Z then Some (n - 87)
  else if ((65 <=? n) && (n <=? 70))%Z then Some (n - 55)
  else None.

(** The value of the longest prefix of digits, [None] when it is empty. *)
Fixpoint parse_digits (s : string) (acc : option Z) : option Z :=
  match s with
  | String c rest =>
      match hex_value c with
      | Some d =>
          parse_digits rest
            (Some (match acc with Some a => 16 * a + d | None => d end))
      | None => acc
      end
  | "" => acc
  end.

Definition strip_hex_prefix (s : string) : string :=
  match s with
  | String "0" (String "x" rest) | String "0" (String "X" rest) => rest
  | _ => s
  end.

Definition parseInt16 (s : string) : JS.number :=
  let s1 := skip_white_space s in
  let '(negative, s2) :=
    match s1 with
    | String "-" rest => (true, rest)
    | String "+" rest => (false, rest)
    | _ => (false, s1)
    end in
  match parse_digits (strip_hex_prefix s2) None with
  | Some m => JS.to_number (if negative : bool then - m else m)
  | None => JS.NaN
  end.

(** *** [FHEVMClient.fromHexString]

    The loop [for (i = 0; i < cleanHex.length; i += 2)]; [fuel] bounds the
    number of iterations, and [cleanHex.length] of them are enough. *)
Fixpoint fromHex_loop (fuel : nat) (cleanHex : string) (i : nat)
    (bytes : Uint8Array) : Uint8Array :=
  match fuel with
  | O => bytes
  | S fuel' =>
      if (i <? String.length cleanHex)%nat then
        fromHex_loop fuel' cleanHex (i + 2)
          (<[ (i / 2)%nat := ToUint8 (parseInt16 (substr i 2 cleanHex)) ]> bytes)
      else bytes
  end.

Definition fromHexString (hex : string) : Uint8Array :=
  let cleanHex := if startsWith "0x" hex then slice 2 hex else hex in
  (* a fractional length is truncated by the constructor *)
  let bytes := new_Uint8Array (String.length cleanHex / 2) in
  fromHex_loop (String.length cleanHex) cleanHex 0 bytes.

(** [FHEVMClient.createExternalInput] *)
Definition createExternalInput (encryptedData : Uint8Array) : string :=
  toHexString encryptedData.

End Codec.

(** ** Thrown values, outcomes and the outside world *)

(** A thrown value: an [Error] made by the code, a [TypeError] raised by
    the runtime, or whatever a collaborator throws. *)
Inductive exn : Type :=
| JsError (message : string)
| TypeError (message : string)
| Thrown (tag : nat).

(** How a collaborator answers a call. *)
Inductive answer (A : Type) : Type :=
| Returns (a : A)
| Throws (e : exn).
Arguments Returns {A} a.
Arguments Throws {A} e.

(** How a computation ends.  [OutOfFuel] is the model's account of a loop
    that has not finished within the given number of iterations; no
    [catch] sees it. *)
Inductive outcome (A : Type) : Type :=
| Ok (a : A)
| Throw (e : exn)
| OutOfFuel.
Arguments Ok {A} a.
Arguments Throw {A} e.
Arguments OutOfFuel {A}.

(** Handles of the objects the code holds but does not look into. *)
Definition Provider : Type := nat.  (* ethers BrowserProvider *)
Definition Handle : Type := nat.    (* the instance made by fhevmjs *)
Definition Signer : Type := nat.
Definition ContractHandle : Type := nat.  (* ethers Contract *)
Definition Tx : Type := nat.        (* a transaction response *)

Record Network : Type := { chainId : Z; name : string }.

(** The body of the gateway's answer: [null] ([None]) or an object with
    the two optional key fields. *)
Record KeyFields : Type := {
  kf_publicKey : option string;
  kf_public_key : option string
}.

Record Response : Type := {
  ok : bool;
  json : answer (option KeyFields)
}.

(** The options [createInstance] is called with. *)
Record InstanceConfig : Type := {
  cfg_chainId : Z;
  cfg_publicKey : string;
  cfg_gatewayUrl : string;
  cfg_aclAddress : string
}.

(** What the backend's [encrypt32] returns: [None] for [null] or
    [undefined], else an object whose two fields may be missing. *)
Record BackendCipher : Type := {
  b_data : option Uint8Array;
  b_proof : option Uint8Array
}.

(** A receipt; [status] is a number or [null]. *)
Record Receipt : Type := { status : option Z }.

Module Remote.
(** A proposal as the contract returns it ([uint256] fields are BigInts). *)
Record ProposalData : Type := {
  id : Z;
  title : string;
  description : string;
  options : list string;
  startTime : Z;
  endTime : Z;
  totalVotes : Z;
  creator : string;
  active : bool;
  resultsRevealed : bool;
  revealedResults : list Z
}.
End Remote.

(** The calls made to the outside world. *)
Inductive Call : Type :=
| CallGetNetwork (p : Provider)
| CallFetch (url : string)
| CallImportFhevmjs
| CallCreateInstance (cfg : InstanceConfig)
| CallBackendEncrypt32 (h : Handle) (value : JS.number)
| CallGetAddress
| CallIsAuthorizedVoter (voter : string)
| CallIsAdmin (admin : string)
| CallProposalCount
| CallHasVoted (proposalId : Z) (voter : string)
| CallGetActiveProposals
| CallCreateProposal (title description : string) (options : list string)
    (duration : JS.number)
| CallCastVote (proposalId optionIndex : JS.number)
    (encryptedVote inputProof : string)
| CallRevealResults (proposalId : JS.number)
| CallAuthorizeVoter (voter : string)
| CallAuthorizeVoters (voters : list string)
| CallTxWait (tx : Tx)
| CallRandomBytes (length : nat).

Definition History : Type := list Call.

(** The outside world.  Each answer may depend on every call made before
    it, which covers any collaborator with a state of its own. *)
Record Env : Type := {
  (* configuration *)
  VITE_ZAMA_ACL_ADDRESS : option string;
  (* wallet provider, gateway and FHE library *)
  provider_getNetwork : History -> Provider -> answer Network;
  fetch : History -> string -> answer Response;
  import_fhevmjs : History -> answer unit;
  createInstance : History -> InstanceConfig -> answer Handle;
  instance_encrypt32 :
    History -> Handle -> JS.number -> answer (option BackendCipher);
  (* signer and contract *)
  signer_getAddress : History -> answer string;
  contract_isAuthorizedVoter : History -> string -> answer bool;
  contract_isAdmin : History -> string -> answer bool;
  contract_proposalCount : History -> answer Z;
  contract_hasVoted : History -> Z -> string -> answer bool;
  contract_getActiveProposals : History -> answer (list Remote.ProposalData);
  contract_createProposal :
    History -> string -> string -> list string -> JS.number -> answer Tx;
  contract_castVote :
    History -> JS.number -> JS.number -> string -> string -> answer Tx;
  contract_revealResults : History -> JS.number -> answer Tx;
  contract_authorizeVoter : History -> string -> answer Tx;
  contract_authorizeVoters : History -> list string -> answer Tx;
  tx_wait : History -> Tx -> answer (option Receipt);
  (* ethers helpers *)
  ethers_randomBytes : History -> nat -> Uint8Array;
  ethers_hexlify : Uint8Array -> string
}.

(** ** The two singleton objects and the store *)

(** The fields of [FHEVMClient]. *)
Record FHEVMClient : Type := {
  instance : option Handle;
  provider : option Provider;
  isReady : bool;
  publicKey : option string
}.

(** The fields of [VotingContract] ([walletProvider] is its [provider]). *)
Record VotingContract : Type := {
  contract : option ContractHandle;
  walletProvider : option Provider;
  signer : option Signer;
  isFHEVMEnabled : bool
}.

Record Store : Type := {
  fhevmClient : FHEVMClient;
  votingContract : VotingContract;
  history : History
}.

(** ** The monad of [async] methods *)

Definition M (A : Type) : Type := Env -> Store -> outcome A * Store.

Definition ret {A} (a : A) : M A := fun _ s => (Ok a, s).

Definition bind {A B} (m : M A) (k : A -> M B) : M B :=
  fun env s =>
    match m env s with
    | (Ok a, s') => k a env s'
    | (Throw e, s') => (Throw e, s')
    | (OutOfFuel, s') => (OutOfFuel, s')
    end.

Definition throw {A} (e : exn) : M A := fun _ s => (Throw e, s).

(** [try { m } catch (e) { handler e }] *)
Definition try_catch {A} (m : M A) (handler : exn -> M A) : M A :=
  fun env s =>
    match m env s with
    | (Throw e, s') => handler e env s'
    | r => r
    end.

Declare Scope async_scope.
Delimit Scope async_scope with async.
Notation "x <- m ;; k" := (bind m (fun x => k))
  (at level 100, m at next level, right associativity) : async_scope.
Notation "m ;; k" := (bind m (fun _ => k))
  (at level 100, right associativity) : async_scope.
Notation "'try' m 'catch' h" := (try_catch m h)
  (at level 100, m at level 99, h at level 99) : async_scope.

Definition outcome_of {A} (r : answer A) : outcome A :=
  match r with
  | Returns a => Ok a
  | Throws e => Throw e
  end.

(** The store after one call to the outside world. *)
Definition called (c : Call) (s : Store) : Store :=
  {| fhevmClient := fhevmClient s;
     votingContract := votingContract s;
     history := history s ++ [c] |}.

(** A call to the outside world: recorded, then answered. *)
Definition call {A} (c : Call) (f : Env -> History -> answer A) : M A :=
  fun env s => (outcome_of (f env (history s)), called c s).

(** A request that is started now and awaited later ([Promise.all]): the
    call is recorded and its outcome kept as a value. *)
Definition request {A} (c : Call) (f : Env -> History -> answer A)
  : M (answer A) :=
  fun env s => (Ok (f env (history s)), called c s).

(** [await] of a started request. *)
Definition settle {A} (r : answer A) : M A := fun _ s => (outcome_of r, s).

Definition get_client : M FHEVMClient := fun _ s => (Ok (fhevmClient s), s).
Definition get_contract : M VotingContract :=
  fun _ s => (Ok (votingContract s), s).
Definition get_env : M Env := fun env s => (Ok env, s).

Definition modify_client (f : FHEVMClient -> FHEVMClient) : M unit :=
  fun _ s =>
    (Ok tt,
     {| fhevmClient := f (fhevmClient s);
        votingContract := votingContract s;
        history := history s |}).

(** [debugLog] and [console.log] write to the console only. *)
Definition debugLog : M unit := ret tt.

(** A string is truthy when it is present and not empty. *)
Definition truthy (s : option string) : bool :=
  match s with
  | Some s => negb (String.eqb s "")
  | None => false
  end.

(** [a || b] on optional strings. *)
Definition or_else (a b : option string) : option string :=
  if truthy a then a else b.

(** ** [FHEVMClient] ([src/lib/fhevm.ts]) *)

Module Fhevm.

Import Codec.
Local Open Scope async_scope.
Local Open Scope string_scope.

(** [ZAMA_CONFIG.aclAddress] *)
Definition ZAMA_CONFIG_aclAddress (env : Env) : string :=
  match or_else (VITE_ZAMA_ACL_ADDRESS env)
                (Some "0x50157CFfD6bBFA2DECe204a89ec419c23ef5755D") with
  | Some a => a
  | None => ""
  end.

Definition set_provider (p : Provider) (c : FHEVMClient) : FHEVMClient :=
  {| instance := instance c; provider := Some p;
     isReady := isReady c; publicKey := publicKey c |}.

Definition set_instance (h : Handle) (c : FHEVMClient) : FHEVMClient :=
  {| instance := Some h; provider := provider c;
     isReady := isReady c; publicKey := publicKey c |}.

Definition set_isReady (b : bool) (c : FHEVMClient) : FHEVMClient :=
  {| instance := instance c; provider := provider c;
     isReady := b; publicKey := publicKey c |}.

Definition set_publicKey (k : option string) (c : FHEVMClient) : FHEVMClient :=
  {| instance := instance c; provider := provider c;
     isReady := isReady c; publicKey := k |}.

Definition public_key_url : string :=
  "https://gateway.sepolia.zama.ai/public-key".

(** [fetchPublicKey] *)
Definition fetchPublicKey : M unit :=
  try (
    debugLog ;;
    response <- call (CallFetch public_key_url)
                  (fun env h => fetch env h public_key_url) ;;
    if ok response then
      body <- settle (json response) ;;
      match body with
      | Some fields =>
          modify_client
            (set_publicKey (or_else (kf_publicKey fields) (kf_public_key fields))) ;;
          debugLog
      | None => throw (TypeError "Cannot read properties of null")
      end
    else
      debugLog ;;
      modify_client (set_publicKey None)
  ) catch (fun error =>
    debugLog ;;
    modify_client (set_publicKey None)).

(** ["0".repeat(n)] *)
Fixpoint repeat_zero (n : nat) : string :=
  match n with
  | O => ""
  | S n' => String "0" (repeat_zero n')
  end.

(** [getDefaultPublicKey] *)
Definition getDefaultPublicKey : M string :=
  let fallbackKey := "0x" ++ repeat_zero 64 in
  debugLog ;;
  ret fallbackKey.

(** [init] *)
Definition init (provider : Provider) : M unit :=
  modify_client (set_provider provider) ;;
  try (
    debugLog ;;
    network <- call (CallGetNetwork provider)
                 (fun env h => provider_getNetwork env h provider) ;;
    let chainId := JS.Number_of_bigint (chainId network) in
    debugLog ;;
    (if negb (JS.strict_eq chainId (JS.Num 11155111)) then debugLog
     else ret tt) ;;
    fetchPublicKey ;;
    try (
      call CallImportFhevmjs import_fhevmjs ;;
      debugLog ;;
      this <- get_client ;;
      env <- get_env ;;
      key <- (if truthy (publicKey this)
              then ret (match publicKey this with Some k => k | None => "" end)
              else getDefaultPublicKey) ;;
      let cfg := {| cfg_chainId := 11155111;
                    cfg_publicKey := key;
                    cfg_gatewayUrl := "https://gateway.sepolia.zama.ai";
                    cfg_aclAddress := ZAMA_CONFIG_aclAddress env |} in
      h <- call (CallCreateInstance cfg) (fun env h => createInstance env h cfg) ;;
      modify_client (set_instance h) ;;
      modify_client (set_isReady true) ;;
      debugLog
    ) catch (fun fhevmError =>
      debugLog ;;
      modify_client (set_isReady false))
  ) catch (fun error =>
    debugLog ;;
    modify_client (set_isReady false) ;;
    throw error).

(** [encrypt32] *)
Definition encrypt32 (value : JS.number) : M Ciphertext :=
  this <- get_client ;;
  match isReady this, instance this with
  | true, Some h =>
      try (
        debugLog ;;
        encrypted <- call (CallBackendEncrypt32 h value)
                       (fun env hist => instance_encrypt32 env hist h value) ;;
        match encrypted with
        | Some e =>
            debugLog ;;
            ret {| data := b_data e;
                   proof := match b_proof e with
                            | Some p => p
                            | None => new_Uint8Array 0
                            end |}
        | None => throw (TypeError "Cannot read properties of undefined")
        end
      ) catch (fun error =>
        debugLog ;;
        ret (simulateEncryption value))
  | _, _ =>
      debugLog ;;
      ret (simulateEncryption value)
  end.

(** The result of [encryptVote]. *)
Record EncryptedVote : Type := {
  encryptedVote : option Uint8Array;
  inputProof : Uint8Array
}.

(** [encryptVote] *)
Definition encryptVote (vote : JS.number) : M EncryptedVote :=
  if negb (JS.strict_eq vote (JS.Num 0)) && negb (JS.strict_eq vote (JS.Num 1))
  then throw (JsError "Vote must be 0 or 1")
  else
    debugLog ;;
    encrypted <- encrypt32 vote ;;
    ret {| encryptedVote := data encrypted; inputProof := proof encrypted |}.

(** [isInitialized] *)
Definition isInitialized (this : FHEVMClient) : bool :=
  isReady this && match instance this with Some _ => true | None => false end.

(** [toHexString] applied to a value that may be [undefined]:
    [Array.from(undefined)] throws. *)
Definition toHexString_of (bytes : option Uint8Array) : M string :=
  match bytes with
  | Some b => debugLog ;; ret (toHexString b)
  | None => throw (TypeError "undefined is not iterable")
  end.

End Fhevm.

(** ** [VotingContract] ([src/lib/contract.ts]) *)

Record UserProfile : Type := {
  address : string;
  isAuthorized : bool;
  isAdmin : bool;
  votedProposals : list JS.number
}.

(** A proposal as the client returns it (every numeric field a number). *)
Record Proposal : Type := {
  id : JS.number;
  title : string;
  description : string;
  options : list string;
  startTime : JS.number;
  endTime : JS.number;
  totalVotes : JS.number;
  creator : string;
  active : bool;
  resultsRevealed : bool;
  revealedResults : list JS.number;
  hasVoted : bool
}.

Module Contract.

Import Codec.
Local Open Scope async_scope.
Local Open Scope string_scope.

Definition is_null {A} (x : option A) : bool :=
  match x with Some _ => false | None => true end.

(** [i < proposalCount], a number against a BigInt: the comparison is the
    mathematical one. *)
Definition lt_bigint (i : JS.number) (n : Z) : bool :=
  match i with
  | JS.Num z => (z <? n)%Z
  | JS.Infinity negative => negative
  | JS.NaN => false
  end.

(** The number a loop counter stands for when it is passed to the
    contract. *)
Definition index_of (i : JS.number) : Z :=
  match i with JS.Num z => z | _ => 0 end.

(** The loop of [getUserProfile]:
    [for (let i = 0; i < proposalCount; i++)]. *)
Fixpoint votedProposals_loop (fuel : nat) (i : JS.number) (proposalCount : Z)
    (address : string) (votedProposals : list JS.number)
  : M (list JS.number) :=
  match fuel with
  | O => fun _ s => (OutOfFuel, s)
  | S fuel' =>
      if lt_bigint i proposalCount then
        votedProposals' <-
          (try (
             hasVoted <- call (CallHasVoted (index_of i) address)
                           (fun env h => contract_hasVoted env h (index_of i) address) ;;
             ret (if hasVoted : bool then votedProposals ++ [i]
                  else votedProposals)%list
           ) catch (fun error =>
             debugLog ;;
             ret votedProposals)) ;;
        votedProposals_loop fuel' (i + JS.Num 1)%js proposalCount address
          votedProposals'
      else ret votedProposals
  end.

(** [getUserProfile]; [fuel] bounds the iterations of its loop. *)
Definition getUserProfile (fuel : nat) : M (option UserProfile) :=
  this <- get_contract ;;
  if is_null (signer this) || is_null (contract this) then ret None
  else
    try (
      address <- call CallGetAddress signer_getAddress ;;
      p1 <- request (CallIsAuthorizedVoter address)
              (fun env h => contract_isAuthorizedVoter env h address) ;;
      p2 <- request (CallIsAdmin address)
              (fun env h => contract_isAdmin env h address) ;;
      isAuthorized <- settle p1 ;;
      isAdmin <- settle p2 ;;
      proposalCount <- call CallProposalCount contract_proposalCount ;;
      votedProposals <-
        votedProposals_loop fuel (JS.Num 0) proposalCount address [] ;;
      ret (Some {| address := address;
                   isAuthorized := isAuthorized;
                   isAdmin := isAdmin;
                   votedProposals := votedProposals |})
    ) catch (fun error =>
      debugLog ;;
      ret None).

(** One round of the loop of [getActiveProposals]. *)
Definition convert_proposal (userAddress : option string)
    (proposalData : Remote.ProposalData) : M Proposal :=
  hasVoted <-
    match userAddress with
    | Some a =>
        if truthy userAddress then
          try (
            call (CallHasVoted (Remote.id proposalData) a)
              (fun env h => contract_hasVoted env h (Remote.id proposalData) a)
          ) catch (fun error =>
            debugLog ;;
            ret false)
        else ret false
    | None => ret false
    end ;;
  ret {| id := JS.Number_of_bigint (Remote.id proposalData);
         title := Remote.title proposalData;
         description := Remote.description proposalData;
         options := Remote.options proposalData;
         startTime :=
           (JS.Number_of_bigint (Remote.startTime proposalData) * JS.Num 1000)%js;
         endTime :=
           (JS.Number_of_bigint (Remote.endTime proposalData) * JS.Num 1000)%js;
         totalVotes := JS.Number_of_bigint (Remote.totalVotes proposalData);
         creator := Remote.creator proposalData;
         active := Remote.active proposalData;
         resultsRevealed := Remote.resultsRevealed proposalData;
         revealedResults :=
           map JS.Number_of_bigint (Remote.revealedResults proposalData);
         hasVoted := hasVoted |}.

(** [for (const proposalData of proposalsData) { ... proposals.push(...) }] *)
Fixpoint convert_proposals (userAddress : option string)
    (proposalsData : list Remote.ProposalData) (proposals : list Proposal)
  : M (list Proposal) :=
  match proposalsData with
  | [] => ret proposals
  | proposalData :: rest =>
      proposal <- convert_proposal userAddress proposalData ;;
      convert_proposals userAddress rest (proposals ++ [proposal])%list
  end.

(** [getActiveProposals] *)
Definition getActiveProposals : M (list Proposal) :=
  this <- get_contract ;;
  if is_null (contract this) then ret []
  else
    try (
      proposalsData <- call CallGetActiveProposals contract_getActiveProposals ;;
      userAddress <-
        (if is_null (signer this) then ret None
         else a <- call CallGetAddress signer_getAddress ;; ret (Some a)) ;;
      convert_proposals userAddress proposalsData []
    ) catch (fun error =>
      debugLog ;;
      ret []).

(** [const receipt = await tx.wait(); return receipt.status === 1] *)
Definition confirmed (tx : Tx) : M bool :=
  receipt <- call (CallTxWait tx) (fun env h => tx_wait env h tx) ;;
  debugLog ;;
  match receipt with
  | Some r =>
      ret (match status r with Some s => (s =? 1)%Z | None => false end)
  | None => throw (TypeError "Cannot read properties of null")
  end.

(** [createProposal] *)
Definition createProposal (title description : string) (options : list string)
    (duration : JS.number) : M bool :=
  this <- get_contract ;;
  if is_null (contract this) then ret false
  else
    try (
      debugLog ;;
      tx <- call (CallCreateProposal title description options duration)
              (fun env h =>
                 contract_createProposal env h title description options duration) ;;
      debugLog ;;
      confirmed tx
    ) catch (fun error =>
      debugLog ;;
      throw error).

(** The simulated submission of [castVote]: two draws of random bytes and
    the remote write. *)
Definition castVote_simulated (proposalId optionIndex : JS.number) : M Tx :=
  simulatedEncryption <- call (CallRandomBytes 32)
                           (fun env h => Returns (ethers_randomBytes env h 32%nat)) ;;
  simulatedProof <- call (CallRandomBytes 32)
                      (fun env h => Returns (ethers_randomBytes env h 32%nat)) ;;
  env <- get_env ;;
  let e := ethers_hexlify env simulatedEncryption in
  let p := ethers_hexlify env simulatedProof in
  call (CallCastVote proposalId optionIndex e p)
    (fun env h => contract_castVote env h proposalId optionIndex e p).

(** [castVote] *)
Definition castVote (proposalId optionIndex : JS.number) : M bool :=
  this <- get_contract ;;
  if is_null (contract this) then ret false
  else
    try (
      debugLog ;;
      client <- get_client ;;
      tx <-
        (if isFHEVMEnabled this && Fhevm.isInitialized client then
           debugLog ;;
           try (
             vote <- Fhevm.encryptVote (JS.Num 1) ;;
             encryptedVoteHex <- Fhevm.toHexString_of (Fhevm.encryptedVote vote) ;;
             debugLog ;;
             proofHex <- Fhevm.toHexString_of (Some (Fhevm.inputProof vote)) ;;
             tx <- call (CallCastVote proposalId optionIndex
                           encryptedVoteHex proofHex)
                     (fun env h =>
                        contract_castVote env h proposalId optionIndex
                          encryptedVoteHex proofHex) ;;
             debugLog ;;
             ret tx
           ) catch (fun fheError =>
             debugLog ;;
             castVote_simulated proposalId optionIndex)
         else
           debugLog ;;
           castVote_simulated proposalId optionIndex) ;;
      debugLog ;;
      confirmed tx
    ) catch (fun error =>
      debugLog ;;
      throw error).

(** [revealResults] *)
Definition revealResults (proposalId : JS.number) : M bool :=
  this <- get_contract ;;
  if is_null (contract this) then ret false
  else
    try (
      debugLog ;;
      tx <- call (CallRevealResults proposalId)
              (fun env h => contract_revealResults env h proposalId) ;;
      debugLog ;;
      confirmed tx
    ) catch (fun error =>
      debugLog ;;
      throw error).

(** [authorizeVoter] *)
Definition authorizeVoter (voterAddress : string) : M bool :=
  this <- get_contract ;;
  if is_null (contract this) then ret false
  else
    try (
      tx <- call (CallAuthorizeVoter voterAddress)
              (fun env h => contract_authorizeVoter env h voterAddress) ;;
      confirmed tx
    ) catch (fun error =>
      debugLog ;;
      throw error).

(** [authorizeVoters] *)
Definition authorizeVoters (voterAddresses : list string) : M bool :=
  this <- get_contract ;;
  if is_null (contract this) then ret false
  else
    try (
      tx <- call (CallAuthorizeVoters voterAddresses)
              (fun env h => contract_authorizeVoters env h voterAddresses) ;;
      confirmed tx
    ) catch (fun error =>
      debugLog ;;
      throw error).

End Contract.

(** ** The Standard Library's binary64, to compare the number model with *)

Definition b64 (z : Z) : SpecFloat.spec_float :=
  SpecFloat.binary_normalize 53 1024 z 0 false.

Definition b64_mul := SpecFloat.SFmul 53 1024.
Definition b64_add := SpecFloat.SFadd 53 1024.

(** The number a binary64 value is, when it is an integer or infinite. *)
Definition number_of_b64 (f : SpecFloat.spec_float) : JS.number :=
  match f with
  | SpecFloat.S754_zero _ => JS.Num 0
  | SpecFloat.S754_infinity s => JS.Infinity s
  | SpecFloat.S754_nan => JS.NaN
  | SpecFloat.S754_finite s m e =>
      let a := if e <? 0 then Z.pos m / 2 ^ (- e) else Z.pos m * 2 ^ e in
      JS.Num (if s then - a else a)
  end.

(** Integers of every size up to 2^200 and of both signs, and the
    integers around 2^53 and 2^1024. *)
Fixpoint sample_integers (n : nat) (x bits : Z) : list Z :=
  match n with
  | O => [2 ^ 53; 2 ^ 53 + 1; 2 ^ 53 + 2; 2 ^ 53 + 3; - (2 ^ 53) - 1;
          2 ^ 54 + 2; 2 ^ 54 + 6; 2 ^ 1023; 2 ^ 1024 - 2 ^ 970 - 1;
          2 ^ 1024 - 2 ^ 970; 2 ^ 1024; - (2 ^ 1024); 0; -1]
  | S n' =>
      let y := (x * 6364136223846793005 + 1442695040888963407) mod 2 ^ 200 in
      (y mod 2 ^ bits - 2 ^ (bits - 1)) :: (y mod 2 ^ bits)
        :: sample_integers n' y (if bits >? 190 then 50 else bits + 1)
  end.

Definition number_eqb (x y : JS.number) : bool :=
  match x, y with
  | JS.Num a, JS.Num b => a =? b
  | JS.Infinity s, JS.Infinity t => eqb s t
  | JS.NaN, JS.NaN => true
  | _, _ => false
  end.

(** ** Initial objects and sample worlds

    [fresh_store] holds the two objects as their constructors leave them.
    [calm_env] is a world where every call succeeds; the [with_...]
    functions change one collaborator of a world. *)

Definition fresh_client : FHEVMClient :=
  {| instance := None; provider := None; isReady := false; publicKey := None |}.

Definition fresh_contract : VotingContract :=
  {| contract := None; walletProvider := None; signer := None;
     isFHEVMEnabled := false |}.

Definition fresh_store : Store :=
  {| fhevmClient := fresh_client; votingContract := fresh_contract;
     history := [] |}.

(** The store once [connect] has made the signer and the contract. *)
Definition connected_store (client : FHEVMClient) (fhe : bool) : Store :=
  {| fhevmClient := client;
     votingContract :=
       {| contract := Some 0%nat; walletProvider := Some 0%nat;
          signer := Some 0%nat; isFHEVMEnabled := fhe |};
     history := [] |}.

Definition ready_client : FHEVMClient :=
  {| instance := Some 0%nat; provider := Some 0%nat; isReady := true;
     publicKey := None |}.

Definition calm_env : Env :=
  {| VITE_ZAMA_ACL_ADDRESS := None;
     provider_getNetwork := fun _ _ =>
       Returns {| chainId := 11155111; name := "sepolia" |};
     fetch := fun _ _ =>
       Returns {| ok := true;
                  json := Returns (Some {| kf_publicKey := Some "0xabc"%string;
                                           kf_public_key := None |}) |};
     import_fhevmjs := fun _ => Returns tt;
     createInstance := fun _ _ => Returns 0%nat;
     instance_encrypt32 := fun _ _ _ =>
       Returns (Some {| b_data := Some [x01]; b_proof := Some [x02] |});
     signer_getAddress := fun _ => Returns "0xA11CE"%string;
     contract_isAuthorizedVoter := fun _ _ => Returns true;
     contract_isAdmin := fun _ _ => Returns false;
     contract_proposalCount := fun _ => Returns 3;
     contract_hasVoted := fun _ _ _ => Returns true;
     contract_getActiveProposals := fun _ => Returns [];
     contract_createProposal := fun _ _ _ _ _ => Returns 0%nat;
     contract_castVote := fun _ _ _ _ _ => Returns 0%nat;
     contract_revealResults := fun _ _ => Returns 0%nat;
     contract_authorizeVoter := fun _ _ => Returns 0%nat;
     contract_authorizeVoters := fun _ _ => Returns 0%nat;
     tx_wait := fun _ _ => Returns (Some {| status := Some 1 |});
     ethers_randomBytes := fun _ n => replicate n x00;
     ethers_hexlify := Codec.toHexString |}.

Definition with_getNetwork (f : History -> Provider -> answer Network)
    (env : Env) : Env :=
  {| VITE_ZAMA_ACL_ADDRESS := VITE_ZAMA_ACL_ADDRESS env;
     provider_getNetwork := f;
     fetch := fetch env;
     import_fhevmjs := import_fhevmjs env;
     createInstance := createInstance env;
     instance_encrypt32 := instance_encrypt32 env;
     signer_getAddress := signer_getAddress env;
     contract_isAuthorizedVoter := contract_isAuthorizedVoter env;
     contract_isAdmin := contract_isAdmin env;
     contract_proposalCount := contract_proposalCount env;
     contract_hasVoted := contract_hasVoted env;
     contract_getActiveProposals := contract_getActiveProposals env;
     contract_createProposal := contract_createProposal env;
     contract_castVote := contract_castVote env;
     contract_revealResults := contract_revealResults env;
     contract_authorizeVoter := contract_authorizeVoter env;
     contract_authorizeVoters := contract_authorizeVoters env;
     tx_wait := tx_wait env;
     ethers_randomBytes := ethers_randomBytes env;
     ethers_hexlify := ethers_hexlify env |}.

Definition with_castVote
    (f : History -> JS.number -> JS.number -> string -> string -> answer Tx)
    (env : Env) : Env :=
  {| VITE_ZAMA_ACL_ADDRESS := VITE_ZAMA_ACL_ADDRESS env;
     provider_getNetwork := provider_getNetwork env;
     fetch := fetch env;
     import_fhevmjs := import_fhevmjs env;
     createInstance := createInstance env;
     instance_encrypt32 := instance_encrypt32 env;
     signer_getAddress := signer_getAddress env;
     contract_isAuthorizedVoter := contract_isAuthorizedVoter env;
     contract_isAdmin := contract_isAdmin env;
     contract_proposalCount := contract_proposalCount env;
     contract_hasVoted := contract_hasVoted env;
     contract_getActiveProposals := contract_getActiveProposals env;
     contract_createProposal := contract_createProposal env;
     contract_castVote := f;
     contract_revealResults := contract_revealResults env;
     contract_authorizeVoter := contract_authorizeVoter env;
     contract_authorizeVoters := contract_authorizeVoters env;
     tx_wait := tx_wait env;
     ethers_randomBytes := ethers_randomBytes env;
     ethers_hexlify := ethers_hexlify env |}.

Definition with_proposalCount (f : History -> answer Z) (env : Env) : Env :=
  {| VITE_ZAMA_ACL_ADDRESS := VITE_ZAMA_ACL_ADDRESS env;
     provider_getNetwork := provider_getNetwork env;
     fetch := fetch env;
     import_fhevmjs := import_fhevmjs env;
     createInstance := createInstance env;
     instance_encrypt32 := instance_encrypt32 env;
     signer_getAddress := signer_getAddress env;
     contract_isAuthorizedVoter := contract_isAuthorizedVoter env;
     contract_isAdmin := contract_isAdmin env;
     contract_proposalCount := f;
     contract_hasVoted := contract_hasVoted env;
     contract_getActiveProposals := contract_getActiveProposals env;
     contract_createProposal := contract_createProposal env;
     contract_castVote := contract_castVote env;
     contract_revealResults := contract_revealResults env;
     contract_authorizeVoter := contract_authorizeVoter env;
     contract_authorizeVoters := contract_authorizeVoters env;
     tx_wait := tx_wait env;
     ethers_randomBytes := ethers_randomBytes env;
     ethers_hexlify := ethers_hexlify env |}.

Definition with_hasVoted (f : History -> Z -> string -> answer bool)
    (env : Env) : Env :=
  {| VITE_ZAMA_ACL_ADDRESS := VITE_ZAMA_ACL_ADDRESS env;
     provider_getNetwork := provider_getNetwork env;
     fetch := fetch env;
     import_fhevmjs := import_fhevmjs env;
     createInstance := createInstance env;
     instance_encrypt32 := instance_encrypt32 env;
     signer_getAddress := signer_getAddress env;
     contract_isAuthorizedVoter := contract_isAuthorizedVoter env;
     contract_isAdmin := contract_isAdmin env;
     contract_proposalCount := contract_proposalCount env;
     contract_hasVoted := f;
     contract_getActiveProposals := contract_getActiveProposals env;
     contract_createProposal := contract_createProposal env;
     contract_castVote := contract_castVote env;
     contract_revealResults := contract_revealResults env;
     contract_authorizeVoter := contract_authorizeVoter env;
     contract_authorizeVoters := contract_authorizeVoters env;
     tx_wait := tx_wait env;
     ethers_randomBytes := ethers_randomBytes env;
     ethers_hexlify := ethers_hexlify env |}.

Definition with_getActiveProposals
    (f : History -> answer (list Remote.ProposalData)) (env : Env) : Env :=
  {| VITE_ZAMA_ACL_ADDRESS := VITE_ZAMA_ACL_ADDRESS env;
     provider_getNetwork := provider_getNetwork env;
     fetch := fetch env;
     import_fhevmjs := import_fhevmjs env;
     createInstance := createInstance env;
     instance_encrypt32 := instance_encrypt32 env;
     signer_getAddress := signer_getAddress env;
     contract_isAuthorizedVoter := contract_isAuthorizedVoter env;
     contract_isAdmin := contract_isAdmin env;
     contract_proposalCount := contract_proposalCount env;
     contract_hasVoted := contract_hasVoted env;
     contract_getActiveProposals := f;
     contract_createProposal := contract_createProposal env;
     contract_castVote := contract_castVote env;
     contract_revealResults := contract_revealResults env;
     contract_authorizeVoter := contract_authorizeVoter env;
     contract_authorizeVoters := contract_authorizeVoters env;
     tx_wait := tx_wait env;
     ethers_randomBytes := ethers_randomBytes env;
     ethers_hexlify := ethers_hexlify env |}.

(** ** What [init] does with the gateway's answer *)

(** The key [fetchPublicKey] leaves in [publicKey]. *)
Definition fetched_key (a : answer Response) : option string :=
  match a with
  | Returns r =>
      if ok r then
        match json r with
        | Returns (Some fields) =>
            or_else (kf_publicKey fields) (kf_public_key fields)
        | _ => None
        end
      else None
  | Throws _ => None
  end.

(** The key [init] passes to [createInstance]. *)
Definition instance_key (k : option string) : string :=
  if truthy k then match k with Some x => x | None => ""%string end
  else ("0x" ++ Fhevm.repeat_zero 64)%string.

Definition instance_config (env : Env) (k : option string) : InstanceConfig :=
  {| cfg_chainId := 11155111;
     cfg_publicKey := instance_key k;
     cfg_gatewayUrl := "https://gateway.sepolia.zama.ai";
     cfg_aclAddress := Fhevm.ZAMA_CONFIG_aclAddress env |}.

(** ** The simulated submission of [castVote] *)

(** The two draws and the arguments of the simulated submission. *)
Definition simulated_bytes (env : Env) (h : History) : Uint8Array * Uint8Array :=
  (ethers_randomBytes env h 32%nat,
   ethers_randomBytes env (h ++ [CallRandomBytes 32]) 32%nat).

Definition simulated_write (env : Env) (proposalId optionIndex : JS.number)
    (h : History)
  : Call :=
  CallCastVote proposalId optionIndex
    (ethers_hexlify env (fst (simulated_bytes env h)))
    (ethers_hexlify env (snd (simulated_bytes env h))).

(** What follows the remote write in [castVote]: the wait for the
    receipt. *)
Definition finish (env : Env) (r : outcome Tx * Store) : outcome bool * Store :=
  match r with
  | (Ok tx, s1) => Contract.confirmed tx env s1
  | (Throw e, s1) => (Throw e, s1)
  | (OutOfFuel, s1) => (OutOfFuel, s1)
  end.

(** A string made by one of the two hex encoders in use. *)
Definition hex_encoded (env : Env) (x : string) : Prop :=
  exists b : Uint8Array, x = Codec.toHexString b \/ x = ethers_hexlify env b.

(** The calls [castVote proposalId optionIndex] may make. *)
Definition castVote_call (env : Env) (proposalId optionIndex : JS.number)
    (c : Call) : Prop :=
  match c with
  | CallBackendEncrypt32 _ value => value = JS.Num 1
  | CallCastVote a b x y =>
      a = proposalId /\ b = optionIndex
      /\ hex_encoded env x /\ hex_encoded env y
  | CallRandomBytes _ | CallTxWait _ => True
  | _ => False
  end.

(** ** A world whose first remote write fails *)

Definition is_castVote (c : Call) : bool :=
  match c with CallCastVote _ _ _ _ => true | _ => false end.

(** The contract's [castVote] raises a transport error the first time it
    is called and accepts the transaction afterwards. *)
Definition flaky_env : Env :=
  with_castVote
    (fun h _ _ _ _ =>
       if existsb is_castVote h then Returns 5%nat else Throws (Thrown 42))
    calm_env.

(** ** The scan of [getUserProfile], as the specification words it

    The proposals from [k] on, [n] of them, are checked in turn; a
    proposal is kept when its check answers [true], and left out when the
    check answers [false] or fails.  [h] is the history before the scan;
    the result carries the history after it. *)
Fixpoint scan (env : Env) (voter : string) (h : History) (k : Z) (n : nat)
  : list JS.number * History :=
  match n with
  | O => ([], h)
  | S n' =>
      let r := scan env voter (h ++ [CallHasVoted k voter]) (k + 1) n' in
      (match contract_hasVoted env h k voter with
       | Returns true => JS.Num k :: fst r
       | _ => fst r
       end,
       snd r)
  end.

(** A contract that reports one proposal more than 2^53. *)
Definition crowded_env : Env :=
  with_proposalCount (fun _ => Returns (2 ^ 53 + 1)) calm_env.

(** A contract with four proposals whose check of proposal 2 fails and
    whose check of proposal 1 answers [false]. *)
Definition failing_check_env : Env :=
  with_hasVoted
    (fun _ i _ =>
       if i =? 2 then Throws (Thrown 9)
       else if i =? 1 then Returns false else Returns true)
    (with_proposalCount (fun _ => Returns 4) calm_env).

(** ** Remote records and the records made of them *)

(** [p] is the client's record of the remote record [pd]: its times are
    [Number(t) * 1000] in the arithmetic of numbers. *)
Definition converted (pd : Remote.ProposalData) (p : Proposal) : Prop :=
  id p = JS.Number_of_bigint (Remote.id pd)
  /\ title p = Remote.title pd
  /\ startTime p = (JS.Number_of_bigint (Remote.startTime pd) * JS.Num 1000)%js
  /\ endTime p = (JS.Number_of_bigint (Remote.endTime pd) * JS.Num 1000)%js.

Definition sample_proposal (start finish : Z) : Remote.ProposalData :=
  {| Remote.id := 0;
     Remote.title := "t";
     Remote.description := "d";
     Remote.options := ["yes"; "no"]%string;
     Remote.startTime := start;
     Remote.endTime := finish;
     Remote.totalVotes := 0;
     Remote.creator := "0xC0FFEE";
     Remote.active := true;
     Remote.resultsRevealed := false;
     Remote.revealedResults := [] |}.

(** A contract with one proposal whose start time, in seconds, has a
    product by 1000 that is not a number: it lies halfway between two. *)
Definition late_env : Env :=
  with_getActiveProposals
    (fun _ => Returns [sample_proposal 72057594037929 0]) calm_env.

(** A contract with one proposal of ordinary times. *)
Definition timely_env : Env :=
  with_getActiveProposals
    (fun _ => Returns [sample_proposal 1700000000 1700086400]) calm_env.

(** A world on another chain whose gateway cannot be reached and whose FHE
    library fails to make an instance. *)
Definition degraded_env : Env :=
  {| VITE_ZAMA_ACL_ADDRESS := None;
     provider_getNetwork := fun _ _ =>
       Returns {| chainId := 1; name := "mainnet" |};
     fetch := fun _ _ => Throws (Thrown 1);
     import_fhevmjs := fun _ => Returns tt;
     createInstance := fun _ _ => Throws (Thrown 2);
     instance_encrypt32 := instance_encrypt32 calm_env;
     signer_getAddress := signer_getAddress calm_env;
     contract_isAuthorizedVoter := contract_isAuthorizedVoter calm_env;
     contract_isAdmin := contract_isAdmin calm_env;
     contract_proposalCount := contract_proposalCount calm_env;
     contract_hasVoted := contract_hasVoted calm_env;
     contract_getActiveProposals := contract_getActiveProposals calm_env;
     contract_createProposal := contract_createProposal calm_env;
     contract_castVote := contract_castVote calm_env;
     contract_revealResults := contract_revealResults calm_env;
     contract_authorizeVoter := contract_authorizeVoter calm_env;
     contract_authorizeVoters := contract_authorizeVoters calm_env;
     tx_wait := tx_wait calm_env;
     ethers_randomBytes := ethers_randomBytes calm_env;
     ethers_hexlify := ethers_hexlify calm_env |}.

(** A world whose FHE backend throws on every encryption. *)
Definition broken_backend_env : Env :=
  {| VITE_ZAMA_ACL_ADDRESS := VITE_ZAMA_ACL_ADDRESS calm_env;
     provider_getNetwork := provider_getNetwork calm_env;
     fetch := fetch calm_env;
     import_fhevmjs := import_fhevmjs calm_env;
     createInstance := createInstance calm_env;
     instance_encrypt32 := fun _ _ _ => Throws (Thrown 3);
     signer_getAddress := signer_getAddress calm_env;
     contract_isAuthorizedVoter := contract_isAuthorizedVoter calm_env;
     contract_isAdmin := contract_isAdmin calm_env;
     contract_proposalCount := contract_proposalCount calm_env;
     contract_hasVoted := contract_hasVoted calm_env;
     contract_getActiveProposals := contract_getActiveProposals calm_env;
     contract_createProposal := contract_createProposal calm_env;
     contract_castVote := contract_castVote calm_env;
     contract_revealResults := contract_revealResults calm_env;
     contract_authorizeVoter := contract_authorizeVoter calm_env;
     contract_authorizeVoters := contract_authorizeVoters calm_env;
     tx_wait := tx_wait calm_env;
     ethers_randomBytes := ethers_randomBytes calm_env;
     ethers_hexlify := ethers_hexlify calm_env |}.

(** * More of the code: the rest of the two classes, their callers and the
    earlier version of the adapter *)

(** ** Hex strings as [toHexString] writes them *)

Definition is_lower_hex_digit (c : ascii) : bool :=
  let n := N_of_ascii c in
  ((48 <=? n) && (n <=? 57) || (97 <=? n) && (n <=? 102))%N.

Fixpoint all_chars (p : ascii -> bool) (s : string) : bool :=
  match s with
  | EmptyString => true
  | String c rest => p c && all_chars p rest
  end.

(** ["0x"] followed by an even number of lower-case hex digits. *)
Definition canonical_hex (s : string) : bool :=
  match s with
  | String "0" (String "x" digits) =>
      all_chars is_lower_hex_digit digits
      && Nat.even (String.length digits)
  | _ => false
  end.

(** ** Kinds of calls *)

(** The calls that only read: from the signer and from the view functions
    of the contract. *)
Definition is_read (c : Call) : Prop :=
  match c with
  | CallGetAddress | CallIsAuthorizedVoter _ | CallIsAdmin _
  | CallProposalCount | CallHasVoted _ _ | CallGetActiveProposals => True
  | _ => False
  end.

(** The calls that send a transaction to the contract. *)
Definition is_write (c : Call) : bool :=
  match c with
  | CallCreateProposal _ _ _ _ | CallCastVote _ _ _ _ | CallRevealResults _
  | CallAuthorizeVoter _ | CallAuthorizeVoters _ => true
  | _ => false
  end.

(** [m] leaves the fields of both objects as they are and adds to the
    history only calls that satisfy [P]. *)
Definition emits {A} (P : Call -> Prop) (m : M A) : Prop :=
  forall env s,
    fhevmClient (snd (m env s)) = fhevmClient s
    /\ votingContract (snd (m env s)) = votingContract s
    /\ exists calls,
         history (snd (m env s)) = history s ++ calls /\ Forall P calls.

(** ** The four plain write operations, taken together *)

Inductive PlainWrite : Type :=
| CreateProposal (title description : string) (options : list string)
    (duration : JS.number)
| RevealResults (proposalId : JS.number)
| AuthorizeVoter (voterAddress : string)
| AuthorizeVoters (voterAddresses : list string).

(** The method of [VotingContract] a plain write stands for. *)
Definition run_write (w : PlainWrite) : M bool :=
  match w with
  | CreateProposal t d o dur => Contract.createProposal t d o dur
  | RevealResults pid => Contract.revealResults pid
  | AuthorizeVoter v => Contract.authorizeVoter v
  | AuthorizeVoters vs => Contract.authorizeVoters vs
  end.

(** The remote call it makes and the contract's answer to it. *)
Definition write_call (w : PlainWrite) : Call :=
  match w with
  | CreateProposal t d o dur => CallCreateProposal t d o dur
  | RevealResults pid => CallRevealResults pid
  | AuthorizeVoter v => CallAuthorizeVoter v
  | AuthorizeVoters vs => CallAuthorizeVoters vs
  end.

Definition write_answer (env : Env) (h : History) (w : PlainWrite) : answer Tx :=
  match w with
  | CreateProposal t d o dur => contract_createProposal env h t d o dur
  | RevealResults pid => contract_revealResults env h pid
  | AuthorizeVoter v => contract_authorizeVoter env h v
  | AuthorizeVoters vs => contract_authorizeVoters env h vs
  end.

(** Whether a receipt reports success. *)
Definition succeeded (r : Receipt) : bool :=
  match status r with Some x => x =? 1 | None => false end.

(** The number of transactions sent so far. *)
Definition writes_in (h : History) : nat := length (List.filter is_write h).

Definition is_backend_call (c : Call) : bool :=
  match c with CallBackendEncrypt32 _ _ => true | _ => false end.

(** Strictly increasing lists of integers. *)
Definition increasing (l : list Z) : Prop :=
  forall (i j : nat) (a b : Z),
    (i < j)%nat -> l !! i = Some a -> l !! j = Some b -> a < b.

Definition is_hasVoted (c : Call) : bool :=
  match c with CallHasVoted _ _ => true | _ => false end.

(** A contract whose proposal count cannot be read. *)
Definition countless_env : Env :=
  with_proposalCount (fun _ => Throws (Thrown 11)) calm_env.

(** The fields [getActiveProposals] copies from a remote record. *)
Definition mirrors (pd : Remote.ProposalData) (p : Proposal) : Prop :=
  id p = JS.Number_of_bigint (Remote.id pd)
  /\ title p = Remote.title pd
  /\ description p = Remote.description pd
  /\ options p = Remote.options pd
  /\ totalVotes p = JS.Number_of_bigint (Remote.totalVotes pd)
  /\ creator p = Remote.creator pd
  /\ active p = Remote.active pd
  /\ resultsRevealed p = Remote.resultsRevealed pd
  /\ revealedResults p = map JS.Number_of_bigint (Remote.revealedResults pd).

(** A world with two proposals whose signer cannot tell its address. *)
Definition addressless_env : Env :=
  {| VITE_ZAMA_ACL_ADDRESS := VITE_ZAMA_ACL_ADDRESS calm_env;
     provider_getNetwork := provider_getNetwork calm_env;
     fetch := fetch calm_env;
     import_fhevmjs := import_fhevmjs calm_env;
     createInstance := createInstance calm_env;
     instance_encrypt32 := instance_encrypt32 calm_env;
     signer_getAddress := fun _ => Throws (Thrown 12);
     contract_isAuthorizedVoter := contract_isAuthorizedVoter calm_env;
     contract_isAdmin := contract_isAdmin calm_env;
     contract_proposalCount := contract_proposalCount calm_env;
     contract_hasVoted := contract_hasVoted calm_env;
     contract_getActiveProposals := fun _ =>
       Returns [sample_proposal 10 20; sample_proposal 30 40];
     contract_createProposal := contract_createProposal calm_env;
     contract_castVote := contract_castVote calm_env;
     contract_revealResults := contract_revealResults calm_env;
     contract_authorizeVoter := contract_authorizeVoter calm_env;
     contract_authorizeVoters := contract_authorizeVoters calm_env;
     tx_wait := tx_wait calm_env;
     ethers_randomBytes := ethers_randomBytes calm_env;
     ethers_hexlify := ethers_hexlify calm_env |}.

(** The store of a client that has a contract and no signer. *)
Definition signerless_store : Store :=
  {| fhevmClient := fresh_client;
     votingContract :=
       {| contract := Some 0%nat; walletProvider := Some 0%nat;
          signer := None; isFHEVMEnabled := false |};
     history := [] |}.

(** ** Comparison of numbers *)

Module Compare.

Definition is_nan (x : JS.number) : bool :=
  match x with JS.NaN => true | _ => false end.

(** [x < y] *)
Definition lt (x y : JS.number) : bool :=
  match x, y with
  | JS.Num a, JS.Num b => a <? b
  | JS.Num _, JS.Infinity negative => negb negative
  | JS.Infinity negative, JS.Num _ => negative
  | JS.Infinity s, JS.Infinity t => s && negb t
  | _, _ => false
  end.

(** [x <= y]: false with a [NaN], else the contrary of [y < x]. *)
Definition le (x y : JS.number) : bool :=
  if is_nan x || is_nan y then false else negb (lt y x).

(** [x > y] and [x >= y] *)
Definition gt (x y : JS.number) : bool := lt y x.
Definition ge (x y : JS.number) : bool := le y x.

End Compare.

(** ** The lists and figures of [VotingDashboard]

    The component is given the proposals and computes, at each rendering,
    three lists and four figures.  Each callback of a [filter] reads the
    clock once: [clock k] is the [k]-th reading of [Date.now()] of the
    rendering. *)

Module Dashboard.

Definition Clock : Type := nat -> JS.number.

(** [proposals.filter(p => { const now = Date.now(); return keep })],
    the first reading being the [k]-th. *)
Fixpoint filter_now (clock : Clock) (k : nat)
    (keep : JS.number -> Proposal -> bool) (proposals : list Proposal)
  : list Proposal :=
  match proposals with
  | [] => []
  | p :: rest =>
      let now := clock k in
      if keep now p then p :: filter_now clock (S k) keep rest
      else filter_now clock (S k) keep rest
  end.

Definition is_active (now : JS.number) (p : Proposal) : bool :=
  active p && Compare.ge now (startTime p) && Compare.le now (endTime p).

Definition is_pending (now : JS.number) (p : Proposal) : bool :=
  active p && Compare.lt now (startTime p).

Definition is_completed (now : JS.number) (p : Proposal) : bool :=
  active p && Compare.gt now (endTime p).

Definition activeProposals (clock : Clock) (proposals : list Proposal) :=
  filter_now clock 0 is_active proposals.

Definition pendingProposals (clock : Clock) (proposals : list Proposal) :=
  filter_now clock (length proposals) is_pending proposals.

Definition completedProposals (clock : Clock) (proposals : list Proposal) :=
  filter_now clock (2 * length proposals) is_completed proposals.

Definition votes_of (p : Proposal) : JS.number := totalVotes p.
Definition voted (p : Proposal) : bool := hasVoted p.

Record Stats : Type := {
  totalProposals : nat;
  activeCount : nat;          (* the field [activeProposals] *)
  totalVotes : JS.number;
  userVotes : nat
}.

(** [getStats] *)
Definition getStats (clock : Clock) (proposals : list Proposal) : Stats :=
  let totalVotes :=
    fold_left (fun sum p => (sum + votes_of p)%js) proposals (JS.Num 0) in
  let userVotes := length (List.filter voted proposals) in
  {| totalProposals := length proposals;
     activeCount := length (activeProposals clock proposals);
     totalVotes := totalVotes;
     userVotes := userVotes |}.

(** A proposal whose two times are numbers, the start not after the
    end. *)
Definition well_timed (p : Proposal) : Prop :=
  exists a b, startTime p = JS.Num a /\ endTime p = JS.Num b /\ a <= b.

End Dashboard.

Definition timed_proposal (flag : bool) (start finish votes : Z) (v : bool)
  : Proposal :=
  {| id := JS.Num 0; title := "t"; description := "d";
     options := ["yes"; "no"]%string;
     startTime := JS.Num start; endTime := JS.Num finish;
     totalVotes := JS.Num votes; creator := "0xC0FFEE";
     active := flag; resultsRevealed := false; revealedResults := [];
     hasVoted := v |}.

Definition sample_proposals : list Proposal :=
  [timed_proposal true 10 20 3 true; timed_proposal true 30 40 5 false;
   timed_proposal false 0 100 7 true; timed_proposal true 0 5 1 false].

(** ** Methods that keep a state of their own

    A caller of the two classes that has a state [S] beside them (the
    state of a React component, the requests made to the wallet) runs in
    the same kind of monad, over the store and [S]. *)

Section Extended.

Variable S : Type.

Definition X (A : Type) : Type := Env -> Store * S -> outcome A * (Store * S).

Definition xret {A} (a : A) : X A := fun _ st => (Ok a, st).

Definition xbind {A B} (m : X A) (k : A -> X B) : X B :=
  fun env st =>
    match m env st with
    | (Ok a, st') => k a env st'
    | (Throw e, st') => (Throw e, st')
    | (OutOfFuel, st') => (OutOfFuel, st')
    end.

Definition xthrow {A} (e : exn) : X A := fun _ st => (Throw e, st).

Definition xtry {A} (m : X A) (handler : exn -> X A) : X A :=
  fun env st =>
    match m env st with
    | (Throw e, st') => handler e env st'
    | r => r
    end.

(** [try { m } finally { f }] *)
Definition xfinally {A} (m : X A) (f : X unit) : X A :=
  fun env st =>
    match m env st with
    | (Ok a, st') => xbind f (fun _ => xret a) env st'
    | (Throw e, st') => xbind f (fun _ => xthrow e) env st'
    | (OutOfFuel, st') => (OutOfFuel, st')
    end.

(** A method of the two classes, run by the caller. *)
Definition lift {A} (m : M A) : X A :=
  fun env st =>
    let r := m env (fst st) in (fst r, (snd r, snd st)).

Definition xget : X S := fun _ st => (Ok (snd st), st).

Definition xmodify (f : S -> S) : X unit :=
  fun _ st => (Ok tt, (fst st, f (snd st))).

End Extended.

Arguments xret {S A} a.
Arguments xbind {S A B} m k.
Arguments xthrow {S A} e.
Arguments xtry {S A} m handler.
Arguments xfinally {S A} m f.
Arguments lift {S A} m.
Arguments xget {S}.
Arguments xmodify {S} f.

Declare Scope ext_scope.
Delimit Scope ext_scope with ext.
Notation "x <- m ;; k" := (xbind m (fun x => k))
  (at level 100, m at next level, right associativity) : ext_scope.
Notation "m ;; k" := (xbind m (fun _ => k))
  (at level 100, right associativity) : ext_scope.
Notation "'try' m 'catch' h" := (xtry m h)
  (at level 100, m at level 99, h at level 99) : ext_scope.
Notation "m 'finally' f" := (xfinally m f)
  (at level 98, left associativity) : ext_scope.

(** ** [CreateProposalDialog]
    ([src/components/voting/CreateProposalDialog.tsx]) *)

Module Dialog.

Local Open Scope string_scope.

Record ProposalForm : Type := {
  title : string;
  description : string;
  duration : JS.number        (* hours; the field takes whole numbers *)
}.

(** The state of the component: its three [useState] cells, the values of
    the form and the toasts shown so far (their titles). *)
Record State : Type := {
  open : bool;
  options : list string;
  isSubmitting : bool;
  form : ProposalForm;
  toasts : list string
}.

Definition defaultValues : ProposalForm :=
  {| title := ""; description := ""; duration := JS.Num 24 |}.

Definition initial : State :=
  {| open := false; options := [""; ""]; isSubmitting := false;
     form := defaultValues; toasts := [] |}.

Definition setOpen (b : bool) (st : State) : State :=
  {| open := b; options := options st; isSubmitting := isSubmitting st;
     form := form st; toasts := toasts st |}.

Definition setOptions (o : list string) (st : State) : State :=
  {| open := open st; options := o; isSubmitting := isSubmitting st;
     form := form st; toasts := toasts st |}.

Definition setIsSubmitting (b : bool) (st : State) : State :=
  {| open := open st; options := options st; isSubmitting := b;
     form := form st; toasts := toasts st |}.

(** [form.reset()] *)
Definition reset (st : State) : State :=
  {| open := open st; options := options st; isSubmitting := isSubmitting st;
     form := defaultValues; toasts := toasts st |}.

(** [toast({ title, ... })] *)
Definition toast (t : string) (st : State) : State :=
  {| open := open st; options := options st; isSubmitting := isSubmitting st;
     form := form st; toasts := (toasts st ++ [t])%list |}.

(** [addOption] *)
Definition addOption (st : State) : State :=
  if (length (options st) <? 10)%nat
  then setOptions (options st ++ [""])%list st
  else st.

(** [l.filter((_, i) => keep i)], the first index being [i]. *)
Fixpoint filter_index (keep : nat -> bool) (i : nat) (l : list string)
  : list string :=
  match l with
  | [] => []
  | x :: rest =>
      if keep i then x :: filter_index keep (S i) rest
      else filter_index keep (S i) rest
  end.

(** [removeOption] *)
Definition removeOption (index : nat) (st : State) : State :=
  if (2 <? length (options st))%nat
  then setOptions
         (filter_index (fun i => negb (i =? index)%nat) 0 (options st)) st
  else st.

Fixpoint reverse (s : string) (acc : string) : string :=
  match s with
  | EmptyString => acc
  | String c rest => reverse rest (String c acc)
  end.

(** [s.trim()] *)
Definition trim (s : string) : string :=
  reverse (Codec.skip_white_space
             (reverse (Codec.skip_white_space s) "")) "".

(** [onSubmit]; [onSuccess] is the callback the component was given. *)
Definition onSubmit (onSuccess : M unit) (data : ProposalForm)
  : X State unit :=
  (st <- xget ;;
   let validOptions :=
     List.filter (fun option => negb (String.eqb (trim option) ""))
       (options st) in
   if (length validOptions <? 2)%nat then
     xmodify (toast "Invalid Options")
   else
     xmodify (setIsSubmitting true) ;;
     (try (
       let durationInSeconds :=
         (duration data * JS.Num 60 * JS.Num 60)%js in
       success <- lift (Contract.createProposal (title data)
                          (description data) validOptions
                          durationInSeconds) ;;
       if success : bool then
         xmodify (toast "Proposal Created") ;;
         xmodify reset ;;
         xmodify (setOptions [""; ""]) ;;
         xmodify (setOpen false) ;;
         lift onSuccess
       else xthrow (JsError "Proposal creation failed")
     ) catch (fun error =>
       xmodify (toast "Creation Failed")
     )) finally (
       xmodify (setIsSubmitting false)))%ext.

(** The options [onSubmit] sends, and the state it leaves behind after a
    proposal that was made and after one that was not. *)
Definition validOptions (st : State) : list string :=
  List.filter (fun option => negb (String.eqb (trim option) "")) (options st).

Definition created (st : State) : State :=
  setOpen false
    (setOptions [""; ""]
       (reset (toast "Proposal Created" (setIsSubmitting true st)))).

Definition failed (st : State) : State :=
  setIsSubmitting false (toast "Creation Failed" (setIsSubmitting true st)).

End Dialog.


(** ** [connect] and [switchToSepolia] ([src/lib/contract.ts]) *)

Definition modify_contract (f : VotingContract -> VotingContract) : M unit :=
  fun _ s =>
    (Ok tt,
     {| fhevmClient := fhevmClient s;
        votingContract := f (votingContract s);
        history := history s |}).

Module Wallet.

Local Open Scope string_scope.

(** The requests made to the wallet, [window.ethereum], directly or
    through the [BrowserProvider] made over it. *)
Inductive Request : Type :=
| EthRequestAccounts                  (* provider.send("eth_requestAccounts", []) *)
| SwitchEthereumChain (chainId : string)
| AddEthereumChain (chainId chainName rpcUrl blockExplorerUrl : string)
| GetSigner.                          (* provider.getSigner() *)

Definition Log : Type := list Request.

(** The wallet of the page.  [ethereum] is [None] when [window.ethereum]
    is missing, else the handle of the provider made over it; an answer may
    depend on all calls and requests made before. *)
Record Wallet : Type := {
  ethereum : option Provider;
  eth_requestAccounts : History -> Log -> answer unit;
  wallet_switchEthereumChain : History -> Log -> answer unit;
  wallet_addEthereumChain : History -> Log -> answer unit;
  provider_getSigner : History -> Log -> answer Signer
}.

(** A request to the wallet: recorded, then answered. *)
Definition ask {A} (r : Request) (f : History -> Log -> answer A) : X Log A :=
  fun _ st =>
    (outcome_of (f (history (fst st)) (snd st)), (fst st, snd st ++ [r])%list).

(** [error.code]: the value a wallet throws is identified by its code; an
    [Error] made by this program has none. *)
Definition code (e : exn) : option nat :=
  match e with
  | Thrown tag => Some tag
  | _ => None
  end.

(** [error.code === n] *)
Definition has_code (n : nat) (e : exn) : bool :=
  match code e with
  | Some c => (c =? n)%nat
  | None => false
  end.

(** [n.toString(16)] for a whole number [n >= 0]. *)
Fixpoint toString16_loop (fuel : nat) (n : N) (acc : string) : string :=
  match fuel with
  | O => acc
  | S fuel' =>
      let acc' := String (Codec.hex_digit (n mod 16)) acc in
      if (n / 16 =? 0)%N then acc' else toString16_loop fuel' (n / 16) acc'
  end.

Definition toString16 (n : N) : string :=
  toString16_loop (S (N.to_nat (N.log2 n))) n "".

(** [SEPOLIA_CONFIG] *)
Definition SEPOLIA_chainId : Z := 11155111.
Definition SEPOLIA_name : string := "Sepolia Testnet (Zama FHEVM)".
Definition SEPOLIA_rpcUrl : string :=
  "https://sepolia.infura.io/v3/9aa3d95b3bc440fa88ea12eaa4456161".
Definition SEPOLIA_blockExplorer : string := "https://sepolia.etherscan.io".

Definition chainId_hex : string := "0x" ++ toString16 (Z.to_N SEPOLIA_chainId).

Definition set_walletProvider (p : Provider) (c : VotingContract)
  : VotingContract :=
  {| contract := contract c; walletProvider := Some p; signer := signer c;
     isFHEVMEnabled := isFHEVMEnabled c |}.

Definition set_signer (sg : Signer) (c : VotingContract) : VotingContract :=
  {| contract := contract c; walletProvider := walletProvider c;
     signer := Some sg; isFHEVMEnabled := isFHEVMEnabled c |}.

Definition set_contract (k : ContractHandle) (c : VotingContract)
  : VotingContract :=
  {| contract := Some k; walletProvider := walletProvider c;
     signer := signer c; isFHEVMEnabled := isFHEVMEnabled c |}.

Definition set_isFHEVMEnabled (b : bool) (c : VotingContract)
  : VotingContract :=
  {| contract := contract c; walletProvider := walletProvider c;
     signer := signer c; isFHEVMEnabled := b |}.

Definition switch_failed : string :=
  "Gagal beralih ke jaringan " ++ SEPOLIA_name.
Definition add_failed : string :=
  "Gagal menambahkan jaringan " ++ SEPOLIA_name ++ " ke MetaMask".
Definition no_wallet : string :=
  "MetaMask tidak ditemukan. Silakan install MetaMask terlebih dahulu.".
Definition no_contract : string :=
  "Tidak dapat terhubung ke smart contract. Pastikan contract sudah di-deploy.".

Local Open Scope ext_scope.

(** [switchToSepolia] *)
Definition switchToSepolia (w : Wallet) : X Log unit :=
  match ethereum w with
  | None => xret tt
  | Some _ =>
      try (
        ask (SwitchEthereumChain chainId_hex) (wallet_switchEthereumChain w)
      ) catch (fun switchError =>
        if has_code 4902 switchError then
          try (
            ask (AddEthereumChain chainId_hex SEPOLIA_name SEPOLIA_rpcUrl
                   SEPOLIA_blockExplorer)
              (wallet_addEthereumChain w)
          ) catch (fun addError =>
            xthrow (JsError add_failed))
        else xthrow (JsError switch_failed))
  end.

(** [connect].  The contract object is identified by the signer it is made
    for. *)
Definition connect (w : Wallet) : X Log bool :=
  try (
    match ethereum w with
    | None => xthrow (JsError no_wallet)
    | Some provider =>
        lift (modify_contract (set_walletProvider provider)) ;;
        ask EthRequestAccounts (eth_requestAccounts w) ;;
        network <- lift (call (CallGetNetwork provider)
                           (fun env h => provider_getNetwork env h provider)) ;;
        let chainId := JS.Number_of_bigint (chainId network) in
        lift debugLog ;;
        (if negb (JS.strict_eq chainId (JS.Num SEPOLIA_chainId))
         then switchToSepolia w
         else xret tt) ;;
        signer <- ask GetSigner (provider_getSigner w) ;;
        lift (modify_contract (set_signer signer)) ;;
        lift (modify_contract (set_contract signer)) ;;
        (try (
           lift (Fhevm.init provider) ;;
           lift (modify_contract (set_isFHEVMEnabled true)) ;;
           lift debugLog
         ) catch (fun error =>
           lift debugLog ;;
           lift (modify_contract (set_isFHEVMEnabled false)))) ;;
        (try (
           lift (call CallProposalCount contract_proposalCount) ;;
           lift debugLog
         ) catch (fun error =>
           lift debugLog ;;
           xthrow (JsError no_contract))) ;;
        xret true
    end
  ) catch (fun error =>
    lift debugLog ;;
    xthrow error).

(** Whether the chain that was read is Sepolia. *)
Definition on_sepolia (n : Network) : bool :=
  JS.strict_eq (JS.Number_of_bigint (chainId n)) (JS.Num SEPOLIA_chainId).

(** What stops [connect] before it has a signer: a request to the wallet
    or the read of the network fails, or the chain is another one. *)
Definition stopped_early (w : Wallet) (env : Env) (p : Provider) : Prop :=
  exists (h : History) (l : Log),
    (exists e, eth_requestAccounts w h l = Throws e)
    \/ (exists e, provider_getNetwork env h p = Throws e)
    \/ (exists n, provider_getNetwork env h p = Returns n
                  /\ on_sepolia n = false)
    \/ (exists e, provider_getSigner w h l = Throws e).

End Wallet.

(** A wallet on Sepolia that grants every request. *)
Definition calm_wallet : Wallet.Wallet :=
  {| Wallet.ethereum := Some 0%nat;
     Wallet.eth_requestAccounts := fun _ _ => Returns tt;
     Wallet.wallet_switchEthereumChain := fun _ _ => Returns tt;
     Wallet.wallet_addEthereumChain := fun _ _ => Returns tt;
     Wallet.provider_getSigner := fun _ _ => Returns 7%nat |}.

(** A wallet that does not know the Sepolia chain yet. *)
Definition new_wallet : Wallet.Wallet :=
  {| Wallet.ethereum := Some 0%nat;
     Wallet.eth_requestAccounts := fun _ _ => Returns tt;
     Wallet.wallet_switchEthereumChain := fun _ _ => Throws (Thrown 4902);
     Wallet.wallet_addEthereumChain := fun _ _ => Returns tt;
     Wallet.provider_getSigner := fun _ _ => Returns 7%nat |}.

(** A world whose contract is not deployed: the read of the proposal count
    fails. *)
Definition undeployed_env : Env :=
  with_proposalCount (fun _ => Throws (Thrown 3)) calm_env.

(** ** The earlier [FHEVMClient] ([unnamed/part_001])

    The first version of the adapter had no simulation: it raised where
    the current one falls back. *)

Module Legacy.

Local Open Scope async_scope.
Local Open Scope string_scope.

(** [encrypt32] *)
Definition encrypt32 (value : JS.number) : M Ciphertext :=
  this <- get_client ;;
  match isReady this, instance this with
  | true, Some h =>
      try (
        encrypted <- call (CallBackendEncrypt32 h value)
                       (fun env hist => instance_encrypt32 env hist h value) ;;
        match encrypted with
        | Some e =>
            ret {| data := b_data e;
                   proof := match b_proof e with
                            | Some p => p
                            | None => new_Uint8Array 0
                            end |}
        | None => throw (TypeError "Cannot read properties of undefined")
        end
      ) catch (fun error =>
        debugLog ;;
        throw (JsError "Failed to encrypt value"))
  | _, _ => throw (JsError "FHEVM instance not initialized")
  end.

(** [encryptVote] *)
Definition encryptVote (vote : JS.number) : M Fhevm.EncryptedVote :=
  if negb (JS.strict_eq vote (JS.Num 0)) && negb (JS.strict_eq vote (JS.Num 1))
  then throw (JsError "Vote must be 0 or 1")
  else
    encrypted <- encrypt32 vote ;;
    ret {| Fhevm.encryptedVote := data encrypted;
           Fhevm.inputProof := proof encrypted |}.

End Legacy.
(** * Properties *)

(** ** Facts about the number model *)

Section NumberFacts.

Lemma round_even_exact (z : Z) :
  Z.abs z <= 2 ^ 53 -> JS.round_even z = z.
Proof.
  intros Hz. unfold JS.round_even.
  destruct (Z.ltb_spec (Z.abs z) (2 ^ 53)) as [Hlt | Hge]; [reflexivity |].
  assert (Hcase : z = 2 ^ 53 \/ z = - 2 ^ 53) by lia.
  destruct Hcase as [-> | ->]; vm_compute; reflexivity.
Qed.

Lemma to_number_exact (z : Z) :
  Z.abs z <= 2 ^ 53 -> JS.to_number z = JS.Num z.
Proof.
  intros Hz. unfold JS.to_number. rewrite (round_even_exact z Hz).
  destruct (Z.ltb_spec (Z.abs z) (2 ^ 1024)) as [_ | Hge]; [reflexivity |].
  exfalso. assert (2 ^ 53 < 2 ^ 1024) by (apply Z.pow_lt_mono_r; lia). lia.
Qed.

Lemma Z_of_byte_of_Z (z : Z) : Z_of_byte (byte_of_Z z) = z mod 256.
Proof.
  unfold Z_of_byte, byte_of_Z.
  assert (Hr : 0 <= z mod 256 < 256) by (apply Z.mod_pos_bound; lia).
  destruct (Byte.of_N (Z.to_N (z mod 256))) as [b |] eqn:Hb.
  - apply Byte.to_of_N in Hb. rewrite Hb. lia.
  - apply Byte.of_N_None_iff in Hb. lia.
Qed.

Lemma Z_of_byte_range (b : byte) : 0 <= Z_of_byte b < 256.
Proof.
  unfold Z_of_byte. pose proof (Byte.to_N_bounded b). lia.
Qed.

Lemma byte_of_Z_of_byte (b : byte) : byte_of_Z (Z_of_byte b) = b.
Proof.
  unfold byte_of_Z. pose proof (Z_of_byte_range b) as Hr.
  rewrite Z.mod_small by exact Hr. unfold Z_of_byte.
  rewrite N2Z.id, Byte.of_to_N. reflexivity.
Qed.

(** What a [Uint8Array] keeps of [x % 256]: the residue of [x] in [0,256),
    also for a negative [x], whose remainder is negative. *)
Lemma ToUint8_rem_256 (x : Z) :
  Z_of_byte (ToUint8 (JS.Num x % 256)%js) = x mod 256.
Proof.
  cbn. rewrite Z_of_byte_of_Z.
  pose proof (Z.quot_rem' x 256) as Hq.
  rewrite Hq at 2.
  rewrite Z.add_comm, Z.mul_comm, Z.mod_add by lia. reflexivity.
Qed.

End NumberFacts.

(** ** Facts about the filling loop of [simulateEncryption] *)

Section SimulateLoop.

Variable value : JS.number.

Let dataAt (i : nat) : byte :=
  ToUint8 ((value * 7 + JS.Num (Z.of_nat i) * 13) % 256)%js.
Let proofAt (i : nat) : byte :=
  ToUint8 ((value * 11 + JS.Num (Z.of_nat i) * 17) % 256)%js.

Lemma simulate_loop_length (n : nat) (d p : Uint8Array) :
  let r := fold_left (simulate_step value) (seq 0 n) (d, p) in
  length (fst r) = length d /\ length (snd r) = length p.
Proof.
  induction n as [| n IH]; [split; reflexivity |].
  rewrite seq_S, fold_left_app. cbn [fold_left Nat.add].
  destruct IH as [IHd IHp]. unfold simulate_step at 1 3. cbn [fst snd].
  rewrite !length_insert. split; assumption.
Qed.

Lemma simulate_loop_lookup (n : nat) (d p : Uint8Array) (i : nat) :
  (n <= length d)%nat -> (n <= length p)%nat -> (i < n)%nat ->
  let r := fold_left (simulate_step value) (seq 0 n) (d, p) in
  fst r !! i = Some (dataAt i) /\ snd r !! i = Some (proofAt i).
Proof.
  induction n as [| n IH]; intros Hd Hp Hi; [lia |].
  rewrite seq_S, fold_left_app. cbn [fold_left Nat.add].
  pose proof (simulate_loop_length n d p) as [Hld Hlp].
  cbv zeta in Hld, Hlp.
  unfold simulate_step at 1 3. cbn [fst snd].
  destruct (decide (i = n)) as [-> | Hne].
  - split; apply list_lookup_insert_eq; lia.
  - rewrite !list_lookup_insert_ne by congruence.
    apply IH; lia.
Qed.

End SimulateLoop.

(** ** The simulated encryptor *)

Lemma simulateEncryption_shape (value : JS.number) :
  exists d p,
    simulateEncryption value = {| data := Some d; proof := p |}
    /\ length d = 32%nat /\ length p = 32%nat
    /\ forall i : nat, (i < 32)%nat ->
         d !! i = Some (ToUint8 ((value * 7 + JS.Num (Z.of_nat i) * 13) % 256)%js)
         /\ p !! i = Some (ToUint8 ((value * 11 + JS.Num (Z.of_nat i) * 17) % 256)%js).
Proof.
  unfold simulateEncryption.
  assert (Hlen : length (new_Uint8Array 32) = 32%nat)
    by (unfold new_Uint8Array; apply length_replicate).
  pose proof (simulate_loop_length value 32
                (new_Uint8Array 32) (new_Uint8Array 32)) as [Hd Hp].
  cbv zeta in Hd, Hp.
  eexists _, _. split; [reflexivity |].
  rewrite Hd, Hp, Hlen. repeat split; try reflexivity.
  - apply (simulate_loop_lookup value 32); rewrite ?Hlen; lia.
  - apply (simulate_loop_lookup value 32); rewrite ?Hlen; lia.
Qed.

(** The two expressions of the loop body are exact as long as
    [|v| * 11 + 31 * 17] does not exceed 2^53. *)
Lemma simulate_exprs_exact (v : Z) (i : nat) :
  Z.abs v * 11 + 527 <= 2 ^ 53 -> (i < 32)%nat ->
  (JS.Num v * 7 + JS.Num (Z.of_nat i) * 13)%js
    = JS.Num (v * 7 + Z.of_nat i * 13)
  /\ (JS.Num v * 11 + JS.Num (Z.of_nat i) * 17)%js
    = JS.Num (v * 11 + Z.of_nat i * 17).
Proof.
  intros Hv Hi. unfold JS.mul.
  rewrite !to_number_exact by lia. unfold JS.add.
  rewrite !to_number_exact by lia. split; reflexivity.
Qed.

(** C1 (amended). For every integer [v] with [|v| * 11 + 527 <= 2^53] (so
    for every 32-bit value) the simulated encryption returns two arrays of
    32 bytes with [data[i] = (v*7 + i*13) mod 256] and
    [proof[i] = (v*11 + i*17) mod 256] for every [i] in [0,32); the result
    is a function of [v] alone. *)
Theorem simulateEncryption_bytes (v : Z) :
  Z.abs v * 11 + 527 <= 2 ^ 53 ->
  exists d p,
    simulateEncryption (JS.Num v) = {| data := Some d; proof := p |}
    /\ length d = 32%nat /\ length p = 32%nat
    /\ forall i : nat, (i < 32)%nat ->
         Z_of_byte <$> d !! i = Some ((v * 7 + Z.of_nat i * 13) mod 256)
         /\ Z_of_byte <$> p !! i = Some ((v * 11 + Z.of_nat i * 17) mod 256).
Proof.
  intros Hv.
  destruct (simulateEncryption_shape (JS.Num v))
    as (d & p & Heq & Hd & Hp & Hlook).
  exists d, p. split; [exact Heq |]. split; [exact Hd |]. split; [exact Hp |].
  intros i Hi. destruct (Hlook i Hi) as [Hdi Hpi].
  destruct (simulate_exprs_exact v i Hv Hi) as [Ed Ep].
  rewrite Hdi, Hpi, Ed, Ep. cbn [fmap option_fmap option_map].
  rewrite !ToUint8_rem_256. split; reflexivity.
Qed.

Lemma simulateEncryption_bytes_witness :
  exists d p,
    simulateEncryption (JS.Num (-1)) = {| data := Some d; proof := p |}
    /\ length d = 32%nat /\ length p = 32%nat
    /\ forall i : nat, (i < 32)%nat ->
         Z_of_byte <$> d !! i = Some ((-1 * 7 + Z.of_nat i * 13) mod 256)
         /\ Z_of_byte <$> p !! i = Some ((-1 * 11 + Z.of_nat i * 17) mod 256).
Proof.
  apply (simulateEncryption_bytes (-1)). vm_compute. discriminate.
Defined.

(** C1 as stated fails from 2^53 on: 2^53 is a JavaScript integer, yet
    [2^53 * 7 + 13] is not one, it is rounded to [2^53 * 7 + 16], and
    [data[1]] is 16 where the formula gives 13. *)
Lemma simulateEncryption_rounds_at_2_53 :
  JS.to_number (2 ^ 53) = JS.Num (2 ^ 53)
  /\ data_byte (simulateEncryption (JS.Num (2 ^ 53))) 1 = Some 16
  /\ data_byte (simulateEncryption (JS.Num (2 ^ 53))) 1
       <> Some ((2 ^ 53 * 7 + 1 * 13) mod 256).
Proof.
  repeat split; try (vm_compute; reflexivity).
  vm_compute. discriminate.
Qed.

(** The rounding of the model is that of binary64: on the inputs of the
    counterexamples, and on a few hundred integers of every size, the
    model and the Standard Library's specification of IEEE-754 arithmetic
    agree. *)
Example number_model_agrees_with_binary64 :
  number_of_b64 (b64_add (b64_mul (b64 (2 ^ 53)) (b64 7)) (b64 13))
  = (JS.Num (2 ^ 53) * JS.Num 7 + JS.Num 13)%js
  /\ number_of_b64 (b64_add (b64 (2 ^ 53)) (b64 1))
     = (JS.Num (2 ^ 53) + JS.Num 1)%js
  /\ number_of_b64 (b64_mul (b64 72057594037929) (b64 1000))
     = (JS.Number_of_bigint 72057594037929 * JS.Num 1000)%js
  /\ forallb (fun z => number_eqb (number_of_b64 (b64 z)) (JS.to_number z))
       (sample_integers 300 12345 50) = true.
Proof. repeat split; vm_compute; reflexivity. Qed.

(** ** The byte/hex codec *)

Section CodecFacts.

Import Codec.
Local Open Scope string_scope.

Let hex2 (b : byte) : string := padStart 2 "0" (toString16 b).

(** Every byte is written as exactly two characters. *)
Lemma hex2_two_chars (b : byte) :
  exists c1 c2, hex2 b = String c1 (String c2 "").
Proof. destruct b; vm_compute; eauto. Qed.

(** Reading the two characters of a byte back gives the byte. *)
Lemma parse_hex2 (b : byte) : ToUint8 (parseInt16 (hex2 b)) = b.
Proof. destruct b; vm_compute; reflexivity. Qed.

Lemma join_cons (s : string) (l : list string) : join (s :: l) = s ++ join l.
Proof.
  unfold join. destruct l as [| t l]; cbn.
  - induction s as [| c s IH]; cbn; [reflexivity | now rewrite <- IH].
  - reflexivity.
Qed.

Lemma length_join_hex2 (l : list byte) :
  String.length (join (map hex2 l)) = (2 * length l)%nat.
Proof.
  induction l as [| b l IH]; [reflexivity |].
  cbn [map]. rewrite join_cons.
  destruct (hex2_two_chars b) as (c1 & c2 & ->).
  cbn [String.append String.length length]. rewrite IH. lia.
Qed.

(** The [k]-th pair of characters is the [k]-th byte. *)
Lemma substr_join_hex2 (l : list byte) (k : nat) (b : byte) :
  l !! k = Some b ->
  substr (2 * k) 2 (join (map hex2 l)) = hex2 b.
Proof.
  revert k. induction l as [| a l IH]; intros k Hk; [discriminate |].
  cbn [map]. rewrite join_cons.
  destruct (hex2_two_chars a) as (c1 & c2 & Ha). rewrite Ha.
  destruct k as [| k].
  - injection Hk as <-. rewrite Ha. cbn.
    destruct (join (map hex2 l)); reflexivity.
  - replace (2 * S k)%nat with (S (S (2 * k))) by lia.
    cbn [String.append]. unfold substr in *. cbn [substring].
    apply IH. exact Hk.
Qed.

Lemma fromHex_loop_spec (l : list byte) :
  forall (fuel k : nat) (bytes : Uint8Array),
    length bytes = length l ->
    (k <= length l)%nat -> (length l - k <= fuel)%nat ->
    fromHex_loop fuel (join (map hex2 l)) (2 * k) bytes
    = (take k bytes ++ drop k l)%list.
Proof.
  induction fuel as [| fuel IH]; intros k bytes Hlen Hk Hfuel.
  - cbn. assert (k = length l) by lia. subst k.
    rewrite <- Hlen at 1. rewrite firstn_all, drop_all, app_nil_r.
    reflexivity.
  - cbn [fromHex_loop]. rewrite length_join_hex2.
    destruct (Nat.ltb_spec (2 * k) (2 * length l)) as [Hlt | Hge].
    + assert (Hkl : (k < length l)%nat) by lia.
      destruct (lookup_lt_is_Some_2 l k Hkl) as [b Hb].
      rewrite (substr_join_hex2 l k b Hb), parse_hex2.
      replace (2 * k / 2)%nat with k
        by (rewrite Nat.mul_comm, Nat.div_mul; lia).
      replace (2 * k + 2)%nat with (2 * S k)%nat by lia.
      rewrite IH by (rewrite ?length_insert; lia).
      rewrite (drop_S l b k Hb).
      assert (Hins : <[k:=b]> bytes !! k = Some b)
        by (apply list_lookup_insert_eq; lia).
      rewrite (take_S_r _ _ _ Hins).
      rewrite take_insert_ge by lia.
      rewrite <- app_assoc. reflexivity.
    + assert (k = length l) by lia. subst k.
      rewrite <- Hlen at 1. rewrite firstn_all, drop_all, app_nil_r.
      reflexivity.
Qed.

Lemma toHexString_unfold (b : list byte) :
  toHexString b = String "0" (String "x" (join (map hex2 b))).
Proof. reflexivity. Qed.

Lemma slice_2 (c1 c2 : ascii) (s : string) :
  slice 2 (String c1 (String c2 s)) = s.
Proof.
  unfold slice. cbn [String.length Nat.sub substring].
  rewrite Nat.sub_0_r.
  induction s as [| c s IH]; cbn; [reflexivity | now rewrite IH].
Qed.

Lemma startsWith_0x (s : string) :
  startsWith "0x" (String "0" (String "x" s)) = true.
Proof. unfold startsWith. cbn. destruct s; reflexivity. Qed.

End CodecFacts.

(** C2. For every byte sequence [b], [fromHexString (toHexString b)] is
    [b]; [toHexString] starts its result with the two characters [0x], and
    [fromHexString] removes them before it decodes. *)
Theorem fromHexString_toHexString (b : list byte) :
  Codec.fromHexString (Codec.toHexString b) = b
  /\ Codec.startsWith "0x" (Codec.toHexString b) = true
  /\ Codec.slice 2 (Codec.toHexString b)
     = Codec.join (map (fun x => Codec.padStart 2 "0" (Codec.toString16 x)) b).
Proof.
  rewrite toHexString_unfold. split; [| split].
  - unfold Codec.fromHexString.
    rewrite startsWith_0x.
    rewrite slice_2, length_join_hex2.
    replace (2 * length b / 2)%nat with (length b)
      by (rewrite Nat.mul_comm, Nat.div_mul; lia).
    pose proof (fromHex_loop_spec b (2 * length b) 0
                  (new_Uint8Array (length b))) as Hloop.
    change (2 * 0)%nat with 0%nat in Hloop.
    rewrite Hloop; [reflexivity | | lia | lia].
    unfold new_Uint8Array. apply length_replicate.
  - apply startsWith_0x.
  - apply slice_2.
Qed.

(** ** The encryption adapter *)

(** Unfolding of the monad's operations. *)
Ltac run_async :=
  unfold debugLog in *;
  unfold bind, ret, throw, try_catch, call, request, settle, get_client,
    get_contract, get_env, modify_client, outcome_of in *;
  cbn beta iota zeta in *;
  cbn [history fhevmClient votingContract] in *.

Section Adapter.

Variables (env : Env) (s : Store).

(** What [encrypt32] does, case by case. *)
Lemma encrypt32_cases (value : JS.number) :
  match isReady (fhevmClient s), instance (fhevmClient s) with
  | true, Some h =>
      Fhevm.encrypt32 value env s =
        (Ok (match instance_encrypt32 env (history s) h value with
             | Returns (Some e) =>
                 {| data := b_data e;
                    proof := match b_proof e with
                             | Some p => p
                             | None => new_Uint8Array 0
                             end |}
             | Returns None | Throws _ => simulateEncryption value
             end),
         called (CallBackendEncrypt32 h value) s)
  | _, _ => Fhevm.encrypt32 value env s = (Ok (simulateEncryption value), s)
  end.
Proof.
  unfold Fhevm.encrypt32. run_async.
  destruct (isReady (fhevmClient s)), (instance (fhevmClient s)) as [h |];
    try reflexivity.
  fold (called (CallBackendEncrypt32 h value) s).
  destruct (instance_encrypt32 env (history s) h value) as [[e |] | err];
    reflexivity.
Qed.

(** [encrypt32] always returns, and leaves the two objects as they are. *)
Lemma encrypt32_returns (value : JS.number) :
  exists c s',
    Fhevm.encrypt32 value env s = (Ok c, s')
    /\ fhevmClient s' = fhevmClient s
    /\ votingContract s' = votingContract s.
Proof.
  pose proof (encrypt32_cases value) as Hc.
  destruct (isReady (fhevmClient s)), (instance (fhevmClient s)) as [h |];
    eexists _, _; (split; [exact Hc |]); split; reflexivity.
Qed.

End Adapter.

(** C4. [encrypt32] is total: for every value it returns a ciphertext and
    raises nothing.  When the adapter is not ready it returns the simulated
    ciphertext without calling the backend; when the backend call throws
    it returns the simulated ciphertext as well; the fields of the adapter,
    the ready flag among them, are the same after the call. *)
Theorem encrypt32_total (env : Env) (s : Store) (value : JS.number) :
  exists c s',
    Fhevm.encrypt32 value env s = (Ok c, s')
    /\ fhevmClient s' = fhevmClient s
    /\ votingContract s' = votingContract s
    /\ (Fhevm.isInitialized (fhevmClient s) = false ->
        c = simulateEncryption value /\ s' = s)
    /\ (forall h e,
          Fhevm.isInitialized (fhevmClient s) = true ->
          instance (fhevmClient s) = Some h ->
          instance_encrypt32 env (history s) h value = Throws e ->
          c = simulateEncryption value
          /\ isReady (fhevmClient s') = true).
Proof.
  pose proof (encrypt32_cases env s value) as Hc.
  unfold Fhevm.isInitialized.
  destruct (isReady (fhevmClient s)) eqn:Hr,
           (instance (fhevmClient s)) as [h |] eqn:Hi;
    eexists _, _; (split; [exact Hc |]); cbn;
    (split; [reflexivity |]); (split; [reflexivity |]);
    (split; [intros Hn; try discriminate Hn; split; reflexivity |]);
    intros h' e Hy Hh He; try discriminate.
  injection Hh as <-. rewrite He. split; [reflexivity | exact Hr].
Qed.

(** C3. [encryptVote] raises (the error "Vote must be 0 or 1") exactly
    when the choice is neither 0 nor 1, and then nothing has happened; for
    0 and for 1 it returns the two fields of the ciphertext of [encrypt32]
    and leaves the fields of the adapter as they were. *)
Theorem encryptVote_domain (env : Env) (s : Store) (vote : JS.number) :
  ((exists e s', Fhevm.encryptVote vote env s = (Throw e, s'))
   <-> (vote <> JS.Num 0 /\ vote <> JS.Num 1))
  /\ ((vote <> JS.Num 0 /\ vote <> JS.Num 1) ->
      Fhevm.encryptVote vote env s = (Throw (JsError "Vote must be 0 or 1"), s))
  /\ ((vote = JS.Num 0 \/ vote = JS.Num 1) ->
      exists c s',
        Fhevm.encrypt32 vote env s = (Ok c, s')
        /\ Fhevm.encryptVote vote env s
           = (Ok {| Fhevm.encryptedVote := data c;
                    Fhevm.inputProof := proof c |}, s')
        /\ fhevmClient s' = fhevmClient s
        /\ votingContract s' = votingContract s).
Proof.
  assert (Hok : (vote = JS.Num 0 \/ vote = JS.Num 1) ->
      exists c s',
        Fhevm.encrypt32 vote env s = (Ok c, s')
        /\ Fhevm.encryptVote vote env s
           = (Ok {| Fhevm.encryptedVote := data c;
                    Fhevm.inputProof := proof c |}, s')
        /\ fhevmClient s' = fhevmClient s
        /\ votingContract s' = votingContract s).
  { intros Hv.
    destruct (encrypt32_returns env s vote) as (c & s' & He & Hf & Hv').
    exists c, s'. split; [exact He |]. split; [| split; assumption].
    unfold Fhevm.encryptVote.
    destruct Hv as [-> | ->]; cbn [JS.strict_eq Z.eqb negb andb Pos.eqb];
      run_async; rewrite He; reflexivity. }
  assert (Hbad : (vote <> JS.Num 0 /\ vote <> JS.Num 1) ->
      Fhevm.encryptVote vote env s
      = (Throw (JsError "Vote must be 0 or 1"), s)).
  { intros [H0 H1]. unfold Fhevm.encryptVote.
    assert (E0 : JS.strict_eq vote (JS.Num 0) = false).
    { destruct vote as [z | b |]; cbn; try reflexivity.
      apply Z.eqb_neq. congruence. }
    assert (E1 : JS.strict_eq vote (JS.Num 1) = false).
    { destruct vote as [z | b |]; cbn; try reflexivity.
      apply Z.eqb_neq. congruence. }
    rewrite E0, E1. reflexivity. }
  split; [| split; assumption].
  split.
  - intros (e & s' & Hthrow).
    destruct vote as [z | b |]; try (split; discriminate).
    destruct (Z.eq_dec z 0) as [-> | Hz0].
    + destruct (Hok (or_introl eq_refl)) as (c & s1 & _ & Hr & _). congruence.
    + destruct (Z.eq_dec z 1) as [-> | Hz1].
      * destruct (Hok (or_intror eq_refl)) as (c & s1 & _ & Hr & _). congruence.
      * split; congruence.
  - intros Hv. eexists _, _. apply Hbad, Hv.
Qed.

(** ** Initialisation of the adapter *)

Section Init.

Variables (env : Env) (s : Store) (p : Provider).

Let url := Fhevm.public_key_url.
Let h1 : History := history s ++ [CallGetNetwork p].
Let key : option string := fetched_key (fetch env h1 url).
Let h2 : History := h1 ++ [CallFetch url].
Let h3 : History := h2 ++ [CallImportFhevmjs].
Let cfg : InstanceConfig := instance_config env key.
Let h4 : History := h3 ++ [CallCreateInstance cfg].

Let store_of (c : FHEVMClient) (h : History) : Store :=
  {| fhevmClient := c; votingContract := votingContract s; history := h |}.

Lemma fetchPublicKey_run (s0 : Store) :
  Fhevm.fetchPublicKey env s0
  = (Ok tt,
     {| fhevmClient :=
          Fhevm.set_publicKey (fetched_key (fetch env (history s0) url))
            (fhevmClient s0);
        votingContract := votingContract s0;
        history := history s0 ++ [CallFetch url] |}).
Proof.
  unfold Fhevm.fetchPublicKey, fetched_key. run_async. unfold called.
  cbn [history fhevmClient votingContract]. fold url.
  destruct (fetch env (history s0) url) as [r | e]; [| reflexivity].
  destruct (ok r); [| reflexivity].
  destruct (json r) as [[fields |] | e]; reflexivity.
Qed.

(** What [init] does, case by case. *)
Lemma init_cases :
  Fhevm.init p env s =
  match provider_getNetwork env (history s) p with
  | Throws e =>
      (Throw e,
       store_of {| instance := instance (fhevmClient s); provider := Some p;
                   isReady := false; publicKey := publicKey (fhevmClient s) |}
                h1)
  | Returns n =>
      match import_fhevmjs env h2 with
      | Throws _ =>
          (Ok tt,
           store_of {| instance := instance (fhevmClient s);
                       provider := Some p; isReady := false;
                       publicKey := key |} h3)
      | Returns _ =>
          match createInstance env h3 cfg with
          | Throws _ =>
              (Ok tt,
               store_of {| instance := instance (fhevmClient s);
                           provider := Some p; isReady := false;
                           publicKey := key |} h4)
          | Returns h =>
              (Ok tt,
               store_of {| instance := Some h; provider := Some p;
                           isReady := true; publicKey := key |} h4)
          end
      end
  end.
Proof.
  unfold Fhevm.init.
  unfold bind at 1. unfold modify_client at 1.
  unfold try_catch at 1. unfold bind at 1. unfold debugLog at 1, ret at 1.
  unfold bind at 1. unfold call at 1. unfold called.
  cbn [history fhevmClient votingContract]. fold h1.
  destruct (provider_getNetwork env (history s) p) as [n | e];
    cbn [outcome_of]; [| reflexivity].
  unfold bind at 1. unfold debugLog at 1, ret at 1.
  unfold bind at 1.
  replace ((if negb (JS.strict_eq (JS.Number_of_bigint (chainId n))
                       (JS.Num 11155111))
            then debugLog else ret tt))
    with (@ret unit tt) by (destruct (negb _); reflexivity).
  unfold ret at 1. unfold bind at 1. rewrite fetchPublicKey_run.
  cbn [history fhevmClient votingContract]. fold url key h2.
  unfold try_catch at 1. unfold bind at 1. unfold call at 1. unfold called.
  cbn [history fhevmClient votingContract]. fold h3.
  destruct (import_fhevmjs env h2) as [[] | e]; cbn [outcome_of];
    [| reflexivity].
  run_async. unfold called, Fhevm.getDefaultPublicKey. run_async.
  cbn [Fhevm.set_publicKey Fhevm.set_provider publicKey instance provider
       isReady].
  assert (Hcfg :
    {| cfg_chainId := 11155111;
       cfg_publicKey := instance_key key;
       cfg_gatewayUrl := "https://gateway.sepolia.zama.ai";
       cfg_aclAddress := Fhevm.ZAMA_CONFIG_aclAddress env |} = cfg)
    by reflexivity.
  unfold instance_key in Hcfg.
  destruct (truthy key); cbn beta iota zeta;
    cbn [history fhevmClient votingContract]; rewrite Hcfg; fold h4;
    destruct (createInstance env h3 cfg) as [h | e]; reflexivity.
Qed.

End Init.

(** C5 (amended). [init] raises only when the provider's network query
    raises, and then it rethrows that error after clearing the ready flag.
    When the network query answers, whatever the chain identity, [init]
    completes: a failed key fetch leaves no key and the instance is made
    with the fallback key; a failure to load or to construct the backend
    clears the ready flag and nothing is raised. *)
Theorem init_surfaces_only_network_failure
    (env : Env) (s : Store) (p : Provider) :
  let h1 := history s ++ [CallGetNetwork p] in
  let h2 := h1 ++ [CallFetch Fhevm.public_key_url] in
  let h3 := h2 ++ [CallImportFhevmjs] in
  let key := fetched_key (fetch env h1 Fhevm.public_key_url) in
  (forall e, provider_getNetwork env (history s) p = Throws e ->
     exists s', Fhevm.init p env s = (Throw e, s')
       /\ isReady (fhevmClient s') = false)
  /\ (forall n, provider_getNetwork env (history s) p = Returns n ->
     exists s', Fhevm.init p env s = (Ok tt, s')
       /\ publicKey (fhevmClient s') = key
       /\ (key = None ->
           forall c, In (CallCreateInstance c) (history s') ->
             ~ In (CallCreateInstance c) (history s) ->
             cfg_publicKey c = ("0x" ++ Fhevm.repeat_zero 64)%string)
       /\ ((exists e, import_fhevmjs env h2 = Throws e)
           \/ (exists e, createInstance env h3 (instance_config env key)
                         = Throws e) ->
           isReady (fhevmClient s') = false)
       /\ (forall h, import_fhevmjs env h2 = Returns tt ->
             createInstance env h3 (instance_config env key) = Returns h ->
             isReady (fhevmClient s') = true
             /\ instance (fhevmClient s') = Some h)).
Proof.
  cbv zeta. pose proof (init_cases env s p) as Hc. cbv zeta in Hc.
  split.
  - intros e He. rewrite He in Hc. eexists. split; [exact Hc | reflexivity].
  - intros n Hn. rewrite Hn in Hc.
    assert (Hin : forall (h : History) c,
               In (CallCreateInstance c)
                 (h ++ [CallCreateInstance
                          (instance_config env
                             (fetched_key
                                (fetch env (history s ++ [CallGetNetwork p])
                                   Fhevm.public_key_url)))]) ->
               (forall c', In (CallCreateInstance c') h ->
                           In (CallCreateInstance c') (history s)) ->
               ~ In (CallCreateInstance c) (history s) ->
               fetched_key (fetch env (history s ++ [CallGetNetwork p])
                              Fhevm.public_key_url) = None ->
               cfg_publicKey c = ("0x" ++ Fhevm.repeat_zero 64)%string).
    { intros h c Hc' Hold Hnew Hk. apply in_app_or in Hc'.
      destruct Hc' as [Hc' | [Hc' | []]].
      - exfalso. apply Hnew, Hold, Hc'.
      - injection Hc' as <-. rewrite Hk. reflexivity. }
    assert (Hold3 : forall c',
               In (CallCreateInstance c')
                 (((history s ++ [CallGetNetwork p])
                   ++ [CallFetch Fhevm.public_key_url])
                  ++ [CallImportFhevmjs]) ->
               In (CallCreateInstance c') (history s)).
    { intros c' Hc'. repeat (apply in_app_or in Hc';
        destruct Hc' as [Hc' | [Hc' | []]]; try discriminate Hc').
      exact Hc'. }
    destruct (import_fhevmjs env _) as [[] | e1] eqn:Hi.
    + destruct (createInstance env _ _) as [h | e2] eqn:Hcr.
      * eexists. split; [exact Hc |]. cbn.
        split; [reflexivity |]. split.
        { intros Hk c Hin' Hnew. eapply Hin; eauto. }
        split; [intros [[e He] | [e He]]; discriminate |].
        intros h' _ Hh. injection Hh as <-. split; reflexivity.
      * eexists. split; [exact Hc |]. cbn.
        split; [reflexivity |]. split.
        { intros Hk c Hin' Hnew. eapply Hin; eauto. }
        split; [reflexivity |]. intros h' _ Hh. discriminate Hh.
    + eexists. split; [exact Hc |]. cbn.
      split; [reflexivity |]. split.
      { intros Hk c Hin' Hnew. exfalso. apply Hnew, Hold3, Hin'. }
      split; [reflexivity |]. intros h' Hh. discriminate Hh.
Qed.

(** C5 as stated fails: when the provider's network query raises, [init]
    raises as well. *)
Lemma init_rethrows_network_failure :
  let env := with_getNetwork (fun _ _ => Throws (Thrown 7)) calm_env in
  exists s', Fhevm.init 0%nat env fresh_store = (Throw (Thrown 7), s').
Proof. eexists. vm_compute. reflexivity. Qed.

(** ** The write operations of the contract client *)

Section Writes.

Variable env : Env.

Lemma confirmed_run (tx : Tx) (s : Store) :
  Contract.confirmed tx env s
  = (match tx_wait env (history s) tx with
     | Returns (Some r) =>
         Ok (match status r with Some x => x =? 1 | None => false end)
     | Returns None => Throw (TypeError "Cannot read properties of null")
     | Throws e => Throw e
     end,
     called (CallTxWait tx) s).
Proof.
  unfold Contract.confirmed. run_async.
  destruct (tx_wait env (history s) tx) as [[r |] | e]; reflexivity.
Qed.

Lemma castVote_simulated_run (proposalId optionIndex : JS.number) (s : Store) :
  Contract.castVote_simulated proposalId optionIndex env s
  = (outcome_of
       (contract_castVote env
          (history s ++ [CallRandomBytes 32; CallRandomBytes 32])
          proposalId optionIndex
          (ethers_hexlify env (fst (simulated_bytes env (history s))))
          (ethers_hexlify env (snd (simulated_bytes env (history s))))),
     {| fhevmClient := fhevmClient s;
        votingContract := votingContract s;
        history := history s ++ [CallRandomBytes 32; CallRandomBytes 32;
                                 simulated_write env proposalId optionIndex
                                   (history s)] |}).
Proof.
  unfold Contract.castVote_simulated, simulated_write, simulated_bytes.
  run_async. unfold called. cbn [history fhevmClient votingContract fst snd].
  rewrite <- !app_assoc. reflexivity.
Qed.

End Writes.

Section CastVote.

Variables (env : Env) (s : Store) (proposalId optionIndex : JS.number).

Lemma castVote_not_connected :
  contract (votingContract s) = None ->
  Contract.castVote proposalId optionIndex env s = (Ok false, s).
Proof.
  intros Hc. unfold Contract.castVote. run_async. rewrite Hc. reflexivity.
Qed.

Lemma castVote_simulated_path (k : ContractHandle) :
  contract (votingContract s) = Some k ->
  isFHEVMEnabled (votingContract s) && Fhevm.isInitialized (fhevmClient s)
    = false ->
  Contract.castVote proposalId optionIndex env s
  = finish env (Contract.castVote_simulated proposalId optionIndex env s).
Proof.
  intros Hc Hf. unfold Contract.castVote. run_async. rewrite Hc.
  cbn [Contract.is_null]. rewrite Hf.
  destruct (Contract.castVote_simulated proposalId optionIndex env s)
    as [[tx | e |] s1]; cbn [finish]; try reflexivity.
  destruct (Contract.confirmed tx env s1) as [[b | e |] s2]; reflexivity.
Qed.

Lemma castVote_fhe_path (k : ContractHandle) (c : Ciphertext) (s1 : Store) :
  contract (votingContract s) = Some k ->
  isFHEVMEnabled (votingContract s) && Fhevm.isInitialized (fhevmClient s)
    = true ->
  Fhevm.encrypt32 (JS.Num 1) env s = (Ok c, s1) ->
  Contract.castVote proposalId optionIndex env s
  = match data c with
    | None =>
        finish env (Contract.castVote_simulated proposalId optionIndex env s1)
    | Some d =>
        let write :=
          CallCastVote proposalId optionIndex
            (Codec.toHexString d) (Codec.toHexString (proof c)) in
        match contract_castVote env (history s1) proposalId optionIndex
                (Codec.toHexString d) (Codec.toHexString (proof c)) with
        | Returns tx => finish env (Ok tx, called write s1)
        | Throws _ =>
            finish env (Contract.castVote_simulated proposalId optionIndex env
                      (called write s1))
        end
    end.
Proof.
  intros Hc Hf He. unfold Contract.castVote, Fhevm.encryptVote.
  cbn [JS.strict_eq Z.eqb Pos.eqb negb andb].
  unfold Fhevm.toHexString_of. run_async. rewrite Hc.
  cbn [Contract.is_null]. rewrite Hf, He.
  cbn [Fhevm.encryptedVote Fhevm.inputProof].
  destruct (data c) as [d |].
  - cbv zeta.
    destruct (contract_castVote env (history s1) proposalId optionIndex
                (Codec.toHexString d) (Codec.toHexString (proof c)))
      as [tx | e]; cbn [finish].
    + destruct (Contract.confirmed tx env _) as [[b | e |] s2]; reflexivity.
    + destruct (Contract.castVote_simulated proposalId optionIndex env _)
        as [[tx | e' |] s2]; cbn [finish]; try reflexivity.
      destruct (Contract.confirmed tx env s2) as [[b | e'' |] s3];
        reflexivity.
  - destruct (Contract.castVote_simulated proposalId optionIndex env s1)
      as [[tx | e' |] s2]; cbn [finish]; try reflexivity.
    destruct (Contract.confirmed tx env s2) as [[b | e'' |] s3]; reflexivity.
Qed.

End CastVote.

Section CastVoteTrace.

Variables (env : Env) (proposalId optionIndex : JS.number).

Let permitted := castVote_call env proposalId optionIndex.

Lemma simulated_write_permitted (h : History) :
  permitted (simulated_write env proposalId optionIndex h).
Proof.
  cbn. repeat split; eexists; right; reflexivity.
Qed.

Lemma fhe_write_permitted (d p : Uint8Array) :
  permitted (CallCastVote proposalId optionIndex
               (Codec.toHexString d) (Codec.toHexString p)).
Proof.
  cbn. repeat split; eexists; left; reflexivity.
Qed.

(** The calls added by what follows an attempt to write. *)
Lemma finish_trace (r : outcome Tx * Store) (h : History) (calls : list Call) :
  history (snd r) = h ++ calls ->
  Forall permitted calls ->
  exists calls',
    history (snd (finish env r)) = h ++ calls'
    /\ Forall permitted calls'.
Proof.
  intros Hh Hp. destruct r as [[tx | e |] s1]; cbn [finish snd] in *;
    try (exists calls; split; assumption).
  rewrite confirmed_run. cbn [snd called history]. rewrite Hh.
  exists (calls ++ [CallTxWait tx]). split.
  - now rewrite app_assoc.
  - apply Forall_app. split; [exact Hp |].
    constructor; [exact I | constructor].
Qed.

Lemma simulated_trace (s1 : Store) (h : History) (calls : list Call) :
  history s1 = h ++ calls ->
  Forall permitted calls ->
  exists calls',
    history (snd (finish env
      (Contract.castVote_simulated proposalId optionIndex env s1)))
      = h ++ calls'
    /\ Forall permitted calls'.
Proof.
  intros Hh Hp.
  apply finish_trace
    with (calls := calls ++ [CallRandomBytes 32; CallRandomBytes 32;
                             simulated_write env proposalId optionIndex
                               (history s1)]).
  - rewrite castVote_simulated_run. cbn [snd history]. rewrite Hh.
    now rewrite app_assoc.
  - apply Forall_app. split; [exact Hp |].
    constructor; [exact I |]. constructor; [exact I |].
    constructor; [apply simulated_write_permitted | constructor].
Qed.

Lemma castVote_trace (s : Store) :
  exists calls,
    history (snd (Contract.castVote proposalId optionIndex env s))
      = history s ++ calls
    /\ Forall permitted calls
    /\ (contract (votingContract s) <> None ->
        isFHEVMEnabled (votingContract s) = true ->
        Fhevm.isInitialized (fhevmClient s) = true ->
        exists h rest,
          instance (fhevmClient s) = Some h
          /\ calls = CallBackendEncrypt32 h (JS.Num 1) :: rest).
Proof.
  destruct (contract (votingContract s)) as [k |] eqn:Hc.
  2:{ rewrite castVote_not_connected by exact Hc. exists [].
      cbn [snd]. rewrite app_nil_r. repeat split; [constructor | congruence]. }
  destruct (isFHEVMEnabled (votingContract s)
            && Fhevm.isInitialized (fhevmClient s)) eqn:Hf.
  2:{ rewrite (castVote_simulated_path env s _ _ k Hc Hf).
      destruct (simulated_trace s (history s) []) as (calls & Hh & Hp);
        [now rewrite app_nil_r | constructor |].
      exists calls. repeat split; try assumption.
      intros _ H1 H2. rewrite H1, H2 in Hf. discriminate. }
  apply andb_prop in Hf as Hf'. destruct Hf' as [Hen Hinit].
  unfold Fhevm.isInitialized in Hinit. apply andb_prop in Hinit.
  destruct Hinit as [Hr Hi].
  destruct (instance (fhevmClient s)) as [h |] eqn:Hinst; [| discriminate].
  pose proof (encrypt32_cases env s (JS.Num 1)) as He.
  rewrite Hr, Hinst in He.
  rewrite (castVote_fhe_path env s _ _ k _ _ Hc Hf He).
  set (s1 := called (CallBackendEncrypt32 h (JS.Num 1)) s).
  assert (Hs1 : history s1 = history s ++ [CallBackendEncrypt32 h (JS.Num 1)])
    by reflexivity.
  assert (Hp1 : Forall permitted [CallBackendEncrypt32 h (JS.Num 1)])
    by (constructor; [reflexivity | constructor]).
  assert (Hhead : forall calls (x : History),
             history s ++ calls
               = history s ++ CallBackendEncrypt32 h (JS.Num 1) :: x ->
             exists h' rest,
               Some h = Some h'
               /\ calls = CallBackendEncrypt32 h' (JS.Num 1) :: rest).
  { intros calls x Hx. apply app_inv_head in Hx. eauto. }
  match goal with
  | |- context [data ?c] => destruct (data c) as [d |] eqn:Hd
  end.
  - cbv zeta.
    match goal with
    | |- context [contract_castVote env ?a ?b ?c ?x ?y] =>
        set (w := CallCastVote b c x y);
        destruct (contract_castVote env a b c x y) as [tx | e]
    end.
    + destruct (finish_trace (Ok tx, called w s1) (history s)
                  [CallBackendEncrypt32 h (JS.Num 1); w])
        as (calls & Hh & Hp).
      * cbn [snd called history]. rewrite Hs1, <- app_assoc. reflexivity.
      * constructor; [reflexivity |].
        constructor; [apply fhe_write_permitted | constructor].
      * exists calls. split; [exact Hh |]. split; [exact Hp |].
        cbn [finish] in Hh. rewrite confirmed_run in Hh.
        cbn [snd called history] in Hh. rewrite Hs1 in Hh.
        rewrite <- !app_assoc in Hh. symmetry in Hh.
        intros _ _ _. eapply Hhead. cbn [app] in Hh. exact Hh.
    + destruct (simulated_trace (called w s1) (history s)
                  [CallBackendEncrypt32 h (JS.Num 1); w])
        as (calls & Hh & Hp).
      * cbn [called history]. rewrite Hs1, <- app_assoc. reflexivity.
      * constructor; [reflexivity |].
        constructor; [apply fhe_write_permitted | constructor].
      * exists calls. split; [exact Hh |]. split; [exact Hp |].
        rewrite castVote_simulated_run in Hh.
        destruct (outcome_of _) as [tx | e' |] in Hh; cbn [finish] in Hh;
          rewrite ?confirmed_run in Hh;
          cbn [snd called history] in Hh; rewrite Hs1 in Hh;
          rewrite <- !app_assoc in Hh; symmetry in Hh;
          intros _ _ _; eapply Hhead; cbn [app] in Hh; exact Hh.
  - destruct (simulated_trace s1 (history s)
                [CallBackendEncrypt32 h (JS.Num 1)] Hs1 Hp1)
      as (calls & Hh & Hp).
    exists calls. split; [exact Hh |]. split; [exact Hp |].
    rewrite castVote_simulated_run in Hh.
    destruct (outcome_of _) as [tx | e' |] in Hh; cbn [finish] in Hh;
      rewrite ?confirmed_run in Hh;
      cbn [snd called history] in Hh; rewrite Hs1 in Hh;
      rewrite <- !app_assoc in Hh; symmetry in Hh;
      intros _ _ _; eapply Hhead; cbn [app] in Hh; exact Hh.
Qed.

End CastVoteTrace.

(** ** What [castVote] sends, path by path *)

Section CastVoteSends.

Variables (env : Env) (s : Store) (proposalId optionIndex : JS.number).

Let r := Contract.castVote proposalId optionIndex env s.

(** Without an enabled and ready adapter: two draws, then the write that
    carries them. *)
Lemma castVote_simulated_history (k : ContractHandle) :
  contract (votingContract s) = Some k ->
  isFHEVMEnabled (votingContract s) && Fhevm.isInitialized (fhevmClient s)
    = false ->
  exists rest,
    history (snd r)
    = history s
      ++ CallRandomBytes 32 :: CallRandomBytes 32
         :: simulated_write env proposalId optionIndex (history s) :: rest.
Proof.
  intros Hc Hf. unfold r.
  rewrite (castVote_simulated_path env s _ _ k Hc Hf), castVote_simulated_run.
  destruct (outcome_of _) as [tx | e |]; cbn [finish];
    rewrite ?confirmed_run; cbn [snd called history];
    rewrite <- ?app_assoc; cbn [app]; eexists; reflexivity.
Qed.

(** What [encryptVote 1] returns with a ready adapter. *)
Lemma encryptVote_one_ready (h : Handle) :
  isReady (fhevmClient s) = true ->
  instance (fhevmClient s) = Some h ->
  exists c,
    Fhevm.encrypt32 (JS.Num 1) env s
      = (Ok c, called (CallBackendEncrypt32 h (JS.Num 1)) s)
    /\ Fhevm.encryptVote (JS.Num 1) env s
       = (Ok {| Fhevm.encryptedVote := data c; Fhevm.inputProof := proof c |},
          called (CallBackendEncrypt32 h (JS.Num 1)) s)
    /\ (forall e,
          instance_encrypt32 env (history s) h (JS.Num 1) = Returns (Some e) ->
          data c = b_data e
          /\ proof c = match b_proof e with
                       | Some p => p
                       | None => new_Uint8Array 0
                       end)
    /\ ((exists e, instance_encrypt32 env (history s) h (JS.Num 1) = Throws e)
        \/ instance_encrypt32 env (history s) h (JS.Num 1) = Returns None ->
        c = simulateEncryption (JS.Num 1)).
Proof.
  intros Hready Hinst. pose proof (encrypt32_cases env s (JS.Num 1)) as He.
  rewrite Hready, Hinst in He. eexists. split; [exact He |]. split.
  - unfold Fhevm.encryptVote. cbn [JS.strict_eq Z.eqb Pos.eqb negb andb].
    run_async. rewrite He. reflexivity.
  - destruct (instance_encrypt32 env (history s) h (JS.Num 1))
      as [[e |] | err]; split.
    + intros e' He'. injection He' as <-. split; reflexivity.
    + intros [[e' He'] | He']; discriminate He'.
    + intros e' He'. discriminate He'.
    + intros _. reflexivity.
    + intros e' He'. discriminate He'.
    + intros _. reflexivity.
Qed.

(** With an enabled and ready adapter: the encryption of 1, then the write
    that carries its result, or, when the result has no [data], two draws
    and the write that carries them. *)
Lemma castVote_fhe_history (k : ContractHandle) (h : Handle) (c : Ciphertext) :
  contract (votingContract s) = Some k ->
  isFHEVMEnabled (votingContract s) && Fhevm.isInitialized (fhevmClient s)
    = true ->
  Fhevm.encrypt32 (JS.Num 1) env s
    = (Ok c, called (CallBackendEncrypt32 h (JS.Num 1)) s) ->
  match data c with
  | Some d =>
      exists rest,
        history (snd r)
        = history s
          ++ CallBackendEncrypt32 h (JS.Num 1)
             :: CallCastVote proposalId optionIndex (Codec.toHexString d)
                  (Codec.toHexString (proof c)) :: rest
  | None =>
      exists rest,
        history (snd r)
        = history s
          ++ CallBackendEncrypt32 h (JS.Num 1)
             :: CallRandomBytes 32 :: CallRandomBytes 32
             :: simulated_write env proposalId optionIndex
                  (history s ++ [CallBackendEncrypt32 h (JS.Num 1)]) :: rest
  end.
Proof.
  intros Hc Hf He. unfold r.
  rewrite (castVote_fhe_path env s _ _ k c _ Hc Hf He).
  destruct (data c) as [d |]; cbv zeta.
  - destruct (contract_castVote env _ proposalId optionIndex _ _) as [tx | e];
      cbn [finish]; rewrite ?confirmed_run, ?castVote_simulated_run;
      [| destruct (outcome_of _) as [tx | e' |]; cbn [finish];
         rewrite ?confirmed_run];
      cbn [snd called history]; rewrite <- ?app_assoc; cbn [app];
      eexists; reflexivity.
  - rewrite castVote_simulated_run.
    destruct (outcome_of _) as [tx | e' |]; cbn [finish];
      rewrite ?confirmed_run; cbn [snd called history];
      rewrite <- ?app_assoc; cbn [app]; eexists; reflexivity.
Qed.

End CastVoteSends.

(** C6. Whatever [optionIndex] is, every value [castVote] hands to the
    encryption backend is the constant 1, and every remote write it makes
    carries [proposalId] and [optionIndex] as they were given, next to two
    hex-encoded strings.  When the contract is connected and the adapter
    enabled and ready, the first thing [castVote] does is to have 1
    encrypted.

    A connected [castVote] does send a write with [proposalId] and
    [optionIndex]; without a connection it calls nothing.  With the adapter
    enabled and ready, [encryptVote 1] returns, its result is the backend's
    answer (or the simulated ciphertext of 1 when the backend throws or
    answers nothing), and the call that follows the encryption is the write
    whose two strings are [toHexString] of the [encryptedVote] and of the
    [proof] of that result; only a result without [encryptedVote] makes
    [castVote] send two random draws instead.  Without an enabled and ready
    adapter no encryptor is called and the write carries two random draws
    through [hexlify]. *)
Theorem castVote_encrypts_constant_one
    (env : Env) (s : Store) (proposalId optionIndex : JS.number) :
  exists calls,
    history (snd (Contract.castVote proposalId optionIndex env s))
      = history s ++ calls
    /\ (forall h value,
          In (CallBackendEncrypt32 h value) calls -> value = JS.Num 1)
    /\ (forall a b x y,
          In (CallCastVote a b x y) calls ->
          a = proposalId /\ b = optionIndex
          /\ hex_encoded env x /\ hex_encoded env y)
    /\ (contract (votingContract s) <> None ->
        isFHEVMEnabled (votingContract s) = true ->
        Fhevm.isInitialized (fhevmClient s) = true ->
        exists h rest,
          instance (fhevmClient s) = Some h
          /\ calls = CallBackendEncrypt32 h (JS.Num 1) :: rest)
    /\ (contract (votingContract s) = None -> calls = [])
    /\ (contract (votingContract s) <> None ->
        exists x y, In (CallCastVote proposalId optionIndex x y) calls)
    /\ (contract (votingContract s) <> None ->
        isFHEVMEnabled (votingContract s)
          && Fhevm.isInitialized (fhevmClient s) = false ->
        exists rest,
          calls
          = CallRandomBytes 32 :: CallRandomBytes 32
            :: CallCastVote proposalId optionIndex
                 (ethers_hexlify env (ethers_randomBytes env (history s) 32))
                 (ethers_hexlify env
                    (ethers_randomBytes env
                       (history s ++ [CallRandomBytes 32]) 32))
            :: rest)
    /\ (contract (votingContract s) <> None ->
        isFHEVMEnabled (votingContract s) = true ->
        Fhevm.isInitialized (fhevmClient s) = true ->
        exists h v,
          let encryption := CallBackendEncrypt32 h (JS.Num 1) in
          instance (fhevmClient s) = Some h
          /\ Fhevm.encryptVote (JS.Num 1) env s = (Ok v, called encryption s)
          /\ (forall e,
                instance_encrypt32 env (history s) h (JS.Num 1)
                  = Returns (Some e) ->
                Fhevm.encryptedVote v = b_data e
                /\ Fhevm.inputProof v = match b_proof e with
                                        | Some p => p
                                        | None => new_Uint8Array 0
                                        end)
          /\ ((exists e,
                 instance_encrypt32 env (history s) h (JS.Num 1) = Throws e)
              \/ instance_encrypt32 env (history s) h (JS.Num 1)
                 = Returns None ->
              Fhevm.encryptedVote v = data (simulateEncryption (JS.Num 1))
              /\ Fhevm.inputProof v = proof (simulateEncryption (JS.Num 1)))
          /\ match Fhevm.encryptedVote v with
             | Some d =>
                 exists rest,
                   calls
                   = encryption
                     :: CallCastVote proposalId optionIndex
                          (Codec.toHexString d)
                          (Codec.toHexString (Fhevm.inputProof v))
                     :: rest
             | None =>
                 exists rest,
                   calls
                   = encryption
                     :: CallRandomBytes 32 :: CallRandomBytes 32
                     :: simulated_write env proposalId optionIndex
                          (history s ++ [encryption])
                     :: rest
             end).
Proof.
  destruct (castVote_trace env proposalId optionIndex s)
    as (calls & Hh & Hp & Hfirst).
  exists calls. split; [exact Hh |].
  pose proof (proj1 (Stdlib.Lists.List.Forall_forall _ _) Hp) as Hall.
  split; [intros h value Hin; exact (Hall _ Hin) |].
  split; [intros a b x y Hin; exact (Hall _ Hin) |].
  split; [exact Hfirst |].
  assert (Hsim :
    contract (votingContract s) <> None ->
    isFHEVMEnabled (votingContract s)
      && Fhevm.isInitialized (fhevmClient s) = false ->
    exists rest,
      calls
      = CallRandomBytes 32 :: CallRandomBytes 32
        :: simulated_write env proposalId optionIndex (history s) :: rest).
  { intros Hc Hf.
    destruct (contract (votingContract s)) as [k |] eqn:Hk; [| congruence].
    destruct (castVote_simulated_history env s proposalId optionIndex k Hk Hf)
      as (rest & Hrest).
    exists rest. rewrite Hh in Hrest. exact (app_inv_head _ _ _ Hrest). }
  assert (Hfhe :
    contract (votingContract s) <> None ->
    isFHEVMEnabled (votingContract s) = true ->
    Fhevm.isInitialized (fhevmClient s) = true ->
    exists h c,
      instance (fhevmClient s) = Some h
      /\ Fhevm.encryptVote (JS.Num 1) env s
         = (Ok {| Fhevm.encryptedVote := data c;
                  Fhevm.inputProof := proof c |},
            called (CallBackendEncrypt32 h (JS.Num 1)) s)
      /\ (forall e,
            instance_encrypt32 env (history s) h (JS.Num 1)
              = Returns (Some e) ->
            data c = b_data e
            /\ proof c = match b_proof e with
                         | Some p => p
                         | None => new_Uint8Array 0
                         end)
      /\ ((exists e,
             instance_encrypt32 env (history s) h (JS.Num 1) = Throws e)
          \/ instance_encrypt32 env (history s) h (JS.Num 1) = Returns None ->
          c = simulateEncryption (JS.Num 1))
      /\ match data c with
         | Some d =>
             exists rest,
               calls
               = CallBackendEncrypt32 h (JS.Num 1)
                 :: CallCastVote proposalId optionIndex (Codec.toHexString d)
                      (Codec.toHexString (proof c)) :: rest
         | None =>
             exists rest,
               calls
               = CallBackendEncrypt32 h (JS.Num 1)
                 :: CallRandomBytes 32 :: CallRandomBytes 32
                 :: simulated_write env proposalId optionIndex
                      (history s ++ [CallBackendEncrypt32 h (JS.Num 1)])
                 :: rest
         end).
  { intros Hc Hen Hinit.
    destruct (contract (votingContract s)) as [k |] eqn:Hk; [| congruence].
    assert (Hf : isFHEVMEnabled (votingContract s)
                 && Fhevm.isInitialized (fhevmClient s) = true)
      by (rewrite Hen, Hinit; reflexivity).
    unfold Fhevm.isInitialized in Hinit.
    apply andb_prop in Hinit as [Hready Hinst].
    destruct (instance (fhevmClient s)) as [h |] eqn:Hi; [| discriminate Hinst].
    destruct (encryptVote_one_ready env s h Hready Hi)
      as (c & He & Hv & Hback & Hsimulated).
    exists h, c. split; [reflexivity |]. split; [exact Hv |].
    split; [exact Hback |]. split; [exact Hsimulated |].
    pose proof (castVote_fhe_history env s proposalId optionIndex k h c
                  Hk Hf He) as Hpath.
    destruct (data c) as [d |]; destruct Hpath as (rest & Hrest);
      exists rest; rewrite Hh in Hrest; exact (app_inv_head _ _ _ Hrest). }
  split.
  { intros Hc. rewrite (castVote_not_connected env s _ _ Hc) in Hh.
    cbn [snd] in Hh. destruct calls as [| c calls]; [reflexivity |].
    apply (f_equal (@length Call)) in Hh. rewrite length_app in Hh.
    cbn [length] in Hh. lia. }
  split.
  { intros Hc.
    destruct (isFHEVMEnabled (votingContract s)
              && Fhevm.isInitialized (fhevmClient s)) eqn:Hf.
    - apply andb_prop in Hf as [Hen Hinit].
      destruct (Hfhe Hc Hen Hinit) as (h & c & _ & _ & _ & _ & Hpath).
      destruct (data c) as [d |]; destruct Hpath as (rest & ->).
      + eexists _, _. right. left. reflexivity.
      + eexists _, _. right. right. right. left. reflexivity.
    - destruct (Hsim Hc eq_refl) as (rest & ->).
      eexists _, _. right. right. left. reflexivity. }
  split; [exact Hsim |].
  intros Hc Hen Hinit.
  destruct (Hfhe Hc Hen Hinit) as (h & c & Hi & Hv & Hback & Hsimulated & Hpath).
  exists h. eexists. cbv zeta. split; [exact Hi |]. split; [exact Hv |].
  cbn [Fhevm.encryptedVote Fhevm.inputProof].
  split; [exact Hback |].
  split; [intros Hb; rewrite (Hsimulated Hb); split; reflexivity |].
  exact Hpath.
Qed.

(** C7, the failing run.  The adapter is ready and the first remote write
    raises a transport error: [castVote] does not raise, it writes a second
    time with simulated bytes and answers [true]. *)
Theorem castVote_retries_after_failed_write :
  let s := connected_store ready_client true in
  let r := Contract.castVote (JS.Num 3) (JS.Num 1) flaky_env s in
  contract_castVote flaky_env [CallBackendEncrypt32 0%nat (JS.Num 1)]
    (JS.Num 3) (JS.Num 1) "0x01" "0x02" = Throws (Thrown 42)
  /\ fst r = Ok true
  /\ history (snd r)
     = [CallBackendEncrypt32 0%nat (JS.Num 1);
        CallCastVote (JS.Num 3) (JS.Num 1) "0x01" "0x02";
        CallRandomBytes 32; CallRandomBytes 32;
        simulated_write flaky_env (JS.Num 3) (JS.Num 1)
          [CallBackendEncrypt32 0%nat (JS.Num 1);
           CallCastVote (JS.Num 3) (JS.Num 1) "0x01" "0x02"];
        CallTxWait 5%nat]
  /\ length (List.filter is_castVote (history (snd r))) = 2%nat.
Proof. vm_compute. repeat split; reflexivity. Qed.

(** The part of C7 that holds: whenever [castVote] returns after a write
    was accepted, its answer says whether the receipt's status is 1, and
    an error of the wait is raised as it is. *)
Lemma castVote_answer_is_receipt_status (env : Env) (tx : Tx) (s : Store) :
  match tx_wait env (history s) tx with
  | Returns (Some r) =>
      fst (finish env (Ok tx, s)) = Ok true <-> status r = Some 1
  | Returns None => exists e, fst (finish env (Ok tx, s)) = Throw e
  | Throws e => fst (finish env (Ok tx, s)) = Throw e
  end.
Proof.
  cbn [finish]. rewrite confirmed_run. cbn [fst].
  destruct (tx_wait env (history s) tx) as [[r |] | e]; eauto.
  destruct (status r) as [x |]; [| split; discriminate].
  destruct (Z.eqb_spec x 1) as [-> | Hne]; split; try reflexivity;
    try discriminate; congruence.
Qed.

(** C10. Without a contract handle each of the five write operations
    answers [false] at once: nothing is raised, no call is made and the
    store is as it was.  [false] is also the answer for a transaction
    whose receipt has another status than 1, so the caller cannot tell
    the two apart. *)
Theorem writes_need_a_connection (env : Env) (s : Store) :
  contract (votingContract s) = None ->
  (forall proposalId optionIndex,
     Contract.castVote proposalId optionIndex env s = (Ok false, s))
  /\ (forall title description options duration,
        Contract.createProposal title description options duration env s
        = (Ok false, s))
  /\ (forall proposalId, Contract.revealResults proposalId env s = (Ok false, s))
  /\ (forall voter, Contract.authorizeVoter voter env s = (Ok false, s))
  /\ (forall voters, Contract.authorizeVoters voters env s = (Ok false, s))
  /\ (forall tx s1 r,
        tx_wait env (history s1) tx = Returns (Some r) ->
        status r <> Some 1 ->
        fst (Contract.confirmed tx env s1) = Ok false).
Proof.
  intros Hc.
  assert (Hrejected : forall tx s1 r,
             tx_wait env (history s1) tx = Returns (Some r) ->
             status r <> Some 1 ->
             fst (Contract.confirmed tx env s1) = Ok false).
  { intros tx s1 r Hw Hs. rewrite confirmed_run, Hw. cbn [fst].
    destruct (status r) as [x |]; [| reflexivity].
    destruct (Z.eqb_spec x 1) as [-> | Hne]; [congruence | reflexivity]. }
  repeat split; try exact Hrejected; intros;
    unfold Contract.castVote, Contract.createProposal, Contract.revealResults,
      Contract.authorizeVoter, Contract.authorizeVoters;
    run_async; rewrite Hc; reflexivity.
Qed.

Lemma writes_need_a_connection_witness :
  (forall proposalId optionIndex,
     Contract.castVote proposalId optionIndex calm_env fresh_store
     = (Ok false, fresh_store))
  /\ (forall title description options duration,
        Contract.createProposal title description options duration
          calm_env fresh_store
        = (Ok false, fresh_store))
  /\ (forall proposalId,
        Contract.revealResults proposalId calm_env fresh_store
        = (Ok false, fresh_store))
  /\ (forall voter,
        Contract.authorizeVoter voter calm_env fresh_store
        = (Ok false, fresh_store))
  /\ (forall voters,
        Contract.authorizeVoters voters calm_env fresh_store
        = (Ok false, fresh_store))
  /\ (forall tx s1 r,
        tx_wait calm_env (history s1) tx = Returns (Some r) ->
        status r <> Some 1 ->
        fst (Contract.confirmed tx calm_env s1) = Ok false).
Proof. apply (writes_need_a_connection calm_env fresh_store). reflexivity. Defined.

(** ** The profile resolver *)

Section Profile.

Variables (env : Env) (voter : string).

(** One round of the loop never raises: a failed check is caught. *)
Lemma hasVoted_round (k : Z) (voted : list JS.number) (s0 : Store) :
  try_catch
    (bind (call (CallHasVoted k voter)
             (fun env h => contract_hasVoted env h k voter))
          (fun hasVoted : bool =>
             ret (if hasVoted then voted ++ [JS.Num k] else voted)))
    (fun _ => bind debugLog (fun _ => ret voted)) env s0
  = (Ok (match contract_hasVoted env (history s0) k voter with
         | Returns true => voted ++ [JS.Num k]
         | _ => voted
         end),
     called (CallHasVoted k voter) s0).
Proof.
  run_async.
  destruct (contract_hasVoted env (history s0) k voter) as [[|] | e];
    reflexivity.
Qed.

Lemma counter_increment (k : Z) :
  0 <= k < 2 ^ 53 -> (JS.Num k + JS.Num 1)%js = JS.Num (k + 1).
Proof.
  intros Hk. unfold JS.add. apply to_number_exact. lia.
Qed.

Lemma votedProposals_loop_spec (count : Z) :
  count <= 2 ^ 53 ->
  forall (n : nat) (k : Z) (voted : list JS.number) (s0 : Store) (fuel : nat),
    0 <= k -> k + Z.of_nat n = count -> (n < fuel)%nat ->
    Contract.votedProposals_loop fuel (JS.Num k) count voter voted env s0
    = (Ok (voted ++ fst (scan env voter (history s0) k n)),
       {| fhevmClient := fhevmClient s0;
          votingContract := votingContract s0;
          history := snd (scan env voter (history s0) k n) |}).
Proof.
  intros Hcount. induction n as [| n IH]; intros k voted s0 fuel Hk Hn Hfuel;
    (destruct fuel as [| fuel]; [lia |]); cbn [Contract.votedProposals_loop].
  - cbn [Contract.lt_bigint]. replace (k <? count) with false
      by (symmetry; apply Z.ltb_ge; lia).
    cbn [scan fst snd]. rewrite app_nil_r. destruct s0; reflexivity.
  - cbn [Contract.lt_bigint Contract.index_of].
    replace (k <? count) with true by (symmetry; apply Z.ltb_lt; lia).
    unfold bind at 1. rewrite hasVoted_round.
    rewrite counter_increment by lia.
    rewrite IH by (cbn [called history]; lia).
    cbn [called history fhevmClient votingContract scan fst snd].
    destruct (contract_hasVoted env (history s0) k voter) as [[|] | e];
      rewrite <- ?app_assoc; reflexivity.
Qed.

(** Past 2^53 the counter stays where it is. *)
Lemma counter_stuck (k : Z) :
  0 <= k <= 2 ^ 53 ->
  exists k', (JS.Num k + JS.Num 1)%js = JS.Num k' /\ 0 <= k' <= 2 ^ 53.
Proof.
  intros Hk. destruct (Z.eq_dec k (2 ^ 53)) as [-> | Hne].
  - exists (2 ^ 53). split; [vm_compute; reflexivity | lia].
  - exists (k + 1). split; [apply counter_increment; lia | lia].
Qed.

Lemma votedProposals_loop_diverges (count : Z) :
  2 ^ 53 < count ->
  forall (fuel : nat) (k : Z) (voted : list JS.number) (s0 : Store),
    0 <= k <= 2 ^ 53 ->
    fst (Contract.votedProposals_loop fuel (JS.Num k) count voter voted env s0)
    = OutOfFuel.
Proof.
  intros Hcount. induction fuel as [| fuel IH]; intros k voted s0 Hk;
    cbn [Contract.votedProposals_loop]; [reflexivity |].
  cbn [Contract.lt_bigint Contract.index_of].
  replace (k <? count) with true by (symmetry; apply Z.ltb_lt; lia).
  unfold bind at 1. rewrite hasVoted_round.
  destruct (counter_stuck k Hk) as (k' & -> & Hk').
  apply IH. exact Hk'.
Qed.

End Profile.

(** With a check that does not depend on the history, the scan keeps the
    indices whose check answers [true], in order. *)
Lemma scan_stateless (env : Env) (voter : string) (check : Z -> answer bool) :
  (forall h i, contract_hasVoted env h i voter = check i) ->
  forall (n : nat) (h : History) (k : Z),
    fst (scan env voter h k n)
    = map JS.Num
        (List.filter (fun i => match check i with Returns true => true | _ => false end)
                (map (fun j => k + Z.of_nat j) (seq 0 n))).
Proof.
  intros Hcheck. induction n as [| n IH]; intros h k; [reflexivity |].
  cbn [scan fst]. rewrite Hcheck, IH.
  cbn [seq map List.filter]. rewrite Z.add_0_r.
  rewrite <- seq_shift, map_map.
  assert (Hmap : map (fun j => k + 1 + Z.of_nat j) (seq 0 n)
                 = map (fun j => k + Z.of_nat (S j)) (seq 0 n)).
  { apply map_ext. intros j. lia. }
  rewrite Hmap.
  destruct (check k) as [[|] | e]; reflexivity.
Qed.

(** C8 (amended). Without a signer or a contract [getUserProfile] answers
    [null] and calls nothing; it never raises.  When the address, the two
    flags and a proposal count of at most 2^53 are read, it returns a
    complete profile: every proposal from 0 to the count minus one is
    checked, a check that fails is caught on its own and its proposal left
    out of [votedProposals] as one whose check answers [false], and the
    scan goes on. *)
Theorem getUserProfile_tolerates_failed_checks
    (env : Env) (s : Store) (fuel : nat) :
  let h1 := history s ++ [CallGetAddress] in
  ((signer (votingContract s) = None \/ contract (votingContract s) = None) ->
   Contract.getUserProfile fuel env s = (Ok None, s))
  /\ (forall e, fst (Contract.getUserProfile fuel env s) <> Throw e)
  /\ (forall voter auth adm n,
        signer (votingContract s) <> None ->
        contract (votingContract s) <> None ->
        signer_getAddress env (history s) = Returns voter ->
        let h2 := h1 ++ [CallIsAuthorizedVoter voter] in
        let h3 := h2 ++ [CallIsAdmin voter] in
        let h4 := h3 ++ [CallProposalCount] in
        contract_isAuthorizedVoter env h1 voter = Returns auth ->
        contract_isAdmin env h2 voter = Returns adm ->
        contract_proposalCount env h3 = Returns n ->
        0 <= n <= 2 ^ 53 -> (Z.to_nat n < fuel)%nat ->
        Contract.getUserProfile fuel env s
        = (Ok (Some {| address := voter;
                       isAuthorized := auth;
                       isAdmin := adm;
                       votedProposals :=
                         fst (scan env voter h4 0 (Z.to_nat n)) |}),
           {| fhevmClient := fhevmClient s;
              votingContract := votingContract s;
              history := snd (scan env voter h4 0 (Z.to_nat n)) |})).
Proof.
  cbv zeta. split; [| split].
  - intros Hnull. unfold Contract.getUserProfile. unfold bind at 1.
    unfold get_contract. cbn beta iota.
    destruct Hnull as [-> | ->]; cbn [Contract.is_null orb];
      [| rewrite orb_true_r]; reflexivity.
  - intros e. unfold Contract.getUserProfile. unfold bind at 1.
    unfold get_contract. cbn beta iota.
    destruct (Contract.is_null _ || Contract.is_null _); [discriminate |].
    unfold try_catch.
    match goal with
    | |- context [match ?m env s with _ => _ end] =>
        destruct (m env s) as [[a | e' |] s']
    end; discriminate.
  - intros voter auth adm n Hs Hc Ha Hauth Hadm Hn Hrange Hfuel.
    unfold Contract.getUserProfile. run_async.
    destruct (signer (votingContract s)) as [sg |]; [| congruence].
    destruct (contract (votingContract s)) as [ct |]; [| congruence].
    cbn [Contract.is_null orb]. rewrite Ha.
    unfold called at 1 2 3 4 5 6. cbn [history].
    rewrite Hauth, Hadm, Hn.
    rewrite (votedProposals_loop_spec env voter n (proj2 Hrange)
               (Z.to_nat n) 0) by (cbn [history]; lia).
    reflexivity.
Qed.

Lemma getUserProfile_tolerates_failed_checks_witness :
  fst (Contract.getUserProfile 5 failing_check_env
         (connected_store fresh_client false))
  = Ok (Some {| address := "0xA11CE";
                isAuthorized := true;
                isAdmin := false;
                votedProposals := [JS.Num 0; JS.Num 3] |}).
Proof.
  pose proof (getUserProfile_tolerates_failed_checks failing_check_env
                (connected_store fresh_client false) 5) as H.
  cbv zeta in H. destruct H as (_ & _ & H).
  rewrite (H "0xA11CE"%string true false 4);
    try reflexivity; try discriminate.
  - split; [lia | vm_compute; discriminate].
  - vm_compute. lia.
Defined.

(** C8 as stated fails past 2^53 proposals: the counter of the scan stops
    at 2^53, the loop has no end and no profile is returned. *)
Lemma getUserProfile_never_returns_past_2_53 :
  ~ exists fuel r,
      fst (Contract.getUserProfile fuel crowded_env
             (connected_store fresh_client false)) = Ok r.
Proof.
  intros (fuel & r & Hr).
  unfold Contract.getUserProfile in Hr. run_async.
  cbn [connected_store votingContract signer contract Contract.is_null orb
       history fhevmClient] in Hr.
  cbn [crowded_env calm_env with_proposalCount signer_getAddress
       contract_isAuthorizedVoter contract_isAdmin contract_proposalCount]
    in Hr.
  match type of Hr with
  | context [Contract.votedProposals_loop fuel ?i ?c ?v ?l ?e ?st] =>
      pose proof (votedProposals_loop_diverges e v c ltac:(lia) fuel 0 l st
                    ltac:(lia)) as Hd;
      destruct (Contract.votedProposals_loop fuel i c v l e st) as [[x | x |] st']
  end; cbn in Hd, Hr; congruence.
Qed.

(** ** The proposal list *)

Section Proposals.

Variable env : Env.

Lemma convert_proposal_run (userAddress : option string)
    (pd : Remote.ProposalData) (s0 : Store) :
  exists p s1,
    Contract.convert_proposal userAddress pd env s0 = (Ok p, s1)
    /\ converted pd p.
Proof.
  unfold Contract.convert_proposal, converted. run_async.
  destruct userAddress as [a |].
  - destruct (truthy (Some a)).
    + destruct (contract_hasVoted env (history s0) (Remote.id pd) a)
        as [b | e]; eexists _, _; (split; [reflexivity |]);
        cbn; repeat split; reflexivity.
    + eexists _, _. split; [reflexivity |]. cbn. repeat split; reflexivity.
  - eexists _, _. split; [reflexivity |]. cbn. repeat split; reflexivity.
Qed.

Lemma convert_proposals_run (userAddress : option string) :
  forall (records : list Remote.ProposalData) (acc : list Proposal) (s0 : Store),
  exists ps s1,
    Contract.convert_proposals userAddress records acc env s0
      = (Ok (acc ++ ps), s1)
    /\ List.Forall2 converted records ps.
Proof.
  induction records as [| pd records IH]; intros acc s0.
  - exists [], s0. cbn. rewrite app_nil_r. split; [reflexivity | constructor].
  - cbn [Contract.convert_proposals]. unfold bind at 1.
    destruct (convert_proposal_run userAddress pd s0) as (p & s1 & -> & Hp).
    destruct (IH (acc ++ [p]) s1) as (ps & s2 & -> & Hps).
    exists (p :: ps), s2. rewrite <- app_assoc. split; [reflexivity |].
    constructor; assumption.
Qed.

(** The product by 1000 is exact while it does not exceed 2^53. *)
Lemma milliseconds_exact (t : Z) :
  0 <= t -> t * 1000 <= 2 ^ 53 ->
  (JS.Number_of_bigint t * JS.Num 1000)%js = JS.Num (1000 * t).
Proof.
  intros H0 H1. unfold JS.Number_of_bigint.
  rewrite to_number_exact by lia. unfold JS.mul.
  rewrite to_number_exact by lia. f_equal. lia.
Qed.

End Proposals.

(** C9 (amended). [getActiveProposals] never raises; it answers the empty
    list without a contract and when the remote read fails.  Each record
    it returns has [startTime] and [endTime] equal to [Number(t) * 1000]
    for the time [t] read from the contract, which is exactly 1000 times
    [t] whenever [1000 * t] is at most 2^53. *)
Theorem getActiveProposals_times (env : Env) (s : Store) :
  (contract (votingContract s) = None ->
   Contract.getActiveProposals env s = (Ok [], s))
  /\ (forall e, fst (Contract.getActiveProposals env s) <> Throw e)
  /\ (forall e, contract_getActiveProposals env (history s) = Throws e ->
        fst (Contract.getActiveProposals env s) = Ok [])
  /\ (forall records proposals,
        contract (votingContract s) <> None ->
        contract_getActiveProposals env (history s) = Returns records ->
        fst (Contract.getActiveProposals env s) = Ok proposals ->
        proposals = []
        \/ List.Forall2
             (fun pd p =>
                converted pd p
                /\ (0 <= Remote.startTime pd ->
                    Remote.startTime pd * 1000 <= 2 ^ 53 ->
                    startTime p = JS.Num (1000 * Remote.startTime pd))
                /\ (0 <= Remote.endTime pd ->
                    Remote.endTime pd * 1000 <= 2 ^ 53 ->
                    endTime p = JS.Num (1000 * Remote.endTime pd)))
             records proposals).
Proof.
  split; [| split; [| split]].
  - intros Hc. unfold Contract.getActiveProposals. run_async. rewrite Hc.
    reflexivity.
  - intros e. unfold Contract.getActiveProposals. unfold bind at 1.
    unfold get_contract. cbn beta iota.
    destruct (Contract.is_null _); [discriminate |].
    unfold try_catch.
    match goal with
    | |- context [match ?m env s with _ => _ end] =>
        destruct (m env s) as [[a | e' |] s']
    end; discriminate.
  - intros e He. unfold Contract.getActiveProposals. run_async.
    destruct (contract (votingContract s)); cbn [Contract.is_null];
      [| reflexivity].
    rewrite He. reflexivity.
  - intros records proposals Hc Hd Hr.
    unfold Contract.getActiveProposals in Hr. run_async.
    destruct (contract (votingContract s)) as [ct |]; [| congruence].
    cbn [Contract.is_null] in Hr. rewrite Hd in Hr.
    assert (Hgoal : forall ua s0 ps s1,
               Contract.convert_proposals ua records [] env s0 = (Ok ps, s1) ->
               List.Forall2
                 (fun pd p =>
                    converted pd p
                    /\ (0 <= Remote.startTime pd ->
                        Remote.startTime pd * 1000 <= 2 ^ 53 ->
                        startTime p = JS.Num (1000 * Remote.startTime pd))
                    /\ (0 <= Remote.endTime pd ->
                        Remote.endTime pd * 1000 <= 2 ^ 53 ->
                        endTime p = JS.Num (1000 * Remote.endTime pd)))
                 records ps).
    { intros ua s0 ps s1 Hrun.
      destruct (convert_proposals_run env ua records [] s0)
        as (ps' & s1' & Hrun' & Hall).
      rewrite Hrun in Hrun'. injection Hrun' as -> _. cbn [app].
      eapply List.Forall2_impl; [| exact Hall].
      intros pd p Hconv. split; [exact Hconv |].
      destruct Hconv as (_ & _ & Hst & Hen).
      split; intros H0 H1; [rewrite Hst | rewrite Hen];
        apply milliseconds_exact; assumption. }
    destruct (signer (votingContract s)) as [sg |]; cbn [Contract.is_null] in Hr.
    + unfold called at 1 in Hr. cbn [history] in Hr.
      destruct (signer_getAddress env _) as [a | e].
      * destruct (Contract.convert_proposals _ records [] env _)
          as [[ps | e |] s1] eqn:Hrun; cbn [fst] in Hr;
          [| injection Hr as <-; left; reflexivity | discriminate].
        injection Hr as <-. right. eapply Hgoal, Hrun.
      * cbn [fst] in Hr. injection Hr as <-. left. reflexivity.
    + destruct (Contract.convert_proposals _ records [] env _)
        as [[ps | e |] s1] eqn:Hrun; cbn [fst] in Hr;
        [| injection Hr as <-; left; reflexivity | discriminate].
      injection Hr as <-. right. eapply Hgoal, Hrun.
Qed.

(** C9 as stated fails for large times: a start time of 72057594037929
    seconds is returned as 72057594037928992 milliseconds, which is not
    1000 times it. *)
Lemma getActiveProposals_rounds_large_times :
  exists p,
    fst (Contract.getActiveProposals late_env
           (connected_store fresh_client false)) = Ok [p]
    /\ startTime p = JS.Num 72057594037928992
    /\ startTime p <> JS.Num (1000 * 72057594037929).
Proof.
  eexists. split; [vm_compute; reflexivity |].
  split; [reflexivity | discriminate].
Qed.

(** ** The theorems at work on the sample worlds *)

(** On another chain, with the gateway out of reach and a backend that
    cannot be constructed, [init] completes in degraded mode; the instance
    was asked for with the fallback key. *)
Lemma init_surfaces_only_network_failure_witness :
  exists s',
    Fhevm.init 0%nat degraded_env fresh_store = (Ok tt, s')
    /\ isReady (fhevmClient s') = false
    /\ publicKey (fhevmClient s') = None
    /\ forall c, In (CallCreateInstance c) (history s') ->
         cfg_publicKey c = ("0x" ++ Fhevm.repeat_zero 64)%string.
Proof.
  pose proof (init_surfaces_only_network_failure degraded_env fresh_store
                0%nat) as H.
  cbv zeta in H. destruct H as [_ H].
  destruct (H _ eq_refl) as (s' & Hrun & Hkey & Hfallback & Hdegraded & _).
  exists s'. split; [exact Hrun |]. split.
  - apply Hdegraded. right. eexists. reflexivity.
  - split; [exact Hkey |]. intros c Hin.
    apply (Hfallback eq_refl c Hin). intros [].
Defined.

(** Ordinary times are converted exactly. *)
Lemma getActiveProposals_times_witness :
  exists p,
    fst (Contract.getActiveProposals timely_env
           (connected_store fresh_client false)) = Ok [p]
    /\ startTime p = JS.Num (1000 * 1700000000)
    /\ endTime p = JS.Num (1000 * 1700086400).
Proof.
  eexists. split; [vm_compute; reflexivity |].
  pose proof (getActiveProposals_times timely_env
                (connected_store fresh_client false)) as H.
  destruct H as (_ & _ & _ & H).
  destruct (H [sample_proposal 1700000000 1700086400] _
              ltac:(discriminate) eq_refl eq_refl) as [Hnil | Hall];
    [discriminate Hnil |].
  inversion Hall as [| pd p l l' (_ & Hs & He) _]; subst.
  split; [apply Hs | apply He]; vm_compute; discriminate.
Defined.

(** A ready adapter whose backend throws still answers, with the
    simulated ciphertext, and stays ready. *)
Example encrypt32_survives_backend_failure :
  let r := Fhevm.encrypt32 (JS.Num 5) broken_backend_env
             (connected_store ready_client true) in
  fst r = Ok (simulateEncryption (JS.Num 5))
  /\ isReady (fhevmClient (snd r)) = true
  /\ history (snd r) = [CallBackendEncrypt32 0%nat (JS.Num 5)].
Proof. vm_compute. repeat split; reflexivity. Qed.

Example encryptVote_samples :
  fst (Fhevm.encryptVote (JS.Num 2) calm_env fresh_store)
    = Throw (JsError "Vote must be 0 or 1")
  /\ fst (Fhevm.encryptVote JS.NaN calm_env fresh_store)
    = Throw (JsError "Vote must be 0 or 1")
  /\ fst (Fhevm.encryptVote (JS.Num 1) calm_env
            (connected_store ready_client true))
    = Ok {| Fhevm.encryptedVote := Some [x01]; Fhevm.inputProof := [x02] |}
  /\ fst (Fhevm.encryptVote (JS.Num 0) calm_env fresh_store)
    = Ok {| Fhevm.encryptedVote := data (simulateEncryption (JS.Num 0));
            Fhevm.inputProof := proof (simulateEncryption (JS.Num 0)) |}.
Proof. vm_compute. repeat split; reflexivity. Qed.

(** [castVote(3, 1)] with a ready adapter: 1 is encrypted, the write
    carries the option index in the clear, the receipt is awaited. *)
Example castVote_with_ready_adapter :
  let r := Contract.castVote (JS.Num 3) (JS.Num 1) calm_env
             (connected_store ready_client true) in
  fst r = Ok true
  /\ history (snd r)
     = [CallBackendEncrypt32 0%nat (JS.Num 1);
        CallCastVote (JS.Num 3) (JS.Num 1) "0x01" "0x02";
        CallTxWait 0%nat].
Proof. vm_compute. repeat split; reflexivity. Qed.

(** [castVote(3, 1)] with a degraded adapter: no encryption is asked for,
    two draws of 32 random bytes are sent as strings of 66 characters. *)
Example castVote_with_degraded_adapter :
  let r := Contract.castVote (JS.Num 3) (JS.Num 1) calm_env
             (connected_store fresh_client false) in
  fst r = Ok true
  /\ exists x y,
       history (snd r)
       = [CallRandomBytes 32; CallRandomBytes 32;
          CallCastVote (JS.Num 3) (JS.Num 1) x y; CallTxWait 0%nat]
       /\ String.length x = 66%nat /\ String.length y = 66%nat.
Proof.
  cbv zeta. split; [vm_compute; reflexivity |].
  eexists _, _. split; [vm_compute; reflexivity |].
  split; reflexivity.
Qed.

(** * More properties *)

(** ** The codec, beyond the round trip *)

Section CodecMore.

Import Codec.
Local Open Scope string_scope.

Let hex2 (b : byte) : string := padStart 2 "0" (toString16 b).

(** X1. The string written for [n] bytes has [2 + 2 * n] characters. *)
Theorem toHexString_length (b : list byte) :
  String.length (toHexString b) = (2 + 2 * length b)%nat.
Proof.
  rewrite toHexString_unfold. cbn [String.length].
  rewrite length_join_hex2. lia.
Qed.

Lemma fromHex_loop_length (cleanHex : string) :
  forall (fuel i : nat) (bytes : list byte),
    length (fromHex_loop fuel cleanHex i bytes) = length bytes.
Proof.
  induction fuel as [| fuel IH]; intros i bytes; [reflexivity |].
  cbn [fromHex_loop].
  destruct (i <? String.length cleanHex)%nat; [| reflexivity].
  rewrite IH. apply length_insert.
Qed.

Lemma length_substring_tail (s : string) :
  forall n : nat,
    String.length (substring n (String.length s - n) s)
    = (String.length s - n)%nat.
Proof.
  induction s as [| c s IH]; intros n.
  - destruct n; reflexivity.
  - destruct n as [| n].
    + cbn [String.length Nat.sub substring]. f_equal.
      specialize (IH 0%nat). rewrite Nat.sub_0_r in IH. exact IH.
    + cbn [String.length Nat.sub substring]. apply IH.
Qed.

(** X2. [fromHexString] never fails and returns one byte for every full
    pair of characters after the marker, if there is one; a last single
    character is dropped. *)
Theorem fromHexString_length (hex : string) :
  length (fromHexString hex)
  = ((String.length hex - (if startsWith "0x" hex then 2 else 0)) / 2)%nat.
Proof.
  unfold fromHexString. rewrite fromHex_loop_length.
  unfold new_Uint8Array. rewrite length_replicate.
  destruct (startsWith "0x" hex).
  - unfold slice. rewrite length_substring_tail. reflexivity.
  - rewrite Nat.sub_0_r. reflexivity.
Qed.

(** The second character of a written byte is a digit, not the marker's
    [x]. *)
Lemma hex2_digits (b : byte) :
  exists c1 c2,
    hex2 b = String c1 (String c2 "")
    /\ is_lower_hex_digit c1 = true /\ is_lower_hex_digit c2 = true.
Proof.
  destruct b; eexists _, _; (split; [reflexivity |]); split; reflexivity.
Qed.

Lemma startsWith_0x_digit (c1 c2 : ascii) (s : string) :
  is_lower_hex_digit c2 = true ->
  startsWith "0x" (String c1 (String c2 s)) = false.
Proof.
  intros Hc. unfold startsWith. cbn [String.prefix].
  destruct (ascii_dec "0" c1) as [_ | _]; [| reflexivity].
  destruct (ascii_dec "x" c2) as [<- | _]; [discriminate Hc | reflexivity].
Qed.

Lemma decode_digits (b : list byte) :
  fromHexString (join (map hex2 b)) = b.
Proof.
  unfold fromHexString.
  assert (Hp : startsWith "0x" (join (map hex2 b)) = false).
  { destruct b as [| x b]; [reflexivity |].
    cbn [map]. rewrite join_cons.
    destruct (hex2_digits x) as (c1 & c2 & -> & _ & H2).
    cbn [String.append]. apply startsWith_0x_digit, H2. }
  rewrite Hp, length_join_hex2.
  replace (2 * length b / 2)%nat with (length b)
    by (rewrite Nat.mul_comm, Nat.div_mul; lia).
  pose proof (fromHex_loop_spec b (2 * length b) 0
                (new_Uint8Array (length b))) as Hloop.
  change (2 * 0)%nat with 0%nat in Hloop. fold hex2 in Hloop.
  rewrite Hloop; [reflexivity | | lia | lia].
  unfold new_Uint8Array. apply length_replicate.
Qed.

Lemma decode_marked_digits (b : list byte) :
  fromHexString (toHexString b) = b.
Proof.
  rewrite toHexString_unfold. unfold fromHexString.
  rewrite startsWith_0x, slice_2, length_join_hex2.
  replace (2 * length b / 2)%nat with (length b)
    by (rewrite Nat.mul_comm, Nat.div_mul; lia).
  pose proof (fromHex_loop_spec b (2 * length b) 0
                (new_Uint8Array (length b))) as Hloop.
  change (2 * 0)%nat with 0%nat in Hloop.
  rewrite Hloop; [reflexivity | | lia | lia].
  unfold new_Uint8Array. apply length_replicate.
Qed.

(** X3. The marker is optional on the way back: the digits [toHexString]
    writes decode to the same bytes without their [0x]. *)
Theorem fromHexString_without_marker (b : list byte) :
  fromHexString (slice 2 (toHexString b)) = b
  /\ startsWith "0x" (slice 2 (toHexString b)) = false.
Proof.
  rewrite toHexString_unfold, slice_2. fold hex2.
  split; [apply decode_digits |].
  destruct b as [| x b]; [reflexivity |].
  cbn [map]. rewrite join_cons.
  destruct (hex2_digits x) as (c1 & c2 & -> & _ & H2).
  cbn [String.append]. apply startsWith_0x_digit, H2.
Qed.

(** The sixteen lower-case digits. *)
Lemma lower_hex_digit_cases (c : ascii) :
  is_lower_hex_digit c = true ->
  In c ["0"; "1"; "2"; "3"; "4"; "5"; "6"; "7"; "8"; "9";
        "a"; "b"; "c"; "d"; "e"; "f"]%char.
Proof.
  destruct c as [[] [] [] [] [] [] [] []]; vm_compute; intros H;
    try discriminate H; clear H; repeat ((left; reflexivity) || right).
Qed.

(** Two lower-case digits are the writing of one byte. *)
Lemma pair_is_hex2 (c1 c2 : ascii) :
  is_lower_hex_digit c1 = true -> is_lower_hex_digit c2 = true ->
  exists b, hex2 b = String c1 (String c2 "").
Proof.
  intros H1 H2.
  exists (ToUint8 (parseInt16 (String c1 (String c2 "")))).
  apply lower_hex_digit_cases in H1, H2. cbn [In] in H1, H2.
  repeat (destruct H1 as [<- | H1]; [
    repeat (destruct H2 as [<- | H2]; [vm_compute; reflexivity |]);
    destruct H2 |]).
  destruct H1.
Qed.

Lemma digits_are_written (digits : string) :
  forall n : nat,
    String.length digits = (2 * n)%nat ->
    all_chars is_lower_hex_digit digits = true ->
    exists b, join (map hex2 b) = digits.
Proof.
  intros n. revert digits. induction n as [| n IH]; intros digits Hlen Hall.
  - destruct digits; [| cbn [String.length] in Hlen; lia].
    exists []. reflexivity.
  - destruct digits as [| c1 [| c2 rest]];
      try (exfalso; cbn [String.length] in Hlen; lia).
    cbn [all_chars] in Hall.
    apply andb_prop in Hall as [H1 Hall].
    apply andb_prop in Hall as [H2 Hall].
    destruct (pair_is_hex2 c1 c2 H1 H2) as [x Hx].
    destruct (IH rest) as [b Hb]; [cbn in Hlen; lia | exact Hall |].
    exists (x :: b). cbn [map]. rewrite join_cons, Hx, Hb. reflexivity.
Qed.

Lemma canonical_hex_inv (s : string) :
  canonical_hex s = true ->
  exists digits,
    s = String "0" (String "x" digits)
    /\ all_chars is_lower_hex_digit digits = true
    /\ Nat.even (String.length digits) = true.
Proof.
  intros Hs. destruct s as [| c0 s1]; [discriminate Hs |].
  destruct c0 as [[] [] [] [] [] [] [] []];
    try (cbn in Hs; discriminate Hs).
  destruct s1 as [| c1 digits]; [discriminate Hs |].
  destruct c1 as [[] [] [] [] [] [] [] []];
    try (cbn in Hs; discriminate Hs).
  exists digits. unfold canonical_hex in Hs.
  apply andb_prop in Hs as [Hall Heven]. repeat split; assumption.
Qed.

(** X4. The other way round: on a string made of [0x] and an even number
    of lower-case hex digits, decoding and writing again gives the string
    back. *)
Theorem toHexString_fromHexString (s : string) :
  canonical_hex s = true ->
  toHexString (fromHexString s) = s.
Proof.
  intros Hs.
  destruct (canonical_hex_inv s Hs) as (digits & -> & Hall & Heven).
  apply Nat.even_spec in Heven as [n Hn].
  destruct (digits_are_written digits n Hn Hall) as [b <-].
  change (String "0" (String "x" (join (map hex2 b)))) with (toHexString b).
  rewrite decode_marked_digits. reflexivity.
Qed.

Lemma toHexString_fromHexString_witness :
  toHexString (fromHexString "0x00ff7a10") = "0x00ff7a10".
Proof. apply toHexString_fromHexString. reflexivity. Defined.

End CodecMore.

(** ** What the simulated ciphertext shows of the value *)

Section SimulatedLeak.

Lemma Z_of_byte_inj (a b : byte) : Z_of_byte a = Z_of_byte b -> a = b.
Proof.
  intros H. rewrite <- (byte_of_Z_of_byte a), <- (byte_of_Z_of_byte b), H.
  reflexivity.
Qed.

Lemma simulated_bytes_of (v : Z) :
  Z.abs v * 11 + 527 <= 2 ^ 53 ->
  exists d p,
    simulateEncryption (JS.Num v) = {| data := Some d; proof := p |}
    /\ length d = 32%nat /\ length p = 32%nat
    /\ forall i : nat, (i < 32)%nat ->
         d !! i = Some (byte_of_Z (v * 7 + Z.of_nat i * 13))
         /\ p !! i = Some (byte_of_Z (v * 11 + Z.of_nat i * 17)).
Proof.
  intros Hv.
  destruct (simulateEncryption_shape (JS.Num v))
    as (d & p & Heq & Hd & Hp & Hlook).
  exists d, p. repeat (split; [assumption |]).
  intros i Hi. destruct (Hlook i Hi) as [Hdi Hpi].
  destruct (simulate_exprs_exact v i Hv Hi) as [Ed Ep].
  rewrite Hdi, Hpi, Ed, Ep. split; f_equal; apply Z_of_byte_inj;
    rewrite ToUint8_rem_256, Z_of_byte_of_Z; reflexivity.
Qed.

Lemma byte_of_Z_mod (x y : Z) :
  x mod 256 = y mod 256 -> byte_of_Z x = byte_of_Z y.
Proof.
  intros H. apply Z_of_byte_inj. rewrite !Z_of_byte_of_Z. exact H.
Qed.

(** X5. The simulated ciphertext depends on the value modulo 256 and on
    nothing else: two values in the exact range have the same simulated
    ciphertext exactly when they are congruent modulo 256, and the first
    byte of [data] gives the value modulo 256 back (183 is the inverse of
    7). *)
Theorem simulateEncryption_shows_value_mod_256 (v w : Z) :
  Z.abs v * 11 + 527 <= 2 ^ 53 ->
  Z.abs w * 11 + 527 <= 2 ^ 53 ->
  (simulateEncryption (JS.Num v) = simulateEncryption (JS.Num w)
   <-> v mod 256 = w mod 256)
  /\ (forall x, data_byte (simulateEncryption (JS.Num v)) 0 = Some x ->
        v mod 256 = (183 * x) mod 256)
  /\ exists x, data_byte (simulateEncryption (JS.Num v)) 0 = Some x.
Proof.
  intros Hv Hw.
  destruct (simulated_bytes_of v Hv) as (dv & pv & Ev & Hdv & Hpv & Lv).
  destruct (simulated_bytes_of w Hw) as (dw & pw & Ew & Hdw & Hpw & Lw).
  assert (Hfirst : data_byte (simulateEncryption (JS.Num v)) 0
                   = Some ((v * 7) mod 256)).
  { unfold data_byte. rewrite Ev. cbn [data].
    destruct (Lv 0%nat ltac:(lia)) as [-> _]. cbn.
    rewrite Z_of_byte_of_Z, Z.add_0_r. reflexivity. }
  assert (Hrec : forall u, u mod 256 = (183 * ((u * 7) mod 256)) mod 256).
  { intros u. rewrite Z.mul_mod_idemp_r by lia.
    replace (183 * (u * 7)) with (u + 5 * u * 256) by lia.
    rewrite Z.mod_add by lia. reflexivity. }
  split; [| split].
  - split.
    + intros Heq.
      assert (H0 : (v * 7) mod 256 = (w * 7) mod 256).
      { rewrite Ev, Ew in Heq. injection Heq as Hd _.
        destruct (Lv 0%nat ltac:(lia)) as [Hv0 _].
        destruct (Lw 0%nat ltac:(lia)) as [Hw0 _].
        rewrite Hd, Hw0 in Hv0. injection Hv0 as Hb.
        apply (f_equal Z_of_byte) in Hb. rewrite !Z_of_byte_of_Z in Hb.
        rewrite !Z.add_0_r in Hb. symmetry. exact Hb. }
      rewrite (Hrec v), (Hrec w), H0. reflexivity.
    + intros Hmod. rewrite Ev, Ew.
      assert (Hd : dv = dw).
      { apply list_eq. intros i.
        destruct (decide (i < 32)%nat) as [Hi | Hi].
        - destruct (Lv i Hi) as [-> _]. destruct (Lw i Hi) as [-> _].
          f_equal. apply byte_of_Z_mod.
          rewrite (Z.add_mod (v * 7)), (Z.add_mod (w * 7)) by lia.
          rewrite (Z.mul_mod v), (Z.mul_mod w), Hmod by lia. reflexivity.
        - rewrite !(proj2 (lookup_ge_None _ _)) by lia. reflexivity. }
      assert (Hp : pv = pw).
      { apply list_eq. intros i.
        destruct (decide (i < 32)%nat) as [Hi | Hi].
        - destruct (Lv i Hi) as [_ ->]. destruct (Lw i Hi) as [_ ->].
          f_equal. apply byte_of_Z_mod.
          rewrite (Z.add_mod (v * 11)), (Z.add_mod (w * 11)) by lia.
          rewrite (Z.mul_mod v), (Z.mul_mod w), Hmod by lia. reflexivity.
        - rewrite !(proj2 (lookup_ge_None _ _)) by lia. reflexivity. }
      rewrite Hd, Hp. reflexivity.
  - intros x Hx. rewrite Hfirst in Hx. injection Hx as <-. apply Hrec.
  - eexists. exact Hfirst.
Qed.

Lemma simulateEncryption_shows_value_mod_256_witness :
  (simulateEncryption (JS.Num 1) = simulateEncryption (JS.Num 257)
   <-> 1 mod 256 = 257 mod 256)
  /\ (forall x, data_byte (simulateEncryption (JS.Num 1)) 0 = Some x ->
        1 mod 256 = (183 * x) mod 256)
  /\ exists x, data_byte (simulateEncryption (JS.Num 1)) 0 = Some x.
Proof.
  apply (simulateEncryption_shows_value_mod_256 1 257);
    vm_compute; discriminate.
Defined.

End SimulatedLeak.

(** ** What the methods add to the history and what they leave alone *)

Section Emits.

Context {A B : Type}.
Variable P : Call -> Prop.

Lemma emits_ret (a : A) : emits P (ret a).
Proof.
  intros env s. cbn. repeat split. exists []. rewrite app_nil_r.
  split; [reflexivity | constructor].
Qed.

Lemma emits_throw (e : exn) : emits P (@throw A e).
Proof.
  intros env s. cbn. repeat split. exists []. rewrite app_nil_r.
  split; [reflexivity | constructor].
Qed.

Lemma emits_settle (r : answer A) : emits P (settle r).
Proof.
  intros env s. cbn. repeat split. exists []. rewrite app_nil_r.
  split; [reflexivity | constructor].
Qed.

Lemma emits_out_of_fuel : emits P (fun _ s => (@OutOfFuel A, s)).
Proof.
  intros env s. cbn. repeat split. exists []. rewrite app_nil_r.
  split; [reflexivity | constructor].
Qed.

Lemma emits_call (c : Call) (f : Env -> History -> answer A) :
  P c -> emits P (call c f).
Proof.
  intros Hc env s. cbn. repeat split. exists [c].
  split; [reflexivity | constructor; [exact Hc | constructor]].
Qed.

Lemma emits_request (c : Call) (f : Env -> History -> answer A) :
  P c -> emits P (request c f).
Proof.
  intros Hc env s. cbn. repeat split. exists [c].
  split; [reflexivity | constructor; [exact Hc | constructor]].
Qed.

Lemma emits_bind (m : M A) (k : A -> M B) :
  emits P m -> (forall a, emits P (k a)) -> emits P (bind m k).
Proof.
  intros Hm Hk env s. unfold bind.
  destruct (Hm env s) as (Hf & Hv & calls & Hh & Hp).
  destruct (m env s) as [[a | e |] s1]; cbn [snd] in *;
    try (repeat split; [assumption | assumption | eauto]).
  destruct (Hk a env s1) as (Hf' & Hv' & calls' & Hh' & Hp').
  repeat split; [congruence | congruence |].
  exists (calls ++ calls'). split.
  - rewrite Hh', Hh, app_assoc. reflexivity.
  - apply Forall_app. split; assumption.
Qed.

Lemma emits_try (m : M A) (h : exn -> M A) :
  emits P m -> (forall e, emits P (h e)) -> emits P (try_catch m h).
Proof.
  intros Hm Hh env s. unfold try_catch.
  destruct (Hm env s) as (Hf & Hv & calls & Hhist & Hp).
  destruct (m env s) as [[a | e |] s1]; cbn [snd] in *;
    try (repeat split; [assumption | assumption | eauto]).
  destruct (Hh e env s1) as (Hf' & Hv' & calls' & Hh' & Hp').
  repeat split; [congruence | congruence |].
  exists (calls ++ calls'). split.
  - rewrite Hh', Hhist, app_assoc. reflexivity.
  - apply Forall_app. split; assumption.
Qed.

End Emits.

Lemma emits_get_contract (P : Call -> Prop) : emits P get_contract.
Proof.
  intros env s. cbn. repeat split. exists []. rewrite app_nil_r.
  split; [reflexivity | constructor].
Qed.

Lemma emits_get_client (P : Call -> Prop) : emits P get_client.
Proof.
  intros env s. cbn. repeat split. exists []. rewrite app_nil_r.
  split; [reflexivity | constructor].
Qed.

Lemma emits_get_env (P : Call -> Prop) : emits P get_env.
Proof.
  intros env s. cbn. repeat split. exists []. rewrite app_nil_r.
  split; [reflexivity | constructor].
Qed.

Lemma emits_weaken {A} (P Q : Call -> Prop) (m : M A) :
  (forall c, P c -> Q c) -> emits P m -> emits Q m.
Proof.
  intros HPQ Hm env s. destruct (Hm env s) as (Hf & Hv & calls & Hh & Hp).
  repeat split; try assumption. exists calls. split; [exact Hh |].
  eapply Forall_impl; eauto.
Qed.

(** One step of a proof that a method emits only permitted calls. *)
Ltac emits_step :=
  lazymatch goal with
  | |- emits _ (bind _ _) => apply emits_bind; [| intros ?]
  | |- emits _ (try_catch _ _) => apply emits_try; [| intros ?]
  | |- emits _ (ret _) => apply emits_ret
  | |- emits _ (throw _) => apply emits_throw
  | |- emits _ (settle _) => apply emits_settle
  | |- emits _ debugLog => apply emits_ret
  | |- emits _ get_contract => apply emits_get_contract
  | |- emits _ get_client => apply emits_get_client
  | |- emits _ get_env => apply emits_get_env
  | |- emits _ (call _ _) => apply emits_call; cbn; try tauto
  | |- emits _ (request _ _) => apply emits_request; cbn; try tauto
  | |- emits _ (if ?b then _ else _) => destruct b
  | |- emits _ (match ?x with _ => _ end) => destruct x
  end.

Lemma votedProposals_loop_reads (count : Z) (voter : string) :
  forall (fuel : nat) (i : JS.number) (voted : list JS.number),
    emits is_read (Contract.votedProposals_loop fuel i count voter voted).
Proof.
  induction fuel as [| fuel IH]; intros i voted;
    cbn [Contract.votedProposals_loop].
  - apply emits_out_of_fuel.
  - destruct (Contract.lt_bigint i count); [| apply emits_ret].
    apply emits_bind; [repeat emits_step | intros v; apply IH].
Qed.

Lemma convert_proposals_reads (userAddress : option string) :
  forall (records : list Remote.ProposalData) (acc : list Proposal),
    emits is_read (Contract.convert_proposals userAddress records acc).
Proof.
  induction records as [| pd records IH]; intros acc;
    cbn [Contract.convert_proposals]; [apply emits_ret |].
  apply emits_bind; [| intros p; apply IH].
  unfold Contract.convert_proposal. repeat emits_step.
Qed.

(** X6. The two queries only read: whatever the contract answers,
    [getUserProfile] and [getActiveProposals] call nothing but the signer's
    address and view functions of the contract, and they change no field
    of the adapter or of the contract client. *)
Theorem queries_only_read (env : Env) (s : Store) (fuel : nat) :
  let after_profile := snd (Contract.getUserProfile fuel env s) in
  let after_list := snd (Contract.getActiveProposals env s) in
  (fhevmClient after_profile = fhevmClient s
   /\ votingContract after_profile = votingContract s
   /\ exists calls,
        history after_profile = history s ++ calls /\ Forall is_read calls)
  /\ (fhevmClient after_list = fhevmClient s
      /\ votingContract after_list = votingContract s
      /\ exists calls,
           history after_list = history s ++ calls /\ Forall is_read calls).
Proof.
  cbv zeta. split.
  - assert (H : emits is_read (Contract.getUserProfile fuel)).
    { unfold Contract.getUserProfile.
      repeat first [apply votedProposals_loop_reads | emits_step]. }
    apply H.
  - assert (H : emits is_read Contract.getActiveProposals).
    { unfold Contract.getActiveProposals.
      repeat first [apply convert_proposals_reads | emits_step]. }
    apply H.
Qed.

(** ** The plain write operations *)

Lemma run_write_connected (env : Env) (s : Store) (w : PlainWrite) :
  contract (votingContract s) <> None ->
  run_write w env s
  = finish env (outcome_of (write_answer env (history s) w),
                called (write_call w) s).
Proof.
  intros Hc. destruct (contract (votingContract s)) as [k |] eqn:Hk;
    [clear Hc | congruence].
  destruct w; cbn [run_write write_call write_answer];
    unfold Contract.createProposal, Contract.revealResults,
      Contract.authorizeVoter, Contract.authorizeVoters;
    run_async; rewrite Hk; cbn [Contract.is_null];
    match goal with
    | |- context [match ?a with Returns _ => _ | Throws _ => _ end] =>
        destruct a as [tx | e]
    end; cbn [finish]; try reflexivity;
    destruct (Contract.confirmed tx env _) as [[b | e |] s2]; reflexivity.
Qed.

(** X7. Each of [createProposal], [revealResults], [authorizeVoter] and
    [authorizeVoters], once connected, sends exactly one transaction, with
    its arguments as given ([authorizeVoters] sends the whole list in one
    call), and waits for at most one receipt.  An error of the write or of
    the wait is raised as it is, and nothing is tried again; with a receipt
    the answer says whether its status is 1. *)
Theorem plain_write_sends_once (env : Env) (s : Store) (w : PlainWrite) :
  contract (votingContract s) <> None ->
  let r := run_write w env s in
  let sent := history s ++ [write_call w] in
  (forall e, write_answer env (history s) w = Throws e ->
     fst r = Throw e /\ history (snd r) = sent)
  /\ (forall tx, write_answer env (history s) w = Returns tx ->
        history (snd r) = sent ++ [CallTxWait tx]
        /\ (forall e, tx_wait env sent tx = Throws e -> fst r = Throw e)
        /\ (forall receipt, tx_wait env sent tx = Returns (Some receipt) ->
              fst r = Ok (succeeded receipt)))
  /\ length (List.filter is_write (history (snd r)))
     = S (length (List.filter is_write (history s))).
Proof.
  intros Hc. cbv zeta. rewrite (run_write_connected env s w Hc).
  assert (Hw : is_write (write_call w) = true) by (destruct w; reflexivity).
  destruct (write_answer env (history s) w) as [tx | e]; cbn [outcome_of finish].
  - rewrite confirmed_run. cbn [fst snd called history].
    split; [intros e He; discriminate He |]. split.
    + intros tx' Htx. injection Htx as <-. split; [reflexivity |]. split.
      * intros e He. rewrite He. reflexivity.
      * intros receipt Hr. rewrite Hr. reflexivity.
    + rewrite !List.filter_app. cbn [List.filter is_write].
      rewrite Hw, !length_app. cbn [length]. lia.
  - cbn [fst snd called history]. split.
    + intros e' He. injection He as <-. split; reflexivity.
    + split; [intros tx Htx; discriminate Htx |].
      rewrite List.filter_app. cbn [List.filter]. rewrite Hw, length_app.
      cbn [length]. lia.
Qed.

Lemma plain_write_sends_once_witness :
  let s := connected_store fresh_client false in
  let w := AuthorizeVoters ["0xA"; "0xB"]%string in
  let r := run_write w calm_env s in
  let sent := history s ++ [write_call w] in
  (forall e, write_answer calm_env (history s) w = Throws e ->
     fst r = Throw e /\ history (snd r) = sent)
  /\ (forall tx, write_answer calm_env (history s) w = Returns tx ->
        history (snd r) = sent ++ [CallTxWait tx]
        /\ (forall e, tx_wait calm_env sent tx = Throws e -> fst r = Throw e)
        /\ (forall receipt, tx_wait calm_env sent tx = Returns (Some receipt) ->
              fst r = Ok (succeeded receipt)))
  /\ length (List.filter is_write (history (snd r)))
     = S (length (List.filter is_write (history s))).
Proof.
  apply (plain_write_sends_once calm_env (connected_store fresh_client false)
           (AuthorizeVoters ["0xA"; "0xB"]%string)).
  discriminate.
Defined.

(** ** [castVote], path by path *)

Section CastVotePaths.

Variables (env : Env) (s : Store) (proposalId optionIndex : JS.number).

Let r := Contract.castVote proposalId optionIndex env s.

Lemma writes_in_app (h1 h2 : History) :
  writes_in (h1 ++ h2) = (writes_in h1 + writes_in h2)%nat.
Proof. unfold writes_in. rewrite List.filter_app, length_app. reflexivity. Qed.

Lemma finish_history (o : outcome Tx) (s1 : Store) :
  exists tail,
    history (snd (finish env (o, s1))) = history s1 ++ tail
    /\ writes_in tail = 0%nat
    /\ List.filter is_backend_call tail = [].
Proof.
  destruct o as [tx | e |]; cbn [finish snd];
    try (exists []; rewrite app_nil_r; repeat split; reflexivity).
  rewrite confirmed_run. cbn [snd called history].
  exists [CallTxWait tx]. repeat split; reflexivity.
Qed.

Lemma finish_result (o : answer Tx) (s1 : Store) :
  (forall e, o = Throws e -> fst (finish env (outcome_of o, s1)) = Throw e)
  /\ (forall tx e, o = Returns tx -> tx_wait env (history s1) tx = Throws e ->
        fst (finish env (outcome_of o, s1)) = Throw e)
  /\ (forall tx receipt, o = Returns tx ->
        tx_wait env (history s1) tx = Returns (Some receipt) ->
        fst (finish env (outcome_of o, s1)) = Ok (succeeded receipt)).
Proof.
  repeat split.
  - intros e ->. reflexivity.
  - intros tx e -> Hw. cbn [outcome_of finish]. rewrite confirmed_run, Hw.
    reflexivity.
  - intros tx receipt -> Hw. cbn [outcome_of finish].
    rewrite confirmed_run, Hw. reflexivity.
Qed.

(** X8. With the contract connected and the adapter not enabled or not
    ready, [castVote] asks for no encryption: it draws random bytes twice
    and sends one transaction that carries the proposal, the option index
    and the two draws through [hexlify].  An error of that write or of the
    wait is raised as it is; with a receipt the answer says whether its
    status is 1. *)
Theorem castVote_without_adapter :
  contract (votingContract s) <> None ->
  isFHEVMEnabled (votingContract s) && Fhevm.isInitialized (fhevmClient s)
    = false ->
  let draws := history s ++ [CallRandomBytes 32; CallRandomBytes 32] in
  let write := simulated_write env proposalId optionIndex (history s) in
  let answer :=
    contract_castVote env draws proposalId optionIndex
      (ethers_hexlify env (fst (simulated_bytes env (history s))))
      (ethers_hexlify env (snd (simulated_bytes env (history s)))) in
  (exists tail,
     history (snd r) = draws ++ write :: tail
     /\ writes_in tail = 0%nat)
  /\ List.filter is_backend_call (history (snd r))
     = List.filter is_backend_call (history s)
  /\ (forall e, answer = Throws e -> fst r = Throw e)
  /\ (forall tx e, answer = Returns tx ->
        tx_wait env (draws ++ [write]) tx = Throws e -> fst r = Throw e)
  /\ (forall tx receipt, answer = Returns tx ->
        tx_wait env (draws ++ [write]) tx = Returns (Some receipt) ->
        fst r = Ok (succeeded receipt)).
Proof.
  intros Hc Hf. cbv zeta. subst r.
  destruct (contract (votingContract s)) as [k |] eqn:Hk; [| congruence].
  rewrite (castVote_simulated_path env s _ _ k Hk Hf).
  rewrite castVote_simulated_run.
  match goal with
  | |- context [finish env (outcome_of ?a, ?st)] =>
      set (o := a); set (s1 := st)
  end.
  assert (Hs1 : history s1
                = (history s ++ [CallRandomBytes 32; CallRandomBytes 32])
                  ++ [simulated_write env proposalId optionIndex (history s)]).
  { subst s1. cbn [history]. rewrite <- app_assoc. reflexivity. }
  destruct (finish_history (outcome_of o) s1) as (tail & Hh & Hw & Hb).
  destruct (finish_result o s1) as (R1 & R2 & R3). rewrite Hs1 in R2, R3.
  split; [| split; [| split; [| split]]].
  - exists tail. rewrite Hh, Hs1, <- app_assoc. split; [reflexivity | exact Hw].
  - rewrite Hh, Hs1, !List.filter_app, Hb. cbn [List.filter is_backend_call
      simulated_write]. rewrite !app_nil_r. reflexivity.
  - exact R1.
  - exact R2.
  - exact R3.
Qed.

End CastVotePaths.

Lemma castVote_without_adapter_witness :
  let s0 := connected_store fresh_client false in
  let r0 := Contract.castVote (JS.Num 3) (JS.Num 1) calm_env s0 in
  let draws := history s0 ++ [CallRandomBytes 32; CallRandomBytes 32] in
  let write := simulated_write calm_env (JS.Num 3) (JS.Num 1) (history s0) in
  let answer :=
    contract_castVote calm_env draws (JS.Num 3) (JS.Num 1)
      (ethers_hexlify calm_env (fst (simulated_bytes calm_env (history s0))))
      (ethers_hexlify calm_env (snd (simulated_bytes calm_env (history s0)))) in
  (exists tail,
     history (snd r0) = draws ++ write :: tail
     /\ writes_in tail = 0%nat)
  /\ List.filter is_backend_call (history (snd r0))
     = List.filter is_backend_call (history s0)
  /\ (forall e, answer = Throws e -> fst r0 = Throw e)
  /\ (forall tx e, answer = Returns tx ->
        tx_wait calm_env (draws ++ [write]) tx = Throws e -> fst r0 = Throw e)
  /\ (forall tx receipt, answer = Returns tx ->
        tx_wait calm_env (draws ++ [write]) tx = Returns (Some receipt) ->
        fst r0 = Ok (succeeded receipt)).
Proof.
  apply (castVote_without_adapter calm_env (connected_store fresh_client false)
           (JS.Num 3) (JS.Num 1)); [discriminate | reflexivity].
Defined.

Section CastVoteReady.

Variables (env : Env) (s : Store) (proposalId optionIndex : JS.number).

Let r := Contract.castVote proposalId optionIndex env s.

(** X9. With a ready adapter whose backend call throws or answers
    nothing, the transaction [castVote] sends carries the simulated
    ciphertext of the constant 1: two strings that are the same for every
    voter, proposal and option. *)
Theorem castVote_sends_simulated_one (k : ContractHandle) (h : Handle) :
  contract (votingContract s) = Some k ->
  isFHEVMEnabled (votingContract s) = true ->
  isReady (fhevmClient s) = true ->
  instance (fhevmClient s) = Some h ->
  (forall e, instance_encrypt32 env (history s) h (JS.Num 1)
             <> Returns (Some e)) ->
  exists d p tail,
    simulateEncryption (JS.Num 1) = {| data := Some d; proof := p |}
    /\ history (snd r)
       = history s
         ++ CallBackendEncrypt32 h (JS.Num 1)
            :: CallCastVote proposalId optionIndex
                 (Codec.toHexString d) (Codec.toHexString p)
            :: tail.
Proof.
  intros Hk Hen Hr Hi Hb. subst r.
  destruct (simulateEncryption_shape (JS.Num 1)) as (d & p & Hsim & _).
  exists d, p.
  pose proof (encrypt32_cases env s (JS.Num 1)) as He.
  rewrite Hr, Hi in He.
  assert (Hc : match instance_encrypt32 env (history s) h (JS.Num 1) with
               | Returns (Some e) =>
                   {| data := b_data e;
                      proof := match b_proof e with
                               | Some p => p
                               | None => new_Uint8Array 0
                               end |}
               | _ => simulateEncryption (JS.Num 1)
               end = {| data := Some d; proof := p |}).
  { destruct (instance_encrypt32 env (history s) h (JS.Num 1))
      as [[e |] | e]; try exact Hsim. exfalso. exact (Hb e eq_refl). }
  rewrite Hc in He.
  assert (Hf : isFHEVMEnabled (votingContract s)
               && Fhevm.isInitialized (fhevmClient s) = true).
  { unfold Fhevm.isInitialized. rewrite Hen, Hr, Hi. reflexivity. }
  rewrite (castVote_fhe_path env s _ _ k _ _ Hk Hf He). cbn [data proof].
  cbv zeta.
  set (w := CallCastVote proposalId optionIndex (Codec.toHexString d)
              (Codec.toHexString p)).
  set (s1 := called (CallBackendEncrypt32 h (JS.Num 1)) s).
  destruct (contract_castVote env (history s1) proposalId optionIndex
              (Codec.toHexString d) (Codec.toHexString p)) as [tx | e].
  - destruct (finish_history env (Ok tx) (called w s1)) as (tail & Hh & _).
    exists tail. split; [exact Hsim |]. rewrite Hh. subst s1.
    cbn [called history]. rewrite <- !app_assoc. reflexivity.
  - rewrite castVote_simulated_run.
    match goal with
    | |- context [finish env (?o, ?st)] =>
        destruct (finish_history env o st) as (tail & Hh & _)
    end.
    eexists. split; [exact Hsim |]. rewrite Hh. subst s1.
    cbn [called history]. rewrite <- !app_assoc. reflexivity.
Qed.

(** X10. With a ready adapter, when the first transaction is refused with
    an error, [castVote] does not raise it: it draws random bytes and
    sends a second transaction, and its answer is that of the second one
    alone. *)
Theorem castVote_second_write
    (k : ContractHandle) (c : Ciphertext) (d : list byte) (s1 : Store)
    (e1 : exn) :
  contract (votingContract s) = Some k ->
  isFHEVMEnabled (votingContract s) && Fhevm.isInitialized (fhevmClient s)
    = true ->
  Fhevm.encrypt32 (JS.Num 1) env s = (Ok c, s1) ->
  data c = Some d ->
  let first :=
    CallCastVote proposalId optionIndex
      (Codec.toHexString d) (Codec.toHexString (proof c)) in
  contract_castVote env (history s1) proposalId optionIndex
    (Codec.toHexString d) (Codec.toHexString (proof c)) = Throws e1 ->
  let h2 := history s1 ++ [first] in
  let draws := h2 ++ [CallRandomBytes 32; CallRandomBytes 32] in
  let second := simulated_write env proposalId optionIndex h2 in
  let answer :=
    contract_castVote env draws proposalId optionIndex
      (ethers_hexlify env (fst (simulated_bytes env h2)))
      (ethers_hexlify env (snd (simulated_bytes env h2))) in
  (exists tail,
     history (snd r) = draws ++ second :: tail /\ writes_in tail = 0%nat)
  /\ (forall e2, answer = Throws e2 -> fst r = Throw e2)
  /\ (forall tx receipt, answer = Returns tx ->
        tx_wait env (draws ++ [second]) tx = Returns (Some receipt) ->
        fst r = Ok (succeeded receipt)).
Proof.
  intros Hk Hf He Hd. cbv zeta. intros Hfirst. subst r.
  rewrite (castVote_fhe_path env s _ _ k _ _ Hk Hf He), Hd. cbv zeta.
  rewrite Hfirst, castVote_simulated_run.
  match goal with
  | |- context [finish env (outcome_of ?a, ?st)] =>
      set (o := a); set (s2 := st)
  end.
  assert (Hs2 : history s2
                = ((history s1
                     ++ [CallCastVote proposalId optionIndex
                           (Codec.toHexString d)
                           (Codec.toHexString (proof c))])
                   ++ [CallRandomBytes 32; CallRandomBytes 32])
                  ++ [simulated_write env proposalId optionIndex
                        (history s1
                         ++ [CallCastVote proposalId optionIndex
                               (Codec.toHexString d)
                               (Codec.toHexString (proof c))])]).
  { subst s2. cbn [history called]. rewrite <- !app_assoc. reflexivity. }
  destruct (finish_history env (outcome_of o) s2) as (tail & Hh & Hw & _).
  destruct (finish_result env o s2) as (R1 & _ & R3). rewrite Hs2 in R3.
  split; [| split].
  - exists tail. rewrite Hh, Hs2, <- !app_assoc.
    split; [reflexivity | exact Hw].
  - exact R1.
  - exact R3.
Qed.

(** X11. In every world [castVote] asks the backend for at most one
    encryption and sends at most two transactions. *)
Theorem castVote_at_most_two_writes :
  (writes_in (history (snd r)) <= writes_in (history s) + 2)%nat
  /\ (length (List.filter is_backend_call (history (snd r)))
      <= length (List.filter is_backend_call (history s)) + 1)%nat.
Proof.
  subst r.
  assert (Hsim : forall s0,
             exists tail,
               history (snd (finish env
                 (Contract.castVote_simulated proposalId optionIndex env s0)))
               = history s0 ++ tail
               /\ writes_in tail = 1%nat
               /\ List.filter is_backend_call tail = []).
  { intros s0. rewrite castVote_simulated_run.
    match goal with
    | |- context [finish env (?o, ?st)] =>
        destruct (finish_history env o st) as (tail & Hh & Hw & Hb)
    end.
    exists ([CallRandomBytes 32; CallRandomBytes 32;
             simulated_write env proposalId optionIndex (history s0)] ++ tail).
    rewrite Hh. cbn [history]. rewrite <- app_assoc.
    split; [reflexivity |]. split.
    - rewrite writes_in_app, Hw. reflexivity.
    - rewrite List.filter_app, Hb. reflexivity. }
  destruct (contract (votingContract s)) as [k |] eqn:Hk.
  2:{ rewrite castVote_not_connected by exact Hk. cbn [snd]. lia. }
  destruct (isFHEVMEnabled (votingContract s)
            && Fhevm.isInitialized (fhevmClient s)) eqn:Hf.
  2:{ rewrite (castVote_simulated_path env s _ _ k Hk Hf).
      destruct (Hsim s) as (tail & -> & Hw & Hb).
      rewrite writes_in_app, List.filter_app, length_app, Hw, Hb.
      cbn [length]. lia. }
  destruct (encrypt32_returns env s (JS.Num 1)) as (c & s1 & He & _ & _).
  pose proof (encrypt32_cases env s (JS.Num 1)) as Hcases.
  apply andb_prop in Hf as Hf'. destruct Hf' as [_ Hinit].
  unfold Fhevm.isInitialized in Hinit. apply andb_prop in Hinit as [Hr Hi].
  destruct (instance (fhevmClient s)) as [h |]; [| discriminate Hi].
  rewrite Hr, He in Hcases. injection Hcases as _ Hs1.
  assert (Hh1 : history s1 = history s ++ [CallBackendEncrypt32 h (JS.Num 1)])
    by (rewrite Hs1; reflexivity).
  rewrite (castVote_fhe_path env s _ _ k _ _ Hk Hf He).
  destruct (data c) as [d |].
  - cbv zeta.
    set (w := CallCastVote proposalId optionIndex (Codec.toHexString d)
                (Codec.toHexString (proof c))).
    destruct (contract_castVote env (history s1) proposalId optionIndex
                (Codec.toHexString d) (Codec.toHexString (proof c)))
      as [tx | e].
    + destruct (finish_history env (Ok tx) (called w s1))
        as (tail & -> & Hw & Hb).
      cbn [called history]. rewrite Hh1.
      rewrite !writes_in_app, !List.filter_app, !length_app, Hw, Hb.
      cbn. lia.
    + destruct (Hsim (called w s1)) as (tail & -> & Hw & Hb).
      cbn [called history]. rewrite Hh1.
      rewrite !writes_in_app, !List.filter_app, !length_app, Hw, Hb.
      cbn. lia.
  - destruct (Hsim s1) as (tail & -> & Hw & Hb). rewrite Hh1.
    rewrite !writes_in_app, !List.filter_app, !length_app, Hw, Hb.
    cbn. lia.
Qed.

End CastVoteReady.

Lemma castVote_sends_simulated_one_witness :
  exists d p tail,
    simulateEncryption (JS.Num 1) = {| data := Some d; proof := p |}
    /\ history (snd (Contract.castVote (JS.Num 3) (JS.Num 2) broken_backend_env
                       (connected_store ready_client true)))
       = history (connected_store ready_client true)
         ++ CallBackendEncrypt32 0%nat (JS.Num 1)
            :: CallCastVote (JS.Num 3) (JS.Num 2)
                 (Codec.toHexString d) (Codec.toHexString p)
            :: tail.
Proof.
  apply (castVote_sends_simulated_one broken_backend_env
           (connected_store ready_client true) (JS.Num 3) (JS.Num 2)
           0%nat 0%nat); try reflexivity.
  intros e. discriminate.
Defined.

Lemma castVote_second_write_witness :
  let s := connected_store ready_client true in
  let r := Contract.castVote (JS.Num 3) (JS.Num 1) flaky_env s in
  let h2 := [CallBackendEncrypt32 0%nat (JS.Num 1);
             CallCastVote (JS.Num 3) (JS.Num 1) "0x01" "0x02"] in
  let draws := h2 ++ [CallRandomBytes 32; CallRandomBytes 32] in
  let second := simulated_write flaky_env (JS.Num 3) (JS.Num 1) h2 in
  let answer :=
    contract_castVote flaky_env draws (JS.Num 3) (JS.Num 1)
      (ethers_hexlify flaky_env (fst (simulated_bytes flaky_env h2)))
      (ethers_hexlify flaky_env (snd (simulated_bytes flaky_env h2))) in
  (exists tail,
     history (snd r) = draws ++ second :: tail /\ writes_in tail = 0%nat)
  /\ (forall e2, answer = Throws e2 -> fst r = Throw e2)
  /\ (forall tx receipt, answer = Returns tx ->
        tx_wait flaky_env (draws ++ [second]) tx = Returns (Some receipt) ->
        fst r = Ok (succeeded receipt)).
Proof.
  exact (castVote_second_write flaky_env (connected_store ready_client true)
           (JS.Num 3) (JS.Num 1) 0%nat
           {| data := Some [x01]; proof := [x02] |} [x01]
           (called (CallBackendEncrypt32 0%nat (JS.Num 1))
              (connected_store ready_client true))
           (Thrown 42) eq_refl eq_refl eq_refl eq_refl eq_refl).
Defined.

(** ** [init] followed by [encrypt32] *)

(** X12. What [encrypt32] does after [init], also after an [init] over an
    adapter that was ready before: when the network query, the loading of
    the library and the construction of the instance all succeed it calls
    the instance just made; when one of them fails it calls no backend,
    not even an instance kept from before, and returns the simulated
    ciphertext. *)
Theorem init_then_encrypt32
    (env : Env) (s : Store) (p : Provider) (value : JS.number) :
  let h1 := history s ++ [CallGetNetwork p] in
  let h2 := h1 ++ [CallFetch Fhevm.public_key_url] in
  let h3 := h2 ++ [CallImportFhevmjs] in
  let cfg := instance_config env (fetched_key (fetch env h1 Fhevm.public_key_url)) in
  let s' := snd (Fhevm.init p env s) in
  (forall n h,
     provider_getNetwork env (history s) p = Returns n ->
     import_fhevmjs env h2 = Returns tt ->
     createInstance env h3 cfg = Returns h ->
     snd (Fhevm.encrypt32 value env s')
     = called (CallBackendEncrypt32 h value) s')
  /\ ((exists e, provider_getNetwork env (history s) p = Throws e)
      \/ (exists e, import_fhevmjs env h2 = Throws e)
      \/ (exists e, createInstance env h3 cfg = Throws e) ->
      Fhevm.encrypt32 value env s' = (Ok (simulateEncryption value), s')).
Proof.
  cbv zeta. pose proof (init_cases env s p) as Hc. cbv zeta in Hc.
  split.
  - intros n h Hn Hi Hcr. rewrite Hn, Hi, Hcr in Hc. rewrite Hc. cbn [snd].
    match goal with
    | |- snd (Fhevm.encrypt32 value env ?st) = _ =>
        pose proof (encrypt32_cases env st value) as He
    end.
    cbn [fhevmClient isReady instance] in He. rewrite He. reflexivity.
  - intros Hfail.
    assert (Hdeg : isReady (fhevmClient (snd (Fhevm.init p env s))) = false).
    { rewrite Hc.
      destruct (provider_getNetwork env (history s) p) as [n | e];
        [| reflexivity].
      destruct (import_fhevmjs env _) as [[] | e]; [| reflexivity].
      destruct (createInstance env _ _) as [h | e]; [| reflexivity].
      exfalso. destruct Hfail as [[e He] | [[e He] | [e He]]];
        discriminate He. }
    pose proof (encrypt32_cases env (snd (Fhevm.init p env s)) value) as He.
    rewrite Hdeg in He. exact He.
Qed.

(** ** More on the profile resolver *)

Section ProfileMore.

Variables (env : Env) (voter : string) (count : Z).

Lemma increasing_snoc (zs : list Z) (k : Z) :
  increasing zs -> Forall (fun z => z < k) zs -> increasing (zs ++ [k]).
Proof.
  intros Hs Hb i j a b Hij Hi Hj.
  assert (Hjl : (j < length (zs ++ [k]))%nat)
    by (apply lookup_lt_is_Some; eauto).
  rewrite length_app in Hjl. cbn [length] in Hjl.
  rewrite lookup_app_l in Hi by lia.
  destruct (decide (j < length zs)%nat) as [Hlt | Hge].
  - rewrite lookup_app_l in Hj by lia. exact (Hs i j a b Hij Hi Hj).
  - rewrite lookup_app_r in Hj by lia.
    replace (j - length zs)%nat with 0%nat in Hj by lia.
    injection Hj as <-.
    rewrite Forall_forall in Hb. apply Hb.
    eapply list_elem_of_lookup_2. exact Hi.
Qed.

Lemma votedProposals_loop_sorted :
  forall (fuel : nat) (k : Z) (zs : list Z) (s0 s1 : Store)
         (voted : list JS.number),
    0 <= k <= 2 ^ 53 ->
    increasing zs ->
    Forall (fun z => 0 <= z < Z.min k count) zs ->
    Contract.votedProposals_loop fuel (JS.Num k) count voter
      (map JS.Num zs) env s0 = (Ok voted, s1) ->
    exists zs',
      voted = map JS.Num zs'
      /\ increasing zs'
      /\ Forall (fun z => 0 <= z < count) zs'.
Proof.
  induction fuel as [| fuel IH]; intros k zs s0 s1 voted Hk Hs Hb Hrun;
    cbn [Contract.votedProposals_loop] in Hrun; [discriminate Hrun |].
  cbn [Contract.lt_bigint Contract.index_of] in Hrun.
  destruct (Z.ltb_spec k count) as [Hlt | Hge].
  - destruct (Z.eq_dec k (2 ^ 53)) as [-> | Hne].
    + exfalso.
      pose proof (votedProposals_loop_diverges env voter count Hlt (S fuel)
                    (2 ^ 53) (map JS.Num zs) s0 ltac:(lia)) as Hd.
      cbn [Contract.votedProposals_loop Contract.lt_bigint
           Contract.index_of] in Hd.
      replace (2 ^ 53 <? count) with true in Hd
        by (symmetry; apply Z.ltb_lt; exact Hlt).
      rewrite Hrun in Hd. discriminate Hd.
    + unfold bind at 1 in Hrun. rewrite hasVoted_round in Hrun.
      rewrite counter_increment in Hrun by lia.
      assert (Hstep : forall zs1,
                 (zs1 = zs \/ zs1 = zs ++ [k]) ->
                 increasing zs1
                 /\ Forall (fun z => 0 <= z < Z.min (k + 1) count) zs1).
      { intros zs1 [-> | ->].
        - split; [exact Hs |]. eapply Forall_impl; [exact Hb |].
          cbn. intros z Hz. lia.
        - split.
          + apply increasing_snoc; [exact Hs |].
            eapply Forall_impl; [exact Hb |]. cbn. intros z Hz. lia.
          + apply Forall_app. split.
            * eapply Forall_impl; [exact Hb |]. cbn. intros z Hz. lia.
            * constructor; [lia | constructor]. }
      destruct (contract_hasVoted env (history s0) k voter) as [[|] | e].
      * destruct (Hstep (zs ++ [k]) ltac:(auto)) as [Hs' Hb'].
        replace (map JS.Num zs ++ [JS.Num k]) with (map JS.Num (zs ++ [k]))
          in Hrun by (rewrite map_app; reflexivity).
        eapply IH; [| exact Hs' | exact Hb' | exact Hrun]. lia.
      * destruct (Hstep zs ltac:(auto)) as [Hs' Hb'].
        eapply IH; [| exact Hs' | exact Hb' | exact Hrun]. lia.
      * destruct (Hstep zs ltac:(auto)) as [Hs' Hb'].
        eapply IH; [| exact Hs' | exact Hb' | exact Hrun]. lia.
  - injection Hrun as <- _. exists zs. split; [reflexivity |].
    split; [exact Hs |]. eapply Forall_impl; [exact Hb |].
    cbn. intros z Hz. lia.
Qed.

End ProfileMore.

Section ProfileCases.

Variables (env : Env) (s : Store) (fuel : nat).

Let with_history (h : History) : Store :=
  {| fhevmClient := fhevmClient s; votingContract := votingContract s;
     history := h |}.

(** What [getUserProfile] does with a session, read by read. *)
Lemma getUserProfile_cases :
  signer (votingContract s) <> None ->
  contract (votingContract s) <> None ->
  Contract.getUserProfile fuel env s =
  let h1 := history s ++ [CallGetAddress] in
  match signer_getAddress env (history s) with
  | Throws _ => (Ok None, with_history h1)
  | Returns voter =>
      let h2 := h1 ++ [CallIsAuthorizedVoter voter] in
      let h3 := h2 ++ [CallIsAdmin voter] in
      let h4 := h3 ++ [CallProposalCount] in
      match contract_isAuthorizedVoter env h1 voter,
            contract_isAdmin env h2 voter with
      | Returns auth, Returns adm =>
          match contract_proposalCount env h3 with
          | Throws _ => (Ok None, with_history h4)
          | Returns n =>
              match Contract.votedProposals_loop fuel (JS.Num 0) n voter []
                      env (with_history h4) with
              | (Ok voted, s1) =>
                  (Ok (Some {| address := voter; isAuthorized := auth;
                               isAdmin := adm; votedProposals := voted |}),
                   s1)
              | (Throw _, s1) => (Ok None, s1)
              | (OutOfFuel, s1) => (OutOfFuel, s1)
              end
          end
      | _, _ => (Ok None, with_history h3)
      end
  end.
Proof.
  intros Hs Hc. unfold Contract.getUserProfile. run_async.
  destruct (signer (votingContract s)) as [sg |]; [| congruence].
  destruct (contract (votingContract s)) as [ct |]; [| congruence].
  cbn [Contract.is_null orb]. unfold called. cbn [history fhevmClient
    votingContract]. cbv zeta.
  destruct (signer_getAddress env (history s)) as [voter | e];
    [| reflexivity].
  destruct (contract_isAuthorizedVoter env _ voter) as [auth | e];
    [| reflexivity].
  destruct (contract_isAdmin env _ voter) as [adm | e']; [| reflexivity].
  destruct (contract_proposalCount env _) as [n | e]; [| reflexivity].
  unfold with_history.
  destruct (Contract.votedProposals_loop fuel (JS.Num 0) n voter [] env _)
    as [[voted | e |] s1]; reflexivity.
Qed.

End ProfileCases.

(** X13. With a session, when the signer's address, one of the two flags
    or the proposal count cannot be read, [getUserProfile] answers [null]
    without raising and checks no proposal. *)
Theorem getUserProfile_null_on_failed_read
    (env : Env) (s : Store) (fuel : nat) :
  signer (votingContract s) <> None ->
  contract (votingContract s) <> None ->
  let h1 := history s ++ [CallGetAddress] in
  ((exists e, signer_getAddress env (history s) = Throws e)
   \/ (exists voter,
         signer_getAddress env (history s) = Returns voter
         /\ let h2 := h1 ++ [CallIsAuthorizedVoter voter] in
            let h3 := h2 ++ [CallIsAdmin voter] in
            ((exists e, contract_isAuthorizedVoter env h1 voter = Throws e)
             \/ (exists e, contract_isAdmin env h2 voter = Throws e)
             \/ (exists e, contract_proposalCount env h3 = Throws e)))) ->
  fst (Contract.getUserProfile fuel env s) = Ok None
  /\ List.filter is_hasVoted (history (snd (Contract.getUserProfile fuel env s)))
     = List.filter is_hasVoted (history s).
Proof.
  intros Hs Hc. cbv zeta. intros Hfail.
  rewrite (getUserProfile_cases env s fuel Hs Hc). cbv zeta.
  destruct Hfail as [[e He] | (voter & Hv & Hfail)].
  - rewrite He. cbn [fst snd history]. split; [reflexivity |].
    rewrite List.filter_app. cbn. apply app_nil_r.
  - rewrite Hv.
    destruct (contract_isAuthorizedVoter env _ voter) as [auth | e1] eqn:H1;
      [destruct (contract_isAdmin env _ voter) as [adm | e2] eqn:H2 |];
      try (cbn [fst snd history]; split; [reflexivity |];
           rewrite !List.filter_app; cbn; rewrite !app_nil_r; reflexivity).
    destruct Hfail as [[e He] | [[e He] | [e He]]]; try discriminate He.
    rewrite He. cbn [fst snd history]. split; [reflexivity |].
    rewrite !List.filter_app. cbn. rewrite !app_nil_r. reflexivity.
Qed.

Lemma getUserProfile_null_on_failed_read_witness :
  fst (Contract.getUserProfile 5 countless_env
         (connected_store fresh_client false)) = Ok None
  /\ List.filter is_hasVoted
       (history (snd (Contract.getUserProfile 5 countless_env
                        (connected_store fresh_client false))))
     = List.filter is_hasVoted (history (connected_store fresh_client false)).
Proof.
  apply (getUserProfile_null_on_failed_read countless_env
           (connected_store fresh_client false) 5);
    [discriminate | discriminate |].
  right. exists "0xA11CE"%string. split; [reflexivity |].
  right. right. eexists. reflexivity.
Defined.

(** X14. In a profile that [getUserProfile] returns, [votedProposals]
    lists proposal numbers in strictly increasing order, so none twice,
    each of them at least 0 and below the proposal count that was read. *)
Theorem votedProposals_increasing
    (env : Env) (s : Store) (fuel : nat) (profile : UserProfile) :
  fst (Contract.getUserProfile fuel env s) = Ok (Some profile) ->
  exists zs,
    votedProposals profile = map JS.Num zs
    /\ increasing zs
    /\ Forall (fun z => 0 <= z) zs
    /\ forall n,
         contract_proposalCount env
           (history s ++ [CallGetAddress;
                          CallIsAuthorizedVoter (address profile);
                          CallIsAdmin (address profile)]) = Returns n ->
         Forall (fun z => z < n) zs.
Proof.
  intros Hrun.
  destruct (signer (votingContract s)) as [sg |] eqn:Hsg.
  2:{ exfalso. unfold Contract.getUserProfile in Hrun. run_async.
      rewrite Hsg in Hrun. discriminate Hrun. }
  destruct (contract (votingContract s)) as [ct |] eqn:Hct.
  2:{ exfalso. unfold Contract.getUserProfile in Hrun. run_async.
      rewrite Hsg, Hct in Hrun. discriminate Hrun. }
  rewrite (getUserProfile_cases env s fuel) in Hrun by congruence.
  cbv zeta in Hrun.
  destruct (signer_getAddress env (history s)) as [voter | e];
    [| discriminate Hrun].
  destruct (contract_isAuthorizedVoter env _ voter) as [auth | e1];
    [| discriminate Hrun].
  destruct (contract_isAdmin env _ voter) as [adm | e2];
    [| discriminate Hrun].
  destruct (contract_proposalCount env _) as [n | e] eqn:Hn;
    [| discriminate Hrun].
  destruct (Contract.votedProposals_loop fuel (JS.Num 0) n voter [] env _)
    as [[voted | e |] s1] eqn:Hloop; try discriminate Hrun.
  cbn [fst] in Hrun. injection Hrun as <-. cbn [votedProposals address].
  assert (Hempty : increasing [])
    by (intros i j a b _ Hi; discriminate Hi).
  destruct (votedProposals_loop_sorted env voter n fuel 0 [] _ _ voted
              ltac:(lia) Hempty ltac:(constructor) Hloop)
    as (zs & Hz & Hinc & Hb).
  exists zs. split; [exact Hz |]. split; [exact Hinc |]. split.
  - eapply Forall_impl; [exact Hb |]. cbn. intros z Hz'. lia.
  - intros n' Hn'. rewrite <- !app_assoc in Hn. cbn [app] in Hn.
    rewrite Hn in Hn'. injection Hn' as <-.
    eapply Forall_impl; [exact Hb |]. cbn. intros z Hz'. lia.
Qed.

Lemma votedProposals_increasing_witness :
  exists zs,
    [JS.Num 0; JS.Num 3] = map JS.Num zs
    /\ increasing zs
    /\ Forall (fun z => 0 <= z) zs
    /\ forall n,
         contract_proposalCount failing_check_env
           (history (connected_store fresh_client false)
            ++ [CallGetAddress; CallIsAuthorizedVoter "0xA11CE";
                CallIsAdmin "0xA11CE"]) = Returns n ->
         Forall (fun z => z < n) zs.
Proof.
  exact (votedProposals_increasing failing_check_env
           (connected_store fresh_client false) 5
           {| address := "0xA11CE"; isAuthorized := true; isAdmin := false;
              votedProposals := [JS.Num 0; JS.Num 3] |} eq_refl).
Defined.

(** ** More on the proposal list *)

Section ProposalsMore.

Variable env : Env.

Lemma convert_proposal_mirrors (userAddress : option string)
    (pd : Remote.ProposalData) (s0 : Store) :
  exists p s1,
    Contract.convert_proposal userAddress pd env s0 = (Ok p, s1)
    /\ mirrors pd p
    /\ (userAddress = None -> hasVoted p = false /\ s1 = s0).
Proof.
  unfold Contract.convert_proposal, mirrors. run_async.
  destruct userAddress as [a |].
  - destruct (truthy (Some a)).
    + destruct (contract_hasVoted env (history s0) (Remote.id pd) a)
        as [b | e]; eexists _, _; (split; [reflexivity |]);
        cbn; (split; [repeat split; reflexivity | intros H; discriminate H]).
    + eexists _, _. split; [reflexivity |]. cbn.
      split; [repeat split; reflexivity | intros H; discriminate H].
  - eexists _, _. split; [reflexivity |]. cbn.
    split; [repeat split; reflexivity | intros _; split; reflexivity].
Qed.

Lemma convert_proposals_mirrors (userAddress : option string) :
  forall (records : list Remote.ProposalData) (acc : list Proposal) (s0 : Store),
  exists ps s1,
    Contract.convert_proposals userAddress records acc env s0
      = (Ok (acc ++ ps), s1)
    /\ List.Forall2 mirrors records ps
    /\ (userAddress = None ->
        Forall (fun p => hasVoted p = false) ps /\ s1 = s0).
Proof.
  induction records as [| pd records IH]; intros acc s0.
  - exists [], s0. cbn. rewrite app_nil_r.
    split; [reflexivity |]. split; [constructor |].
    intros _. split; [constructor | reflexivity].
  - cbn [Contract.convert_proposals]. unfold bind at 1.
    destruct (convert_proposal_mirrors userAddress pd s0)
      as (p & s1 & -> & Hp & Hnone).
    destruct (IH (acc ++ [p]) s1) as (ps & s2 & -> & Hps & Hnone').
    exists (p :: ps), s2. rewrite <- app_assoc. split; [reflexivity |].
    split; [constructor; assumption |].
    intros Hu. destruct (Hnone Hu) as [Hv ->].
    destruct (Hnone' Hu) as [Hvs ->].
    split; [constructor; assumption | reflexivity].
Qed.

End ProposalsMore.

(** X15. When the list is read and the signer, if there is one, tells its
    address, [getActiveProposals] returns one record for each record of
    the contract, in the same order, with the texts, the options, the
    creator and the flags copied and the counts converted to numbers.
    Without a signer no vote is looked up and every record says
    [hasVoted = false]. *)
Theorem getActiveProposals_mirrors
    (env : Env) (s : Store) (records : list Remote.ProposalData) :
  contract (votingContract s) <> None ->
  contract_getActiveProposals env (history s) = Returns records ->
  (signer (votingContract s) = None
   \/ exists a, signer_getAddress env (history s ++ [CallGetActiveProposals])
                = Returns a) ->
  exists proposals,
    fst (Contract.getActiveProposals env s) = Ok proposals
    /\ List.Forall2 mirrors records proposals
    /\ (signer (votingContract s) = None ->
        Forall (fun p => hasVoted p = false) proposals
        /\ history (snd (Contract.getActiveProposals env s))
           = history s ++ [CallGetActiveProposals]).
Proof.
  intros Hc Hr Hs. unfold Contract.getActiveProposals. run_async.
  destruct (contract (votingContract s)) as [ct |]; [| congruence].
  cbn [Contract.is_null]. rewrite Hr.
  destruct (signer (votingContract s)) as [sg |] eqn:Hsg;
    cbn [Contract.is_null].
  - destruct Hs as [Hs | [a Ha]]; [discriminate Hs |].
    unfold called at 1. cbn [history]. rewrite Ha.
    match goal with
    | |- context [Contract.convert_proposals ?u records [] env ?st] =>
        destruct (convert_proposals_mirrors env u records [] st)
          as (ps & s1 & -> & Hps & _)
    end.
    exists ps. cbn [app fst]. split; [reflexivity |].
    split; [exact Hps | intros H; discriminate H].
  - match goal with
    | |- context [Contract.convert_proposals ?u records [] env ?st] =>
        destruct (convert_proposals_mirrors env u records [] st)
          as (ps & s1 & -> & Hps & Hnone)
    end.
    destruct (Hnone eq_refl) as [Hv ->].
    exists ps. cbn [app fst snd]. split; [reflexivity |].
    split; [exact Hps |]. intros _. split; [exact Hv | reflexivity].
Qed.

Lemma getActiveProposals_mirrors_witness :
  exists proposals,
    fst (Contract.getActiveProposals addressless_env signerless_store)
    = Ok proposals
    /\ List.Forall2 mirrors [sample_proposal 10 20; sample_proposal 30 40]
         proposals
    /\ (signer (votingContract signerless_store) = None ->
        Forall (fun p => hasVoted p = false) proposals
        /\ history (snd (Contract.getActiveProposals addressless_env
                           signerless_store))
           = history signerless_store ++ [CallGetActiveProposals]).
Proof.
  apply (getActiveProposals_mirrors addressless_env signerless_store);
    [discriminate | reflexivity | left; reflexivity].
Defined.

(** X16. With a signer whose address cannot be read, [getActiveProposals]
    answers the empty list, whatever the contract returned, and raises
    nothing. *)
Theorem getActiveProposals_needs_the_address
    (env : Env) (s : Store) (records : list Remote.ProposalData) (e : exn) :
  contract (votingContract s) <> None ->
  signer (votingContract s) <> None ->
  contract_getActiveProposals env (history s) = Returns records ->
  signer_getAddress env (history s ++ [CallGetActiveProposals]) = Throws e ->
  fst (Contract.getActiveProposals env s) = Ok []
  /\ history (snd (Contract.getActiveProposals env s))
     = history s ++ [CallGetActiveProposals; CallGetAddress].
Proof.
  intros Hc Hs Hr Ha. unfold Contract.getActiveProposals. run_async.
  destruct (contract (votingContract s)) as [ct |]; [| congruence].
  destruct (signer (votingContract s)) as [sg |]; [| congruence].
  cbn [Contract.is_null]. rewrite Hr. unfold called.
  cbn [history fhevmClient votingContract].
  rewrite Ha. cbn [fst snd history]. rewrite <- ?app_assoc.
  split; reflexivity.
Qed.

Lemma getActiveProposals_needs_the_address_witness :
  fst (Contract.getActiveProposals addressless_env
         (connected_store fresh_client false)) = Ok []
  /\ history (snd (Contract.getActiveProposals addressless_env
                     (connected_store fresh_client false)))
     = history (connected_store fresh_client false)
       ++ [CallGetActiveProposals; CallGetAddress].
Proof.
  apply (getActiveProposals_needs_the_address addressless_env
           (connected_store fresh_client false)
           [sample_proposal 10 20; sample_proposal 30 40] (Thrown 12));
    try discriminate; reflexivity.
Defined.

(** ** The dashboard *)

Section DashboardFacts.

Import Dashboard.

Lemma filter_now_frozen (clock : Clock) (t : JS.number)
    (keep : JS.number -> Proposal -> bool) :
  (forall k, clock k = t) ->
  forall (proposals : list Proposal) (k : nat),
    filter_now clock k keep proposals = List.filter (keep t) proposals.
Proof.
  intros Hfrozen. induction proposals as [| p rest IH]; intros k;
    [reflexivity |].
  cbn [filter_now List.filter]. rewrite Hfrozen, !IH. reflexivity.
Qed.

(** At one instant a well-timed proposal that is flagged active is in
    exactly one of the three states, and one that is not flagged is in
    none. *)
Lemma one_state (t : Z) (p : Proposal) :
  well_timed p ->
  (if active p then 1 else 0)%nat
  = ((if is_active (JS.Num t) p then 1 else 0)
     + (if is_pending (JS.Num t) p then 1 else 0)
     + (if is_completed (JS.Num t) p then 1 else 0))%nat.
Proof.
  intros (a & b & Ha & Hb & Hab).
  unfold is_active, is_pending, is_completed, Compare.ge, Compare.gt,
    Compare.le, Compare.lt.
  rewrite Ha, Hb. cbn [Compare.is_nan orb].
  destruct (active p); cbn [andb]; [| reflexivity].
  destruct (Z.ltb_spec t a), (Z.ltb_spec b t); cbn; lia.
Qed.

Lemma length_filter_sum (f g h flag : Proposal -> bool) :
  forall proposals : list Proposal,
    Forall (fun p => (if flag p then 1 else 0)%nat
                     = ((if f p then 1 else 0) + (if g p then 1 else 0)
                        + (if h p then 1 else 0))%nat) proposals ->
    (length (List.filter f proposals) + length (List.filter g proposals)
     + length (List.filter h proposals))%nat
    = length (List.filter flag proposals).
Proof.
  induction proposals as [| p rest IH]; intros Hall; [reflexivity |].
  apply Forall_cons in Hall as [Hp Hrest]. specialize (IH Hrest).
  cbn [List.filter].
  destruct (f p), (g p), (h p), (flag p); cbn [length] in *; lia.
Qed.

(** X17. When the clock does not move during a rendering and every
    proposal has its start not after its end, the three tabs of the
    dashboard share out the proposals flagged active: each of them is in
    exactly one of the lists active, pending and completed, a proposal
    that is not flagged is in none, and the three lengths add up. *)
Theorem dashboard_tabs_partition
    (clock : Clock) (t : Z) (proposals : list Proposal) :
  (forall k, clock k = JS.Num t) ->
  Forall well_timed proposals ->
  (length (activeProposals clock proposals)
   + length (pendingProposals clock proposals)
   + length (completedProposals clock proposals))%nat
  = length (List.filter active proposals)
  /\ forall p, In p proposals ->
       let a := In p (activeProposals clock proposals) in
       let b := In p (pendingProposals clock proposals) in
       let c := In p (completedProposals clock proposals) in
       (active p = true ->
        (a /\ ~ b /\ ~ c) \/ (~ a /\ b /\ ~ c) \/ (~ a /\ ~ b /\ c))
       /\ (active p = false -> ~ a /\ ~ b /\ ~ c).
Proof.
  intros Hfrozen Hall.
  unfold activeProposals, pendingProposals, completedProposals.
  rewrite !(filter_now_frozen clock (JS.Num t)) by exact Hfrozen.
  split.
  - apply length_filter_sum. eapply Forall_impl; [exact Hall |].
    intros p Hp. apply one_state, Hp.
  - intros p Hin. cbv zeta. rewrite !List.filter_In.
    rewrite Forall_forall in Hall.
    assert (Hp : well_timed p)
      by (apply Hall, list_elem_of_In, Hin).
    pose proof (one_state t p Hp) as Hone.
    destruct (active p), (is_active (JS.Num t) p),
      (is_pending (JS.Num t) p), (is_completed (JS.Num t) p);
      cbn in Hone; try discriminate Hone;
      (split; intros Hf; try discriminate Hf);
      intuition (try discriminate; auto).
Qed.

Lemma dashboard_tabs_partition_witness :
  let clock : Clock := fun _ => JS.Num 15 in
  (length (activeProposals clock sample_proposals)
   + length (pendingProposals clock sample_proposals)
   + length (completedProposals clock sample_proposals))%nat
  = length (List.filter active sample_proposals)
  /\ forall p, In p sample_proposals ->
       let a := In p (activeProposals clock sample_proposals) in
       let b := In p (pendingProposals clock sample_proposals) in
       let c := In p (completedProposals clock sample_proposals) in
       (active p = true ->
        (a /\ ~ b /\ ~ c) \/ (~ a /\ b /\ ~ c) \/ (~ a /\ ~ b /\ c))
       /\ (active p = false -> ~ a /\ ~ b /\ ~ c).
Proof.
  apply (dashboard_tabs_partition (fun _ => JS.Num 15) 15 sample_proposals).
  - reflexivity.
  - repeat constructor; eexists _, _;
      (split; [reflexivity |]); (split; [reflexivity |]); lia.
Defined.

End DashboardFacts.

Section StatsFacts.

Import Dashboard.

Lemma length_filter_now (clock : Clock) (keep : JS.number -> Proposal -> bool) :
  forall (proposals : list Proposal) (k : nat),
    (length (filter_now clock k keep proposals) <= length proposals)%nat.
Proof.
  induction proposals as [| p rest IH]; intros k; [reflexivity |].
  cbn [filter_now]. specialize (IH (S k)).
  destruct (keep (clock k) p); cbn [length]; lia.
Qed.

Lemma sum_votes_exact :
  forall (proposals : list Proposal) (votes : list Z) (acc : Z),
    map votes_of proposals = map JS.Num votes ->
    Forall (fun v => 0 <= v) votes ->
    0 <= acc -> acc + foldr Z.add 0 votes <= 2 ^ 53 ->
    fold_left (fun sum p => (sum + votes_of p)%js) proposals (JS.Num acc)
    = JS.Num (acc + foldr Z.add 0 votes).
Proof.
  induction proposals as [| p rest IH]; intros votes acc Hmap Hpos Hacc Hsum.
  - destruct votes; [| discriminate Hmap]. cbn. f_equal. lia.
  - destruct votes as [| v votes]; [discriminate Hmap |].
    cbn [map] in Hmap. injection Hmap as Hv Hrest.
    apply Forall_cons in Hpos as [Hv0 Hpos].
    assert (Hfold : 0 <= foldr Z.add 0 votes).
    { clear -Hpos. induction Hpos; cbn; lia. }
    cbn [fold_left foldr] in *. rewrite Hv. unfold JS.add at 2.
    rewrite to_number_exact by lia.
    rewrite (IH votes (acc + v)) by (try assumption; lia).
    f_equal. lia.
Qed.

(** X18. The figures of [getStats]: the number of proposals the user
    voted on and the number of active proposals never exceed the number
    of proposals, and the total of the votes is the exact sum of the
    proposals' counts as long as that sum is at most 2^53. *)
Theorem getStats_figures (clock : Clock) (proposals : list Proposal) :
  let stats := getStats clock proposals in
  (userVotes stats <= totalProposals stats)%nat
  /\ (activeCount stats <= totalProposals stats)%nat
  /\ totalProposals stats = length proposals
  /\ forall votes : list Z,
       map votes_of proposals = map JS.Num votes ->
       Forall (fun v => 0 <= v) votes ->
       foldr Z.add 0 votes <= 2 ^ 53 ->
       Dashboard.totalVotes stats = JS.Num (foldr Z.add 0 votes).
Proof.
  cbv zeta. unfold getStats. cbn [userVotes totalProposals activeCount
    Dashboard.totalVotes].
  split; [apply List.filter_length_le |].
  split; [apply length_filter_now |].
  split; [reflexivity |].
  intros votes Hmap Hpos Hsum.
  rewrite (sum_votes_exact proposals votes 0) by (try assumption; lia).
  reflexivity.
Qed.

End StatsFacts.

(** ** [CreateProposalDialog] *)

Section DialogFacts.

Import Dialog.

Lemma filter_index_all (keep : nat -> bool) :
  forall (l : list string) (k : nat),
    (forall j, (k <= j)%nat -> keep j = true) ->
    filter_index keep k l = l.
Proof.
  induction l as [| x rest IH]; intros k Hkeep; [reflexivity |].
  cbn [filter_index]. rewrite (Hkeep k) by lia.
  rewrite IH; [reflexivity |]. intros j Hj. apply Hkeep. lia.
Qed.

Lemma filter_index_remove :
  forall (l : list string) (k i : nat),
    filter_index (fun j => negb (j =? k + i)%nat) k l
    = (take i l ++ drop (S i) l)%list.
Proof.
  induction l as [| x rest IH]; intros k i.
  - destruct i; reflexivity.
  - cbn [filter_index]. destruct i as [| i].
    + replace (k + 0)%nat with k by lia. rewrite Nat.eqb_refl.
      cbn [negb take drop app]. rewrite drop_0.
      apply filter_index_all. intros j Hj.
      destruct (Nat.eqb_spec j k); [lia | reflexivity].
    + destruct (Nat.eqb_spec k (k + S i)); [lia |]. cbn [negb take drop app].
      f_equal. replace (k + S i)%nat with (S k + i)%nat by lia. apply IH.
Qed.

(** X19. The two buttons of the option list keep it between two and ten
    entries.  [addOption] appends one empty entry while there are fewer
    than ten; [removeOption] takes out the entry at the given index, and
    only that one, while there are more than two, and an index past the
    end removes nothing.  No other part of the state changes. *)
Theorem option_buttons_keep_bounds (st : State) (index : nat) :
  (2 <= length (options st) <= 10)%nat ->
  let added := addOption st in
  let removed := removeOption index st in
  (2 <= length (options added) <= 10)%nat
  /\ (2 <= length (options removed) <= 10)%nat
  /\ options added
     = (if (length (options st) <? 10)%nat then options st ++ [""%string]
        else options st)%list
  /\ options removed
     = (if (2 <? length (options st))%nat
        then take index (options st) ++ drop (S index) (options st)
        else options st)%list
  /\ ((length (options st) <= index)%nat -> removed = st)
  /\ setOptions (options st) added = st
  /\ setOptions (options st) removed = st.
Proof.
  intros Hlen. cbv zeta. unfold addOption, removeOption.
  pose proof (filter_index_remove (options st) 0 index) as Hf.
  cbn [Nat.add] in Hf. rewrite Hf. clear Hf.
  destruct (Nat.ltb_spec (length (options st)) 10) as [Hadd | Hadd];
    destruct (Nat.ltb_spec 2 (length (options st))) as [Hrem | Hrem];
    cbn [options setOptions]; rewrite ?length_app, ?length_take, ?length_drop;
    cbn [length];
    (split; [lia |]); (split; [lia |]); (split; [reflexivity |]);
    (split; [reflexivity |]);
    (split; [| destruct st; split; reflexivity]);
    intros Hout; try reflexivity;
    rewrite take_ge, drop_ge, app_nil_r by lia; destruct st; reflexivity.
Qed.

Lemma option_buttons_keep_bounds_witness :
  let st := setOptions ["a"; "b"; "c"]%string initial in
  let added := addOption st in
  let removed := removeOption 1 st in
  (2 <= length (options added) <= 10)%nat
  /\ (2 <= length (options removed) <= 10)%nat
  /\ options added
     = (if (length (options st) <? 10)%nat then options st ++ [""%string]
        else options st)%list
  /\ options removed
     = (if (2 <? length (options st))%nat
        then take 1 (options st) ++ drop 2 (options st)
        else options st)%list
  /\ ((length (options st) <= 1)%nat -> removed = st)
  /\ setOptions (options st) added = st
  /\ setOptions (options st) removed = st.
Proof.
  apply (option_buttons_keep_bounds
           (setOptions ["a"; "b"; "c"]%string initial) 1).
  cbn. lia.
Defined.

(** X20. With fewer than two options that are not blank, [onSubmit] only
    shows the toast "Invalid Options": it makes no call, leaves the
    submitting flag, the options and the dialog as they are, and
    returns. *)
Theorem onSubmit_needs_two_options (onSuccess : M unit) (data : ProposalForm)
    (env : Env) (s : Store) (st : State) :
  (length (validOptions st) < 2)%nat ->
  onSubmit onSuccess data env (s, st)
  = (Ok tt, (s, toast "Invalid Options" st)).
Proof.
  intros Hfew. unfold onSubmit, xbind, xget. cbn [snd fst].
  fold (validOptions st).
  destruct (Nat.ltb_spec (length (validOptions st)) 2); [reflexivity | lia].
Qed.

Lemma onSubmit_needs_two_options_witness :
  onSubmit (ret tt) defaultValues calm_env
    (connected_store fresh_client false,
     setOptions ["yes"; "  "; ""]%string initial)
  = (Ok tt, (connected_store fresh_client false,
             toast "Invalid Options"
               (setOptions ["yes"; "  "; ""]%string initial))).
Proof.
  apply (onSubmit_needs_two_options (ret tt) defaultValues calm_env
           (connected_store fresh_client false)
           (setOptions ["yes"; "  "; ""]%string initial)).
  vm_compute. lia.
Defined.

Lemma createProposal_not_connected (t d : string) (o : list string)
    (secs : JS.number) (env : Env) (s : Store) :
  contract (votingContract s) = None ->
  Contract.createProposal t d o secs env s = (Ok false, s).
Proof.
  intros Hc. unfold Contract.createProposal. run_async. rewrite Hc.
  reflexivity.
Qed.

Lemma onSubmit_run (onSuccess : M unit) (data : ProposalForm)
    (env : Env) (s : Store) (st : State) :
  (2 <= length (validOptions st))%nat ->
  onSubmit onSuccess data env (s, st)
  = match Contract.createProposal (title data) (description data)
            (validOptions st) (duration data * JS.Num 60 * JS.Num 60)%js
            env s with
    | (Ok true, s1) =>
        match onSuccess env s1 with
        | (Ok _, s2) => (Ok tt, (s2, setIsSubmitting false (created st)))
        | (Throw _, s2) =>
            (Ok tt, (s2, setIsSubmitting false
                           (toast "Creation Failed" (created st))))
        | (OutOfFuel, s2) => (OutOfFuel, (s2, created st))
        end
    | (Ok false, s1) | (Throw _, s1) => (Ok tt, (s1, failed st))
    | (OutOfFuel, s1) => (OutOfFuel, (s1, setIsSubmitting true st))
    end.
Proof.
  intros Hmany. unfold onSubmit, xbind at 1, xget. cbn [snd fst].
  fold (validOptions st).
  destruct (Nat.ltb_spec (length (validOptions st)) 2) as [Hlt | _]; [lia |].
  unfold xfinally, xtry, xbind, xmodify, lift, xthrow, xret. cbn [fst snd].
  destruct (Contract.createProposal (title data) (description data)
              (validOptions st) (duration data * JS.Num 60 * JS.Num 60)%js
              env s) as [[[|] | e |] s1]; cbn [fst snd]; try reflexivity.
  destruct (onSuccess env s1) as [[[] | e |] s2]; reflexivity.
Qed.

(** X21. With two options or more that are not blank, [onSubmit] never
    raises, whatever [createProposal] and the callback do, and it puts the
    submitting flag down before it returns.  When [createProposal] answers
    [false] or raises it shows "Creation Failed" and keeps the dialog, the
    options and the form as they were; without a connection that is what
    happens, with no call made.  When it answers [true] the dialog shows
    "Proposal Created", resets the form and the options, closes and runs
    the callback; if the callback raises, "Creation Failed" is shown on
    top. *)
Theorem onSubmit_outcome (onSuccess : M unit) (data : ProposalForm)
    (env : Env) (s : Store) (st : State) :
  (2 <= length (validOptions st))%nat ->
  let submitted :=
    Contract.createProposal (title data) (description data) (validOptions st)
      (duration data * JS.Num 60 * JS.Num 60)%js env s in
  let r := onSubmit onSuccess data env (s, st) in
  (forall e, fst r <> Throw e)
  /\ (fst submitted = Ok false \/ (exists e, fst submitted = Throw e) ->
      r = (Ok tt, (snd submitted, failed st)))
  /\ (contract (votingContract s) = None -> r = (Ok tt, (s, failed st)))
  /\ (fst submitted = Ok true ->
      let after := onSuccess env (snd submitted) in
      match fst after with
      | Ok _ => r = (Ok tt, (snd after, setIsSubmitting false (created st)))
      | Throw _ =>
          r = (Ok tt, (snd after,
                       setIsSubmitting false
                         (toast "Creation Failed" (created st))))
      | OutOfFuel => fst r = OutOfFuel
      end).
Proof.
  intros Hmany. cbv zeta.
  rewrite (onSubmit_run onSuccess data env s st Hmany).
  assert (Hnull : contract (votingContract s) = None ->
            Contract.createProposal (title data) (description data)
              (validOptions st) (duration data * JS.Num 60 * JS.Num 60)%js
              env s = (Ok false, s))
    by apply createProposal_not_connected.
  destruct (Contract.createProposal (title data) (description data)
              (validOptions st) (duration data * JS.Num 60 * JS.Num 60)%js
              env s) as [[[|] | e |] s1]; cbn [fst snd].
  - destruct (onSuccess env s1) as [[[] | e |] s2]; cbn [fst snd];
      (split; [intros e'; discriminate |]);
      (split; [intros [H | [e' H]]; discriminate H |]);
      (split; [intros Hc; specialize (Hnull Hc); discriminate Hnull |]);
      intros _; reflexivity.
  - split; [intros e'; discriminate |].
    split; [intros _; reflexivity |].
    split; [intros Hc; specialize (Hnull Hc); injection Hnull as <-;
            reflexivity |].
    intros H; discriminate H.
  - split; [intros e'; discriminate |].
    split; [intros _; reflexivity |].
    split; [intros Hc; specialize (Hnull Hc); discriminate Hnull |].
    intros H; discriminate H.
  - split; [intros e'; discriminate |].
    split; [intros [H | [e' H]]; discriminate H |].
    split; [intros Hc; specialize (Hnull Hc); discriminate Hnull |].
    intros H; discriminate H.
Qed.

Lemma onSubmit_outcome_witness :
  let onSuccess : M unit := ret tt in
  let data := defaultValues in
  let env := calm_env in
  let s := connected_store fresh_client false in
  let st := setOptions ["yes"; " no "; ""]%string initial in
  let submitted :=
    Contract.createProposal (title data) (description data) (validOptions st)
      (duration data * JS.Num 60 * JS.Num 60)%js env s in
  let r := onSubmit onSuccess data env (s, st) in
  (forall e, fst r <> Throw e)
  /\ (fst submitted = Ok false \/ (exists e, fst submitted = Throw e) ->
      r = (Ok tt, (snd submitted, failed st)))
  /\ (contract (votingContract s) = None -> r = (Ok tt, (s, failed st)))
  /\ (fst submitted = Ok true ->
      let after := onSuccess env (snd submitted) in
      match fst after with
      | Ok _ => r = (Ok tt, (snd after, setIsSubmitting false (created st)))
      | Throw _ =>
          r = (Ok tt, (snd after,
                       setIsSubmitting false
                         (toast "Creation Failed" (created st))))
      | OutOfFuel => fst r = OutOfFuel
      end).
Proof.
  apply (onSubmit_outcome (ret tt) defaultValues calm_env
           (connected_store fresh_client false)
           (setOptions ["yes"; " no "; ""]%string initial)).
  vm_compute. lia.
Defined.

Lemma hours_in_seconds (hours : Z) :
  0 <= hours -> 3600 * hours <= 2 ^ 53 ->
  (JS.Num hours * JS.Num 60 * JS.Num 60)%js = JS.Num (3600 * hours).
Proof.
  intros H0 Hmax. unfold JS.mul. rewrite (to_number_exact (hours * 60)) by lia.
  rewrite to_number_exact by lia. f_equal. lia.
Qed.

Lemma createProposal_history (t d : string) (o : list string)
    (secs : JS.number) (env : Env) (s : Store) :
  contract (votingContract s) <> None ->
  exists tail,
    history (snd (Contract.createProposal t d o secs env s))
    = (history s ++ CallCreateProposal t d o secs :: tail)%list.
Proof.
  intros Hc.
  change (Contract.createProposal t d o secs)
    with (run_write (CreateProposal t d o secs)).
  rewrite (run_write_connected env s _ Hc). cbn [write_call].
  destruct (finish_history env
              (outcome_of (write_answer env (history s)
                             (CreateProposal t d o secs)))
              (called (CallCreateProposal t d o secs) s))
    as (tail & Htail & _).
  exists tail. rewrite Htail. cbn [called history].
  rewrite <- app_assoc. reflexivity.
Qed.

(** X22. What [onSubmit] sends.  Once connected and with two options or
    more that are not blank, the first call [onSubmit] makes is the remote
    [createProposal] with the title and the description of the form, the
    options that are not blank, in their order and untrimmed, and the
    duration in seconds: for a whole number of hours up to 2^53 / 3600 the
    two multiplications by 60 are exact.  The callback is assumed not to
    erase the record of the calls. *)
Theorem onSubmit_sends_seconds (onSuccess : M unit) (data : ProposalForm)
    (env : Env) (s : Store) (st : State) (hours : Z) :
  contract (votingContract s) <> None ->
  (2 <= length (validOptions st))%nat ->
  duration data = JS.Num hours ->
  0 <= hours -> 3600 * hours <= 2 ^ 53 ->
  (forall s1, exists t, history (snd (onSuccess env s1)) = (history s1 ++ t)%list) ->
  exists tail,
    history (fst (snd (onSubmit onSuccess data env (s, st))))
    = (history s
       ++ CallCreateProposal (title data) (description data)
            (validOptions st) (JS.Num (3600 * hours)) :: tail)%list.
Proof.
  intros Hc Hmany Hd H0 Hmax Hkeep.
  rewrite (onSubmit_run onSuccess data env s st Hmany), Hd.
  rewrite (hours_in_seconds hours H0 Hmax).
  destruct (createProposal_history (title data) (description data)
              (validOptions st) (JS.Num (3600 * hours)) env s Hc)
    as (tail & Htail).
  destruct (Contract.createProposal (title data) (description data)
              (validOptions st) (JS.Num (3600 * hours)) env s)
    as [[[|] | e |] s1]; cbn [fst snd] in *;
    try (exists tail; exact Htail).
  destruct (Hkeep s1) as (t & Ht).
  destruct (onSuccess env s1) as [[[] | e |] s2]; cbn [fst snd] in *;
    exists (tail ++ t)%list; rewrite Ht, Htail, <- app_assoc; reflexivity.
Qed.

Lemma onSubmit_sends_seconds_witness :
  exists tail,
    history (fst (snd (onSubmit (ret tt) defaultValues calm_env
                         (connected_store fresh_client false,
                          setOptions ["yes"; " no "; ""]%string initial))))
    = (history (connected_store fresh_client false)
       ++ CallCreateProposal "" "" ["yes"; " no "]%string (JS.Num (3600 * 24))
       :: tail)%list.
Proof.
  apply (onSubmit_sends_seconds (ret tt) defaultValues calm_env
           (connected_store fresh_client false)
           (setOptions ["yes"; " no "; ""]%string initial) 24).
  - discriminate.
  - vm_compute. lia.
  - reflexivity.
  - lia.
  - vm_compute. discriminate.
  - intros s1. exists []. cbn. rewrite app_nil_r. reflexivity.
Defined.

End DialogFacts.

(** ** [connect] and [switchToSepolia] *)

Section WalletFacts.

Import Wallet.

Variables (w : Wallet) (env : Env).

Lemma switchToSepolia_run (s : Store) (l : Log) :
  switchToSepolia w env (s, l)
  = match ethereum w with
    | None => (Ok tt, (s, l))
    | Some _ =>
        let l1 := (l ++ [SwitchEthereumChain chainId_hex])%list in
        match wallet_switchEthereumChain w (history s) l with
        | Returns _ => (Ok tt, (s, l1))
        | Throws e =>
            if has_code 4902 e then
              let l2 :=
                (l1 ++ [AddEthereumChain chainId_hex SEPOLIA_name
                          SEPOLIA_rpcUrl SEPOLIA_blockExplorer])%list in
              match wallet_addEthereumChain w (history s) l1 with
              | Returns _ => (Ok tt, (s, l2))
              | Throws _ => (Throw (JsError add_failed), (s, l2))
              end
            else (Throw (JsError switch_failed), (s, l1))
        end
    end.
Proof.
  unfold switchToSepolia. destruct (ethereum w) as [p |]; [| reflexivity].
  unfold xtry, ask. cbn [fst snd].
  destruct (wallet_switchEthereumChain w (history s) l) as [[] | e];
    cbn [outcome_of]; [reflexivity |].
  destruct (has_code 4902 e); [| reflexivity]. cbn [fst snd].
  destruct (wallet_addEthereumChain w (history s)
              (l ++ [SwitchEthereumChain chainId_hex])) as [[] | e'];
    reflexivity.
Qed.


Lemma init_frame (p : Provider) (s : Store) :
  exists o c h,
    Fhevm.init p env s
    = (o, {| fhevmClient := c; votingContract := votingContract s;
             history := h |})
    /\ (o = Ok tt
        \/ exists e, o = Throw e /\ isReady c = false
                     /\ provider_getNetwork env (history s) p = Throws e).
Proof.
  rewrite init_cases.
  destruct (provider_getNetwork env (history s) p) as [n | e].
  - destruct (import_fhevmjs env _) as [[] | e].
    + destruct (createInstance env _ _) as [h | e];
        eexists _, _, _; (split; [reflexivity | left; reflexivity]).
    + eexists _, _, _; (split; [reflexivity | left; reflexivity]).
  - eexists _, _, _. split; [reflexivity |]. right. exists e.
    repeat split; reflexivity.
Qed.

Lemma switch_frame (s : Store) (l : Log) :
  exists o l',
    switchToSepolia w env (s, l) = (o, (s, l'))
    /\ (o = Ok tt \/ exists e, o = Throw e).
Proof.
  rewrite switchToSepolia_run. cbv zeta.
  destruct (ethereum w) as [p |]; [| eauto].
  destruct (wallet_switchEthereumChain w (history s) l) as [[] | e]; [eauto |].
  destruct (has_code 4902 e); [| eauto 6].
  destruct (wallet_addEthereumChain w (history s) _) as [[] | e']; eauto 6.
Qed.

Lemma connect_cases (s : Store) (l : Log) :
  let r := connect w env (s, l) in
  match ethereum w with
  | None => r = (Throw (JsError no_wallet), (s, l))
  | Some p =>
      ((exists e, fst r = Throw e)
       /\ votingContract (fst (snd r))
          = set_walletProvider p (votingContract s)
       /\ fhevmClient (fst (snd r)) = fhevmClient s
       /\ stopped_early w env p)
      \/ (exists sg flag,
            votingContract (fst (snd r))
            = {| contract := Some sg; walletProvider := Some p;
                 signer := Some sg; isFHEVMEnabled := flag |}
            /\ (Fhevm.isInitialized (fhevmClient (fst (snd r))) = true ->
                flag = true)
            /\ (flag = false ->
                exists h e, provider_getNetwork env h p = Throws e)
            /\ (exists h l', provider_getSigner w h l' = Returns sg)
            /\ ((fst r = Ok true
                 /\ exists h c, contract_proposalCount env h = Returns c)
                \/ (fst r = Throw (JsError no_contract)
                    /\ exists h e, contract_proposalCount env h = Throws e)))
  end.
Proof.
  cbv zeta. remember (connect w env (s, l)) as r eqn:Hr.
  unfold connect in Hr.
  destruct (ethereum w) as [p |]; [| subst r; reflexivity].
  unfold xtry, xbind, lift, ask, xret, xthrow, modify_contract, call,
    debugLog, ret in Hr.
  cbn [fst snd history called votingContract fhevmClient] in Hr.
  destruct (eth_requestAccounts w (history s) l) as [[] | e] eqn:Hreq;
    cbn [outcome_of] in Hr.
  2: { left. subst r. cbn. unfold stopped_early. eauto 10. }
  destruct (provider_getNetwork env (history s) p) as [n | e] eqn:Hnet;
    cbn [outcome_of] in Hr.
  2: { left. subst r. cbn. unfold stopped_early. eauto 10. }
  fold (on_sepolia n) in Hr.
  assert (Hsw : forall s1 l1, exists o l',
            (if negb (on_sepolia n) then switchToSepolia w
             else fun _ st => (Ok tt, st)) env (s1, l1) = (o, (s1, l'))
            /\ (o = Ok tt
                \/ (exists e, o = Throw e) /\ on_sepolia n = false)).
  { intros s1 l1. destruct (on_sepolia n); cbn [negb]; [eauto |].
    destruct (switch_frame s1 l1) as (o & l' & -> & [-> | He]); eauto 6. }
  match type of Hr with
  | context [_ env (?s1, ?l1)] =>
      destruct (Hsw s1 l1) as (o & l' & Hm & Ho)
  end.
  rewrite Hm in Hr. clear Hsw Hm.
  destruct Ho as [-> | [[e ->] Hchain]].
  2: { left. subst r. cbn. unfold stopped_early. eauto 12. }
  cbn [fst snd history called votingContract fhevmClient] in Hr.
  destruct (provider_getSigner w _ l') as [sg | e] eqn:Hsg;
    cbn [outcome_of] in Hr.
  2: { left. subst r. cbn. unfold stopped_early. eauto 12. }
  match type of Hr with
  | context [Fhevm.init p env ?s3] =>
      destruct (init_frame p s3) as (o & c & h & Hinit & Ho);
      rewrite Hinit in Hr; clear Hinit
  end.
  cbn [fst snd history called votingContract fhevmClient] in Hr.
  right. exists sg.
  destruct Ho as [-> | (e & -> & Hready & Hfail)];
    cbn [fst snd history called votingContract fhevmClient] in Hr;
    destruct (contract_proposalCount env h) as [count | e'] eqn:Hcount;
    cbn [outcome_of] in Hr; subst r;
    cbn [fst snd history called votingContract fhevmClient];
    eexists; (split; [reflexivity |]);
    (split; [unfold Fhevm.isInitialized; try reflexivity;
             rewrite Hready; intros H; discriminate H |]);
    (split; [intros H; try discriminate H; eauto |]);
    (split; [eauto |]); eauto 7.
  Unshelve. all: exact l.
Qed.

(** X24. [connect] answers [true] or raises; it never answers [false].
    Without a wallet it raises before anything is stored, called or
    requested.  When it answers [true] the wallet's provider, the signer
    and a contract made for that signer are stored. *)
Theorem connect_true_or_raises (s : Store) (l : Log) :
  let r := connect w env (s, l) in
  let vc := votingContract (fst (snd r)) in
  (fst r = Ok true \/ exists e, fst r = Throw e)
  /\ (ethereum w = None -> r = (Throw (JsError no_wallet), (s, l)))
  /\ (fst r = Ok true ->
      exists p sg,
        ethereum w = Some p /\ walletProvider vc = Some p
        /\ signer vc = Some sg /\ contract vc = Some sg).
Proof.
  cbv zeta. pose proof (connect_cases s l) as H. cbv zeta in H.
  destruct (ethereum w) as [p |].
  - destruct H as [([e He] & _) | (sg & flag & Hvc & _ & _ & _ & Hr)].
    + split; [eauto |]. split; [discriminate |]. rewrite He. discriminate.
    + rewrite Hvc. cbn [walletProvider signer contract].
      split; [destruct Hr as [[-> _] | [-> _]]; eauto |].
      split; [discriminate | eauto 6].
  - rewrite H. cbn [fst snd]. split; [eauto |]. split; [reflexivity |].
    discriminate.
Qed.

(** X25. [connect] keeps the FHE flag above the adapter's state: if the
    test of [castVote], the flag and [isInitialized()], had the value of
    [isInitialized()] alone before [connect], it has it afterwards, however
    [connect] ends.  An [init] that raised leaves the adapter not ready,
    and one that returned puts the flag up. *)
Theorem connect_flag_follows_adapter (s : Store) (l : Log) :
  isFHEVMEnabled (votingContract s) && Fhevm.isInitialized (fhevmClient s)
  = Fhevm.isInitialized (fhevmClient s) ->
  let s' := fst (snd (connect w env (s, l))) in
  isFHEVMEnabled (votingContract s') && Fhevm.isInitialized (fhevmClient s')
  = Fhevm.isInitialized (fhevmClient s').
Proof.
  intros Hbefore. cbv zeta. pose proof (connect_cases s l) as H.
  cbv zeta in H. destruct (ethereum w) as [p |].
  - destruct H as [(_ & Hvc & Hc & _) | (sg & flag & Hvc & Hflag & _)].
    + rewrite Hvc, Hc. exact Hbefore.
    + rewrite Hvc. cbn [isFHEVMEnabled].
      destruct (Fhevm.isInitialized
                  (fhevmClient (fst (snd (connect w env (s, l))))));
        [| apply andb_false_r].
      rewrite Hflag; reflexivity.
  - rewrite H. exact Hbefore.
Qed.

(** X26. A [connect] that fails at its last step leaves the object
    connected.  With a wallet on Sepolia that grants the accounts and the
    signer, and a contract whose proposal count cannot be read, [connect]
    raises its own message, yet the signer and the contract stay stored and
    the flag is up: a [createProposal] made afterwards is not answered
    [false] but sent. *)
Theorem connect_failed_test_stays_connected (s : Store) (l : Log)
    (p : Provider) (sg : Signer) :
  ethereum w = Some p ->
  (forall h l', eth_requestAccounts w h l' = Returns tt) ->
  (forall h, exists n,
     provider_getNetwork env h p = Returns n
     /\ JS.strict_eq (JS.Number_of_bigint (chainId n))
          (JS.Num SEPOLIA_chainId) = true) ->
  (forall h l', provider_getSigner w h l' = Returns sg) ->
  (forall h, exists e, contract_proposalCount env h = Throws e) ->
  let r := connect w env (s, l) in
  fst r = Throw (JsError no_contract)
  /\ votingContract (fst (snd r))
     = {| contract := Some sg; walletProvider := Some p; signer := Some sg;
          isFHEVMEnabled := true |}
  /\ forall (t d : string) (o : list string) (secs : JS.number),
       exists tail,
         history (snd (Contract.createProposal t d o secs env (fst (snd r))))
         = (history (fst (snd r))
            ++ CallCreateProposal t d o secs :: tail)%list.
Proof.
  intros Hw Hreq Hnet Hsg Hcount. cbv zeta.
  pose proof (connect_cases s l) as H. cbv zeta in H. rewrite Hw in H.
  destruct H as [(_ & _ & _ & (h & l' & Hstop))
                | (sg' & flag & Hvc & _ & Hflag & (h & l' & Hsg') & Hr)].
  - exfalso. destruct (Hnet h) as (n & Hn & Hchain).
    destruct Hstop as [[e He] | [[e He] | [(n' & Hn' & Hoff) | [e He]]]].
    + rewrite Hreq in He. discriminate He.
    + rewrite Hn in He. discriminate He.
    + rewrite Hn in Hn'. injection Hn' as <-. unfold on_sepolia in Hoff.
      congruence.
    + rewrite Hsg in He. discriminate He.
  - rewrite Hsg in Hsg'. injection Hsg' as <-.
    assert (Hup : flag = true).
    { destruct flag; [reflexivity |].
      destruct (Hflag eq_refl) as (h' & e & He).
      destruct (Hnet h') as (n & Hn & _). rewrite Hn in He. discriminate He. }
    subst flag.
    destruct Hr as [(_ & h' & c & Hc) | (Hr & _)].
    + destruct (Hcount h') as (e & He). rewrite He in Hc. discriminate Hc.
    + split; [exact Hr |]. split; [exact Hvc |].
      intros t d o secs. apply createProposal_history. rewrite Hvc.
      discriminate.
Qed.

End WalletFacts.

Lemma connect_flag_follows_adapter_witness :
  let s' :=
    fst (snd (Wallet.connect calm_wallet degraded_env
                (connected_store ready_client true, []))) in
  isFHEVMEnabled (votingContract s') && Fhevm.isInitialized (fhevmClient s')
  = Fhevm.isInitialized (fhevmClient s').
Proof.
  apply (connect_flag_follows_adapter calm_wallet degraded_env
           (connected_store ready_client true) []).
  reflexivity.
Defined.

Lemma connect_failed_test_stays_connected_witness :
  let r := Wallet.connect calm_wallet undeployed_env (fresh_store, []) in
  fst r = Throw (JsError Wallet.no_contract)
  /\ votingContract (fst (snd r))
     = {| contract := Some 7%nat; walletProvider := Some 0%nat;
          signer := Some 7%nat; isFHEVMEnabled := true |}
  /\ forall (t d : string) (o : list string) (secs : JS.number),
       exists tail,
         history (snd (Contract.createProposal t d o secs undeployed_env
                         (fst (snd r))))
         = (history (fst (snd r))
            ++ CallCreateProposal t d o secs :: tail)%list.
Proof.
  apply (connect_failed_test_stays_connected calm_wallet undeployed_env
           fresh_store [] 0%nat 7%nat).
  - reflexivity.
  - intros h l'. reflexivity.
  - intros h. eexists. split; reflexivity.
  - intros h l'. reflexivity.
  - intros h. eexists. reflexivity.
Defined.

(** ** The current adapter against the earlier one *)

Section AgainstLegacy.

Variables (env : Env) (s : Store).

Lemma encrypt32_against_legacy (value : JS.number) :
  let old := Legacy.encrypt32 value env s in
  let new := Fhevm.encrypt32 value env s in
  snd new = snd old
  /\ match fst old with
     | Ok c => fst new = Ok c
     | Throw e =>
         fst new = Ok (simulateEncryption value)
         /\ (e = JsError "FHEVM instance not initialized"
             \/ e = JsError "Failed to encrypt value")
     | OutOfFuel => False
     end.
Proof.
  cbv zeta. unfold Legacy.encrypt32, Fhevm.encrypt32. run_async.
  destruct (isReady (fhevmClient s));
    [| cbn [fst snd]; split; [reflexivity | auto]].
  destruct (instance (fhevmClient s)) as [h |];
    [| cbn [fst snd]; split; [reflexivity | auto]].
  destruct (instance_encrypt32 env (history s) h value) as [[e |] | e];
    cbn [fst snd]; split; auto.
Qed.

(** X27. The current [encryptVote] against the earlier version of the
    adapter: both make the same calls and leave the same state; where the
    earlier one returned a ciphertext the current one returns the same;
    where the earlier one raised for a vote of 0 or 1, the current one
    returns the simulated ciphertext instead; and a vote that is neither
    0 nor 1 is refused by both with the same error. *)
Theorem encryptVote_against_legacy (vote : JS.number) :
  let old := Legacy.encryptVote vote env s in
  let new := Fhevm.encryptVote vote env s in
  snd new = snd old
  /\ (forall c, fst old = Ok c -> fst new = Ok c)
  /\ (forall e, fst old = Throw e ->
        (vote = JS.Num 0 \/ vote = JS.Num 1) ->
        fst new
        = Ok {| Fhevm.encryptedVote := data (simulateEncryption vote);
                Fhevm.inputProof := proof (simulateEncryption vote) |})
  /\ (vote <> JS.Num 0 -> vote <> JS.Num 1 ->
      fst old = Throw (JsError "Vote must be 0 or 1")
      /\ fst new = Throw (JsError "Vote must be 0 or 1"))
  /\ fst old <> OutOfFuel.
Proof.
  cbv zeta. unfold Legacy.encryptVote, Fhevm.encryptVote.
  pose proof (encrypt32_against_legacy vote) as H. cbv zeta in H.
  assert (Hvote : negb (JS.strict_eq vote (JS.Num 0))
                  && negb (JS.strict_eq vote (JS.Num 1)) = false
                  <-> (vote = JS.Num 0 \/ vote = JS.Num 1)).
  { destruct vote as [z | b |]; cbn; try (split; [discriminate |];
      intros [Hv | Hv]; discriminate Hv).
    destruct (Z.eqb_spec z 0) as [-> | H0]; cbn; [tauto |].
    destruct (Z.eqb_spec z 1) as [-> | H1]; cbn; [tauto |].
    split; [discriminate |]. intros [Hv | Hv]; injection Hv; lia. }
  destruct (negb (JS.strict_eq vote (JS.Num 0))
            && negb (JS.strict_eq vote (JS.Num 1))) eqn:Hguard.
  - unfold throw. cbn [fst snd].
    split; [reflexivity |]. split; [intros c Hc; discriminate Hc |].
    split; [intros e _ Hv; apply Hvote in Hv; discriminate Hv |].
    split; [intros _ _; split; reflexivity | discriminate].
  - assert (Hv : vote = JS.Num 0 \/ vote = JS.Num 1) by (apply Hvote; reflexivity).
    unfold bind, debugLog, ret.
    destruct H as [Hs H].
    destruct (Legacy.encrypt32 vote env s) as [[c | e |] s1];
      destruct (Fhevm.encrypt32 vote env s) as [o s2];
      cbn [fst snd] in *; subst s2.
    + subst o. cbn [fst snd].
      split; [reflexivity |].
      split; [intros c' Hc; exact Hc |].
      split; [intros e He; discriminate He |].
      split; [intros H0 H1; tauto | discriminate].
    + destruct H as [-> _]. cbn [fst snd].
      split; [reflexivity |]. split; [intros c Hc; discriminate Hc |].
      split; [reflexivity |].
      split; [intros H0 H1; tauto | discriminate].
    + contradiction.
Qed.

End AgainstLegacy.
